(** * DPD computation engine (dpdce.py): worker, control channel, adaptation cycle

    A shallow embedding of [src/python/dpdce.py].  The engine has two threads:
    the control channel, which turns YAML-RPC requests into commands on a
    one-slot queue or answers them from the shared dictionaries, and the
    worker [engine_worker], which drains the queue and runs the RX gain
    calibration.  The file also contains the measure / model / adapt / report
    adaptation cycle (lines 263-354).

    Everything the engine calls but does not define (AGC, capture, hardware
    adapter, statistics, model fitter, heuristics, diagnostics) is a parameter
    of the development: a function of an abstract world that either returns,
    raises, or never returns. *)

From Stdlib Require Import ZArith List String Ascii Bool Lia DecimalString.
From Stdlib Require Import Sorted.
From Stdlib Require QArith.
Import ListNotations.
Local Open Scope string_scope.
Local Open Scope list_scope.
Local Open Scope Z_scope.

(** ** Python primitives used by the engine *)

Module Py.

(** The three ways a Python call can go: it returns a value, it raises, or
    it never returns (a blocking call that is never woken up). *)
Inductive outcome (E A : Type) : Type :=
| Ok (a : A)
| Raised (e : E)
| Never.
Arguments Ok {E A} a.
Arguments Raised {E A} e.
Arguments Never {E A}.

(** [str(i)] for an [int]. *)
Definition str_of_int (i : Z) : string := NilZero.string_of_int (Z.to_int i).

(** ["prefix{}suffix".format(i)] with one integer field. *)
Definition format1 (prefix suffix : string) (i : Z) : string :=
  (prefix ++ str_of_int i ++ suffix)%string.

Definition newline : ascii := "010"%char.

(** [s.split("\n")]: the pieces between line feeds; never the empty list,
    and a trailing line feed yields a last empty piece. *)
Fixpoint split_newline (s : string) : list string :=
  match s with
  | EmptyString => [EmptyString]
  | String c rest =>
      if Ascii.eqb c newline then EmptyString :: split_newline rest
      else match split_newline rest with
           | piece :: pieces => String c piece :: pieces
           | [] => [String c EmptyString]
           end
  end.

(** [int(a / b)] on integers [a], [b]: true division, then truncation
    towards zero.  The float quotient is exact whenever [b] divides [a]
    and both are small, which is the only way the engine uses it
    ([a] a multiple of 100 up to 500, [b = 5]). *)
Definition int_truediv (a b : Z) : Z := Z.quot a b.

(** [range(n)]. *)
Definition range (n : Z) : list Z := map Z.of_nat (seq 0 (Z.to_nat n)).

(** *** Effects: a state threaded through, events written out in order,
    exceptions propagated.  State changes made before an exception stay
    made, as in Python. *)
Definition M (S Ev E A : Type) : Type := S -> outcome E A * S * list Ev.

Section Effects.
Context {S Ev E : Type}.

Definition ret {A} (a : A) : M S Ev E A := fun s => (Ok a, s, []).

Definition bind {A B} (m : M S Ev E A) (f : A -> M S Ev E B) : M S Ev E B :=
  fun s =>
    let '(r, s1, t1) := m s in
    match r with
    | Ok a => let '(r2, s2, t2) := f a s1 in (r2, s2, t1 ++ t2)
    | Raised e => (Raised e, s1, t1)
    | Never => (Never, s1, t1)
    end.

(** An assignment to a variable or to a key of a dictionary. *)
Definition modify (f : S -> S) : M S Ev E unit :=
  fun s => (Ok tt, f s, []).

Definition get : M S Ev E S := fun s => (Ok s, s, []).

Definition emit (e : Ev) : M S Ev E unit := fun s => (Ok tt, s, [e]).

Definition raise {A} (e : E) : M S Ev E A := fun s => (Raised e, s, []).

(** [try: body finally: fin]: [fin] runs when [body] returns or raises;
    the outcome of [body] stands unless [fin] itself does not return
    normally. *)
Definition try_finally {A} (body : M S Ev E A) (fin : M S Ev E unit)
  : M S Ev E A :=
  fun s =>
    let '(r, s1, t1) := body s in
    match r with
    | Never => (Never, s1, t1)
    | _ =>
        let '(rf, s2, t2) := fin s1 in
        match rf with
        | Ok _ => (r, s2, t1 ++ t2)
        | Raised e => (Raised e, s2, t1 ++ t2)
        | Never => (Never, s2, t1 ++ t2)
        end
    end.

(** [try: body except: handler], the bare [except:] that catches every
    exception. *)
Definition try_except {A} (body : M S Ev E A) (handler : E -> M S Ev E A)
  : M S Ev E A :=
  fun s =>
    let '(r, s1, t1) := body s in
    match r with
    | Raised e => let '(r2, s2, t2) := handler e s1 in (r2, s2, t1 ++ t2)
    | _ => (r, s1, t1)
    end.

End Effects.

End Py.
Import Py.

Declare Scope py_scope.
Delimit Scope py_scope with py.
Notation "x <- m ;; k" := (bind m (fun x => k))
  (at level 61, m at next level, right associativity) : py_scope.
Notation "m ;; k" := (bind m (fun _ => k))
  (at level 61, right associativity) : py_scope.
Local Open Scope py_scope.

(** ** Shared state, worker and control channel (lines 128-234) *)

Module Engine.

(** [settings] (line 131) and [results] (line 137): dictionaries with a
    fixed set of string keys, one field per key. *)
Record settings_t (Num Dpd : Type) : Type := mk_settings {
  rx_gain : Num;
  tx_gain : Num;
  digital_gain : Num;
  dpddata : Dpd
}.
Arguments mk_settings {Num Dpd}.
Arguments rx_gain {Num Dpd}.
Arguments tx_gain {Num Dpd}.
Arguments digital_gain {Num Dpd}.
Arguments dpddata {Num Dpd}.

Record results_t (Num : Type) : Type := mk_results {
  tx_median : Num;
  rx_median : Num;
  state : string;
  stateprogress : Z;
  summary : list string
}.
Arguments mk_results {Num}.
Arguments tx_median {Num}.
Arguments rx_median {Num}.
Arguments state {Num}.
Arguments stateprogress {Num}.
Arguments summary {Num}.

(** The two dictionaries guarded by [lock]. *)
Record shared_t (Num Dpd : Type) : Type := mk_shared {
  settings : settings_t Num Dpd;
  results : results_t Num
}.
Arguments mk_shared {Num Dpd}.
Arguments settings {Num Dpd}.
Arguments results {Num Dpd}.

(** The tuple returned by [meas.get_samples()]. *)
Record samples_t (Frame Ts Med : Type) : Type := mk_samples {
  txframe_aligned : Frame;
  tx_ts : Ts;
  rxframe_aligned : Frame;
  rx_ts : Ts;
  smp_rx_median : Med;
  smp_tx_median : Med
}.
Arguments mk_samples {Frame Ts Med}.
Arguments txframe_aligned {Frame Ts Med}.
Arguments tx_ts {Frame Ts Med}.
Arguments rxframe_aligned {Frame Ts Med}.
Arguments rx_ts {Frame Ts Med}.
Arguments smp_rx_median {Frame Ts Med}.
Arguments smp_tx_median {Frame Ts Med}.

(** What the worker calls and does not define.  [W] is the state of
    everything outside the engine (hardware, AGC, capture), [Exn] the Python
    exceptions, [Num] the Python floats, [Med] the numpy scalars that
    [get_samples] returns as medians. *)
Class Collaborators (W Exn Num Frame Ts Med : Type) : Type := {
  (** [agc.run()] *)
  agc_run : W -> outcome Exn (bool * string) * W;
  (** [meas.get_samples()] *)
  meas_get_samples : W -> outcome Exn (samples_t Frame Ts Med) * W;
  (** [adapt.get_rxgain()] *)
  adapt_get_rxgain : W -> outcome Exn Num * W;
  (** [adapt.get_digital_gain()] *)
  adapt_get_digital_gain : W -> outcome Exn Num * W;
  (** [float(x)] on a median *)
  py_float : Med -> Num
}.

(** Where the worker takes [lock]: lines 158, 168, 176 and 186. *)
Inductive site : Type :=
| AtRunStart
| AtRound (i : Z)
| AtRunDone
| AtFinally.

(** The collaborator methods the worker invokes. *)
Inductive callee : Type :=
| AgcRun
| MeasGetSamples
| AdaptGetRxGain
| AdaptGetDigitalGain.

(** What an observer of the worker thread can see: a collaborator being
    invoked, and the shared dictionaries as they stand each time the lock
    is released. *)
Inductive event (Num Dpd : Type) : Type :=
| EvCall (c : callee)
| EvLocked (at_site : site) (sh : shared_t Num Dpd).
Arguments EvCall {Num Dpd} c.
Arguments EvLocked {Num Dpd} at_site sh.

Section Worker.

Context {W Exn Num Dpd Frame Ts Med : Type}.
Context {co : Collaborators W Exn Num Frame Ts Med}.

Abbreviation shared := (shared_t Num Dpd).
Abbreviation samples := (samples_t Frame Ts Med).
Abbreviation ev := (event Num Dpd).
Abbreviation Worker := (M (W * shared) ev Exn).

(** Assignments to keys of [results] and [settings]. *)
Definition set_state (v : string) (sh : shared) : shared :=
  let r := results sh in
  mk_shared (settings sh)
    (mk_results (tx_median r) (rx_median r) v (stateprogress r) (summary r)).

Definition set_stateprogress (v : Z) (sh : shared) : shared :=
  let r := results sh in
  mk_shared (settings sh)
    (mk_results (tx_median r) (rx_median r) (state r) v (summary r)).

Definition set_summary (v : list string) (sh : shared) : shared :=
  let r := results sh in
  mk_shared (settings sh)
    (mk_results (tx_median r) (rx_median r) (state r) (stateprogress r) v).

Definition set_tx_median (v : Num) (sh : shared) : shared :=
  let r := results sh in
  mk_shared (settings sh)
    (mk_results v (rx_median r) (state r) (stateprogress r) (summary r)).

Definition set_rx_median (v : Num) (sh : shared) : shared :=
  let r := results sh in
  mk_shared (settings sh)
    (mk_results (tx_median r) v (state r) (stateprogress r) (summary r)).

Definition set_rx_gain (v : Num) (sh : shared) : shared :=
  let c := settings sh in
  mk_shared (mk_settings v (tx_gain c) (digital_gain c) (dpddata c))
    (results sh).

Definition set_digital_gain (v : Num) (sh : shared) : shared :=
  let c := settings sh in
  mk_shared (mk_settings (rx_gain c) (tx_gain c) v (dpddata c)) (results sh).

(** A call to a collaborator: the world moves on, the call is observed. *)
Definition call {A} (c : callee) (f : W -> outcome Exn A * W) : Worker A :=
  fun s => let '(r, w') := f (fst s) in (r, (w', snd s), [EvCall c]).

(** An assignment into the shared dictionaries. *)
Definition assign (f : shared -> shared) : Worker unit :=
  modify (fun s => (fst s, f (snd s))).

(** [with lock: body]: the lock is released when [body] returns or raises,
    and the dictionaries are then visible as [body] left them. *)
Definition with_lock {A} (at_site : site) (body : Worker A) : Worker A :=
  fun s =>
    let '(r, s1, t1) := body s in
    match r with
    | Never => (Never, s1, t1)
    | _ => (r, s1, t1 ++ [EvLocked at_site (snd s1)])
    end.

Definition N_ITER : Z := 5.

(** The body of [for i in range(N_ITER)] (lines 164-172), over the rounds
    still to run; [summary] is the worker's local variable. *)
Fixpoint calibrate_rounds (rounds : list Z) (summary : list string)
  : Worker (list string) :=
  match rounds with
  | [] => ret summary
  | i :: rest =>
      r <- call AgcRun agc_run ;;
      let '(agc_success, agc_summary) := r in
      let summary :=
        format1 "calibration run " ":" i :: split_newline agc_summary in
      with_lock (AtRound i)
        (assign (set_stateprogress (int_truediv ((i + 1) * 100) N_ITER))) ;;
      if negb agc_success then ret summary
      else calibrate_rounds rest summary
  end.

(** The [elif cmd == "calibrate"] branch (lines 158-183). *)
Definition calibrate : Worker unit :=
  with_lock AtRunStart
    (assign (set_state "RX Gain Calibration") ;;
     assign (set_stateprogress 0)) ;;
  summary <- calibrate_rounds (range N_ITER) [] ;;
  smp <- call MeasGetSamples meas_get_samples ;;
  with_lock AtRunDone
    (g <- call AdaptGetRxGain adapt_get_rxgain ;;
     assign (set_rx_gain g) ;;
     d <- call AdaptGetDigitalGain adapt_get_digital_gain ;;
     assign (set_digital_gain d) ;;
     assign (set_tx_median (py_float (smp_tx_median smp))) ;;
     assign (set_rx_median (py_float (smp_rx_median smp))) ;;
     assign (set_state "Idle") ;;
     assign (set_stateprogress 0) ;;
     assign (set_summary ("Calibration was done:" :: summary))).

(** [while True] of the worker (lines 152-183).  [cmds] is what
    [command_queue.get()] delivers, in order; once nothing is left the worker
    waits in [get()] for ever. *)
Fixpoint worker_loop (cmds : list string) : Worker unit :=
  match cmds with
  | [] => fun s => (Never, s, [])
  | cmd :: rest =>
      if (cmd =? "quit")%string then ret tt
      else if (cmd =? "calibrate")%string then calibrate ;; worker_loop rest
      else worker_loop rest
  end.

(** [engine_worker] (lines 150-188). *)
Definition engine_worker (cmds : list string) : Worker unit :=
  try_finally (worker_loop cmds)
    (with_lock AtFinally
       (assign (set_state "Terminated") ;; assign (set_stateprogress 0))).

(** *** Reading a run of the worker *)

(** The dictionaries when the last critical section of a run (lines
    176-183) has gone through. *)
Definition run_done (sh : shared) (g d : Num) (smp : samples_t Frame Ts Med)
  (summ : list string) : shared :=
  set_summary ("Calibration was done:" :: summ)
    (set_stateprogress 0
       (set_state "Idle"
          (set_rx_median (py_float (smp_rx_median smp))
             (set_tx_median (py_float (smp_tx_median smp))
                (set_digital_gain d (set_rx_gain g sh)))))).

(** The dictionaries as the first critical section of a run leaves them
    (lines 158-160). *)
Definition run_start (sh : shared) : shared :=
  set_stateprogress 0 (set_state "RX Gain Calibration" sh).

(** The dictionaries as the [finally] block leaves them (lines 186-188). *)
Definition terminated (sh : shared) : shared :=
  set_stateprogress 0 (set_state "Terminated" sh).


(** The first [n] successive calls of [agc.run()] from world [w] all
    return success: the world they leave, [None] otherwise.  Between two
    rounds of a calibration the worker calls nothing else. *)
Fixpoint agc_succeeds (n : nat) (w : W) : option W :=
  match n with
  | O => Some w
  | S n' =>
      match agc_run w with
      | (Ok (true, _), w1) => agc_succeeds n' w1
      | _ => None
      end
  end.

(** What the rounds of one calibration get from [agc.run()], from world [w]
    and with at most [n] rounds to go: the pairs returned, up to the first
    round that reports no success (line 171) and no further than a call
    that does not return. *)
Fixpoint rounds_played (n : nat) (w : W) : list (bool * string) :=
  match n with
  | O => []
  | S n' =>
      match agc_run w with
      | (Ok (agc_success, agc_summary), w1) =>
          (agc_success, agc_summary)
            :: (if agc_success then rounds_played n' w1 else [])
      | _ => []
      end
  end.

(** The shared dictionaries at each release of the lock, in order. *)
Fixpoint locked (tr : list ev) : list (site * shared) :=
  match tr with
  | [] => []
  | EvLocked at_site sh :: tr' => (at_site, sh) :: locked tr'
  | EvCall _ :: tr' => locked tr'
  end.

(** How often [agc.run()] was invoked. *)
Fixpoint agc_rounds_run (tr : list ev) : nat :=
  match tr with
  | [] => O
  | EvCall AgcRun :: tr' => S (agc_rounds_run tr')
  | _ :: tr' => agc_rounds_run tr'
  end.

Definition progress_of (x : site * shared) : Z := stateprogress (results (snd x)).
Definition state_of (x : site * shared) : string := state (results (snd x)).

(** Two successive publications inside one calibration run: while both show
    the state of a run in progress, the progress does not go down. *)
Definition within_run_le (a b : site * shared) : Prop :=
  state_of a = "RX Gain Calibration" ->
  state_of b = "RX Gain Calibration" ->
  progress_of a <= progress_of b.

Definition progress_in_range (x : site * shared) : Prop :=
  0 <= progress_of x <= 100.

(** The publication that opens a run shows progress 0, and so does every
    publication that shows the state ['Idle']. *)
Definition reset_at_start (x : site * shared) : Prop :=
  fst x = AtRunStart -> progress_of x = 0.

Definition reset_at_idle (x : site * shared) : Prop :=
  state_of x = "Idle" -> progress_of x = 0.

(** What C3 asks of the successive publications of the worker. *)
Definition progress_discipline (l : list (site * shared)) : Prop :=
  Forall progress_in_range l /\
  Sorted within_run_le l /\
  Forall reset_at_start l /\
  Forall reset_at_idle l.

(** The percentage written after round [i] (line 169). *)
Definition round_progress (i : Z) : Z := int_truediv ((i + 1) * 100) N_ITER.

(** The first line of a round's summary (line 166). *)
Definition round_title (i : Z) : string := format1 "calibration run " ":" i.

(** What the lock release after round [i] shows when the dictionaries were
    [sh] before the round: only [stateprogress] differs. *)
Definition round_snap (sh : shared) (i : Z) : site * shared :=
  (AtRound i, set_stateprogress (round_progress i) sh).

(** From the words of the specification: [round(100*(i+1)/N_ITER)], the
    quotient rounded to the nearest integer, a tie going to the even one. *)
Definition round_half_even (a b : Z) : Z :=
  let q := a / b in
  let r := a mod b in
  if 2 * r <? b then q
  else if b <? 2 * r then q + 1
  else if Z.even q then q else q + 1.

Definition spec_round_progress (i : Z) : Z :=
  round_half_even (100 * (i + 1)) N_ITER.

(** What round [i] of a run shows to an observer when [agc.run()] returns
    (lines 165-169): the call, then the lock released on the dictionaries of
    the start of the run, [sh0], with [stateprogress] alone replaced, by the
    percentage the specification names. *)
Definition round_events (sh0 : shared) (i : Z) : list ev :=
  [EvCall AgcRun;
   EvLocked (AtRound i) (set_stateprogress (spec_round_progress i) sh0)].

Definition is_round_release (e : ev) : bool :=
  match e with EvLocked (AtRound _) _ => true | _ => false end.

(** How often a given collaborator method was invoked. *)
Definition callee_eqb (a b : callee) : bool :=
  match a, b with
  | AgcRun, AgcRun | MeasGetSamples, MeasGetSamples
  | AdaptGetRxGain, AdaptGetRxGain
  | AdaptGetDigitalGain, AdaptGetDigitalGain => true
  | _, _ => false
  end.

Fixpoint calls_of (c : callee) (tr : list ev) : nat :=
  match tr with
  | [] => O
  | EvCall c' :: tr' =>
      if callee_eqb c c' then S (calls_of c tr') else calls_of c tr'
  | EvLocked _ _ :: tr' => calls_of c tr'
  end.

(** No collaborator call waits for ever. *)
Definition never_hangs : Prop :=
  (forall w, fst (agc_run w) <> Never) /\
  (forall w, fst (meas_get_samples w) <> Never) /\
  (forall w, fst (adapt_get_rxgain w) <> Never) /\
  (forall w, fst (adapt_get_digital_gain w) <> Never).

(** The keys of [settings] that the worker has no assignment for. *)
Definition same_tx_side (sh sh' : shared) : Prop :=
  tx_gain (settings sh') = tx_gain (settings sh) /\
  dpddata (settings sh') = dpddata (settings sh).

(** A computation that leaves [tx_gain] and [dpddata] alone, in its final
    state and in everything it publishes. *)
Definition keeps_tx_side {A} (m : Worker A) : Prop :=
  forall w sh,
    same_tx_side sh (snd (snd (fst (m (w, sh))))) /\
    Forall (fun x => same_tx_side sh (snd x)) (locked (snd (m (w, sh)))).

(** The commands the worker has a branch for (lines 155 and 157). *)
Definition handled (cmd : string) : bool :=
  ((cmd =? "quit") || (cmd =? "calibrate"))%string.

End Worker.

(** *** The control channel (lines 194-234) *)

(** What [cmd_socket.receive_request()] does on one call: it returns a
    request, or raises one of the exceptions the loop tells apart. *)
Inductive received (Addr MsgId Params : Type) : Type :=
| Request (addr : Addr) (msg_id : MsgId) (method : string) (params : Params)
| RaisedValueError (e : string)
| RaisedTimeoutError
| RaisedKeyboardInterrupt
| RaisedOther.
Arguments Request {Addr MsgId Params}.
Arguments RaisedValueError {Addr MsgId Params}.
Arguments RaisedTimeoutError {Addr MsgId Params}.
Arguments RaisedKeyboardInterrupt {Addr MsgId Params}.
Arguments RaisedOther {Addr MsgId Params}.

(** The dictionary handed to [send_success_response]. *)
Inductive payload (Num Dpd : Type) : Type :=
| PayloadSettings (s : settings_t Num Dpd)
| PayloadResults (r : results_t Num).
Arguments PayloadSettings {Num Dpd}.
Arguments PayloadResults {Num Dpd}.

(** The effects of the control thread, in the order they happen.
    [QueuePut cmd] is [command_queue.put(cmd)] having put [cmd] on the
    queue; [EngineJoin] is the thread reaching [engine.join()], where it
    waits for the worker. *)
Inductive action (Addr MsgId Num Dpd : Type) : Type :=
| LoggingInfo (msg : string)
| LoggingWarning (msg : string)
| LoggingError (msg : string)
| QueuePut (cmd : string)
| SendSuccessResponse (addr : Addr) (msg_id : MsgId) (p : payload Num Dpd)
| SendErrorResponse (addr : Addr) (msg_id : MsgId) (message : string)
| EngineJoin.
Arguments LoggingInfo {Addr MsgId Num Dpd}.
Arguments LoggingWarning {Addr MsgId Num Dpd}.
Arguments LoggingError {Addr MsgId Num Dpd}.
Arguments QueuePut {Addr MsgId Num Dpd}.
Arguments SendSuccessResponse {Addr MsgId Num Dpd}.
Arguments SendErrorResponse {Addr MsgId Num Dpd}.
Arguments EngineJoin {Addr MsgId Num Dpd}.

Section ControlChannel.

Context {Addr MsgId Params Num Dpd : Type}.

(** [str(params)], as [format] renders the parameters. *)
Variable str_params : Params -> string.

Abbreviation act := (action Addr MsgId Num Dpd).

(** The [if method == ...] chain (lines 210-230) for one received request;
    [sh] is what the shared dictionaries hold when the lock is taken. *)
Definition dispatch (addr : Addr) (msg_id : MsgId) (method : string)
  (params : Params) (sh : shared_t Num Dpd) : list act :=
  if (method =? "trigger_run")%string then
    [LoggingInfo ("YAML-RPC request : " ++ method)%string;
     QueuePut "trigger_run"]
  else if (method =? "reset")%string then
    [LoggingInfo ("YAML-RPC request : " ++ method)%string;
     QueuePut "reset"]
  else if (method =? "set_setting")%string then
    [LoggingInfo
       ("YAML-RPC request : " ++ method ++ " -> " ++ str_params params)%string]
  else if (method =? "get_settings")%string then
    [SendSuccessResponse addr msg_id (PayloadSettings (settings sh))]
  else if (method =? "get_results")%string then
    [SendSuccessResponse addr msg_id (PayloadResults (results sh))]
  else if (method =? "calibrate")%string then
    [LoggingInfo ("YAML-RPC request : " ++ method)%string;
     QueuePut "calibrate"]
  else
    [SendErrorResponse addr msg_id "request not understood"].

Definition is_put (a : act) : bool :=
  match a with QueuePut _ => true | _ => false end.

(** What happens of [acts] when the first [put] among them finds the queue
    full and is never woken ([block=True], no timeout): what comes before
    it.  The thread then stays in that [put]. *)
Fixpoint before_put (acts : list act) : list act :=
  match acts with
  | [] => []
  | QueuePut _ :: _ => []
  | a :: acts' => a :: before_put acts'
  end.

(** The [finally] of the control thread (lines 231-234), when its [put]
    returns. *)
Definition shutdown : list act :=
  [QueuePut "quit"; LoggingInfo "Waiting for DPDCE to stop"; EngineJoin].

(** One pass of the receive loop as its surroundings decide it: what
    [receive_request] did, the shared dictionaries as they stand when the
    request is served, and whether the [command_queue.put] this pass leads
    to, if it leads to one, returns. *)
Abbreviation receipt :=
  (received Addr MsgId Params * shared_t Num Dpd * bool)%type.

(** The control thread (lines 194-234) over the passes of its receive loop.
    A [put] that does not return ends the list: the thread stays in it, the
    command is not queued and nothing of what follows in the source is
    reached.  With nothing more to receive the thread keeps waiting on the
    socket. *)
Fixpoint control_loop (inbox : list receipt) : list act :=
  match inbox with
  | [] => []
  | (Request addr msg_id method params, sh, put_returns) :: rest =>
      let acts := dispatch addr msg_id method params sh in
      if existsb is_put acts && negb put_returns then before_put acts
      else acts ++ control_loop rest
  | (RaisedValueError e, _, _) :: rest =>
      LoggingWarning ("YAML-RPC request error: " ++ e)%string
        :: control_loop rest
  | (RaisedTimeoutError, _, _) :: rest => control_loop rest
  | (RaisedKeyboardInterrupt, _, put_returns) :: _ =>
      LoggingInfo "Caught KeyboardInterrupt"
        :: (if put_returns then shutdown else before_put shutdown)
  | (RaisedOther, _, put_returns) :: _ =>
      LoggingError "YAML-RPC unknown error"
        :: (if put_returns then shutdown else before_put shutdown)
  end.

(** The responses among the actions. *)
Definition is_error_response (a : act) : bool :=
  match a with SendErrorResponse _ _ _ => true | _ => false end.

Definition is_response (a : act) : bool :=
  match a with
  | SendSuccessResponse _ _ _ | SendErrorResponse _ _ _ => true
  | _ => false
  end.

(** The six method names the dispatcher knows. *)
Definition known_methods : list string :=
  ["trigger_run"; "reset"; "set_setting"; "get_settings"; "get_results";
   "calibrate"].

(** The methods that are acknowledged by nothing at all. *)
Definition silent_methods : list string :=
  ["trigger_run"; "reset"; "set_setting"; "calibrate"].

(** The commands put on the queue, in order. *)
Fixpoint queued (acts : list act) : list string :=
  match acts with
  | [] => []
  | QueuePut cmd :: acts' => cmd :: queued acts'
  | _ :: acts' => queued acts'
  end.

(** The exceptions of [receive_request] that end the receive loop
    (lines 203-208). *)
Definition is_fatal (r : received Addr MsgId Params) : bool :=
  match r with
  | RaisedKeyboardInterrupt | RaisedOther => true
  | _ => false
  end.

(** The requester and the content of a response. *)
Definition answers (addr : Addr) (msg_id : MsgId) (method : string)
  (sh : shared_t Num Dpd) (a : act) : Prop :=
  (method = "get_settings" /\
   a = SendSuccessResponse addr msg_id (PayloadSettings (settings sh))) \/
  (method = "get_results" /\
   a = SendSuccessResponse addr msg_id (PayloadResults (results sh))) \/
  (~ In method known_methods /\
   a = SendErrorResponse addr msg_id "request not understood").

(** The methods that put a command on the queue. *)
Definition command_methods : list string :=
  ["trigger_run"; "reset"; "calibrate"].

(** The pass leads to a [put] (lines 212, 215, 228 and 232) and that [put]
    does not return. *)
Definition put_waits (x : receipt) : bool :=
  let '(r, _, put_returns) := x in
  negb put_returns &&
  match r with
  | Request _ _ method _ => existsb (String.eqb method) command_methods
  | RaisedKeyboardInterrupt | RaisedOther => true
  | _ => false
  end.

(** The pass is the last one: [receive_request] raised what leaves the loop,
    or the thread stays in a [put]. *)
Definition ends_loop (x : receipt) : bool :=
  is_fatal (fst (fst x)) || put_waits x.

(** The loop was left through an exception and the [put] of the shutdown
    returned. *)
Definition quit_queued (inbox : list receipt) : bool :=
  match find ends_loop inbox with
  | Some (r, _, put_returns) => is_fatal r && put_returns
  | None => false
  end.

End ControlChannel.

End Engine.

(** ** The adaptation cycle (lines 263-354)

    The cycle follows [sys.exit(0)] of line 237 and is not reached when the
    file runs; it is embedded as it is written. *)

Module Cycle.

Import Engine.

(** [(tx, rx, phase_diff, n_per_bin)] as [extStat.extract] returns them; the
    first three are [None] until the accumulator has data. *)
Record extracted_t (Arr : Type) : Type := mk_extracted {
  tx : option Arr;
  rx : option Arr;
  phase_diff : option Arr;
  n_per_bin : Arr
}.
Arguments mk_extracted {Arr}.
Arguments tx {Arr}.
Arguments rx {Arr}.
Arguments phase_diff {Arr}.
Arguments n_per_bin {Arr}.

(** [dpddata]: a tuple whose first component is the tag. *)
Inductive dpddata_t (Num Coefs : Type) : Type :=
| DpdPoly (coefs_am coefs_pm : Coefs)
| DpdLut (scalefactor : Num) (lut : Coefs)
| DpdOther (tag : string).
Arguments DpdPoly {Num Coefs}.
Arguments DpdLut {Num Coefs}.
Arguments DpdOther {Num Coefs}.

(** The module-level variables the cycle reads across iterations.  A name
    that is not bound yet is [None] at the outer level.  The names assigned
    in the Report step only ([off], [tx_mer], [mse], [lr], ...) are read
    nowhere else and are local bindings of [report_body]; the same holds for
    the rebinding of [tx_median] at line 318. *)
Record vars (W ES Num Coefs Arr Frame Ts Med : Type) : Type := mk_vars {
  state : string;
  i : Z;
  n_meas : option Z;
  frames : option (samples_t Frame Ts Med);
  extracted : option (extracted_t Arr);
  dpddata : dpddata_t Num Coefs;
  extStat : ES;
  world : W
}.
Arguments mk_vars {W ES Num Coefs Arr Frame Ts Med}.
Arguments state {W ES Num Coefs Arr Frame Ts Med}.
Arguments i {W ES Num Coefs Arr Frame Ts Med}.
Arguments n_meas {W ES Num Coefs Arr Frame Ts Med}.
Arguments frames {W ES Num Coefs Arr Frame Ts Med}.
Arguments extracted {W ES Num Coefs Arr Frame Ts Med}.
Arguments dpddata {W ES Num Coefs Arr Frame Ts Med}.
Arguments extStat {W ES Num Coefs Arr Frame Ts Med}.
Arguments world {W ES Num Coefs Arr Frame Ts Med}.

(** The collaborator methods the cycle invokes. *)
Inductive callee : Type :=
| MeasGetSamples
| ExtStatExtract
| ModelTrain
| ModelGetDpdData
| NewExtractStatistic
| AdaptSetPredistorter
| AdaptDump
| SymbolAlignCalcOffset
| MerCalcMer
| NpMse
| AdaptGetTxGain
| AdaptGetRxGain
| AdaptGetDigitalGain
| NpAbsMedian
| AverageShoulders.

(** The values of the generic log record of line 325, in its order. *)
Record metrics (Num Sh : Type) : Type := mk_metrics {
  m_i : Z;
  m_tx_mer : Num;
  m_tx_shoulder_tuple : Sh;
  m_rx_mer : Num;
  m_rx_shoulder_tuple : Sh;
  m_mse : Num;
  m_tx_gain : Num;
  m_digital_gain : Num;
  m_rx_gain : Num;
  m_rx_median : Num;
  m_tx_median : Num;
  m_lr : Num;
  m_n_meas : option Z
}.
Arguments mk_metrics {Num Sh}.

(** One constructor per [logging] statement of the cycle. *)
Inductive log_record (Exn Num Coefs Sh : Type) : Type :=
| ErrNoData                              (* line 288 *)
| InfoMetrics (m : metrics Num Sh)       (* line 325 *)
| InfoCoefsAm (idx : Z) (c : Coefs)      (* line 335 *)
| InfoCoefsPm (idx : Z) (c : Coefs)      (* line 337 *)
| InfoLut (idx : Z) (scalefactor : Num) (lut : Coefs) (* line 342 *)
| ErrReportFailed (idx : Z)              (* line 345 *)
| ErrTraceback (e : Exn)                 (* lines 346 and 352 *)
| ErrIterationFailed (idx : Z).          (* line 351 *)
Arguments ErrNoData {Exn Num Coefs Sh}.
Arguments InfoMetrics {Exn Num Coefs Sh}.
Arguments InfoCoefsAm {Exn Num Coefs Sh}.
Arguments InfoCoefsPm {Exn Num Coefs Sh}.
Arguments InfoLut {Exn Num Coefs Sh}.
Arguments ErrReportFailed {Exn Num Coefs Sh}.
Arguments ErrTraceback {Exn Num Coefs Sh}.
Arguments ErrIterationFailed {Exn Num Coefs Sh}.

(** What the cycle does to the outside: a collaborator invoked, stamped with
    the iteration counter [i] and the accumulated count [extStat.n_meas] at
    the time of the call, and a record handed to [logging]. *)
Inductive event (Exn Num Coefs Sh : Type) : Type :=
| Called (c : callee) (idx : Z) (accumulated : Z)
| Logged (r : log_record Exn Num Coefs Sh).
Arguments Called {Exn Num Coefs Sh}.
Arguments Logged {Exn Num Coefs Sh}.

(** What the cycle calls and does not define. *)
Class Collaborators (W ES Exn Num Coefs Arr Sh Frame Ts Med : Type) : Type := {
  (** [meas.get_samples()] *)
  meas_get_samples : W -> outcome Exn (samples_t Frame Ts Med) * W;
  (** [extStat.extract(txframe_aligned, rxframe_aligned)] *)
  extStat_extract :
    Frame -> Frame -> ES * W -> outcome Exn (extracted_t Arr) * (ES * W);
  (** [extStat.n_meas] *)
  extStat_n_meas : ES -> Z;
  (** [ExtractStatistic(c)] *)
  new_ExtractStatistic : W -> outcome Exn ES * W;
  (** [Heuristics.get_n_meas(i)] and [Heuristics.get_learning_rate(i)] *)
  get_n_meas : Z -> Z;
  get_learning_rate : Z -> Num;
  (** [model.train(tx, rx, phase_diff, lr=lr)] and [model.get_dpd_data()] *)
  model_train : Arr -> Arr -> Arr -> Num -> W -> outcome Exn unit * W;
  model_get_dpd_data : W -> outcome Exn (dpddata_t Num Coefs) * W;
  (** [adapt.set_predistorter(dpddata)], [adapt.dump()] and the gains *)
  adapt_set_predistorter : dpddata_t Num Coefs -> W -> outcome Exn unit * W;
  adapt_dump : W -> outcome Exn unit * W;
  adapt_get_txgain : W -> outcome Exn Num * W;
  adapt_get_rxgain : W -> outcome Exn Num * W;
  adapt_get_digital_gain : W -> outcome Exn Num * W;
  (** [symbol_align.calc_offset(frame)] *)
  symbol_align_calc_offset : Frame -> W -> outcome Exn Z * W;
  (** [mer.calc_mer(frame[off:off + c.T_U], debug_name=name)] *)
  mer_calc_mer : Frame -> Z -> string -> W -> outcome Exn Num * W;
  (** [np.mean(np.abs((txframe - rxframe) ** 2))] *)
  np_mse : Frame -> Frame -> W -> outcome Exn Num * W;
  (** [np.median(np.abs(frame))] *)
  np_abs_median : Frame -> W -> outcome Exn Num * W;
  (** [meas_shoulders.average_shoulders(frame)] *)
  average_shoulders : Frame -> W -> outcome Exn Sh * W;
  (** the median of a capture as the log record shows it *)
  med_num : Med -> Num;
  (** the [NameError] raised when an unbound name is read *)
  name_error : string -> Exn
}.

Definition num_iter : Z := 10.

Section AdaptationCycle.

Context {W ES Exn Num Coefs Arr Sh Frame Ts Med : Type}.
Context {co : Collaborators W ES Exn Num Coefs Arr Sh Frame Ts Med}.

Abbreviation vars_t := (vars W ES Num Coefs Arr Frame Ts Med).
Abbreviation ev := (event Exn Num Coefs Sh).
Abbreviation Cyc := (M vars_t ev Exn).

(** Assignments to the module-level variables. *)
Definition set_state (v : string) (g : vars_t) : vars_t :=
  mk_vars v (i g) (n_meas g) (frames g) (extracted g) (dpddata g)
    (extStat g) (world g).

Definition set_i (v : Z) (g : vars_t) : vars_t :=
  mk_vars (state g) v (n_meas g) (frames g) (extracted g) (dpddata g)
    (extStat g) (world g).

Definition set_n_meas (v : Z) (g : vars_t) : vars_t :=
  mk_vars (state g) (i g) (Some v) (frames g) (extracted g) (dpddata g)
    (extStat g) (world g).

Definition set_frames (v : samples_t Frame Ts Med) (g : vars_t) : vars_t :=
  mk_vars (state g) (i g) (n_meas g) (Some v) (extracted g) (dpddata g)
    (extStat g) (world g).

Definition set_extracted (v : extracted_t Arr) (g : vars_t) : vars_t :=
  mk_vars (state g) (i g) (n_meas g) (frames g) (Some v) (dpddata g)
    (extStat g) (world g).

Definition set_dpddata (v : dpddata_t Num Coefs) (g : vars_t) : vars_t :=
  mk_vars (state g) (i g) (n_meas g) (frames g) (extracted g) v
    (extStat g) (world g).

Definition set_extStat (v : ES) (g : vars_t) : vars_t :=
  mk_vars (state g) (i g) (n_meas g) (frames g) (extracted g) (dpddata g)
    v (world g).

Definition set_world (v : W) (g : vars_t) : vars_t :=
  mk_vars (state g) (i g) (n_meas g) (frames g) (extracted g) (dpddata g)
    (extStat g) v.

(** A call to a collaborator acting on the world. *)
Definition call {A} (c : callee) (f : W -> outcome Exn A * W) : Cyc A :=
  fun g =>
    let '(r, w') := f (world g) in
    (r, set_world w' g, [Called c (i g) (extStat_n_meas (extStat g))]).

(** A call to a method of the accumulator [extStat]. *)
Definition call_extStat {A} (c : callee)
  (f : ES * W -> outcome Exn A * (ES * W)) : Cyc A :=
  fun g =>
    let '(r, (es', w')) := f (extStat g, world g) in
    (r, set_world w' (set_extStat es' g),
     [Called c (i g) (extStat_n_meas (extStat g))]).

Definition logging (r : log_record Exn Num Coefs Sh) : Cyc unit :=
  emit (Logged r).

(** [state == 'measure'] (lines 270-282). *)
Definition measure_step : Cyc unit :=
  smp <- call MeasGetSamples meas_get_samples ;;
  modify (set_frames smp) ;;
  ex <- call_extStat ExtStatExtract
          (extStat_extract (txframe_aligned smp) (rxframe_aligned smp)) ;;
  modify (set_extracted ex) ;;
  g <- get ;;
  let required := get_n_meas (i g) in
  modify (set_n_meas required) ;;
  if extStat_n_meas (extStat g) >=? required
  then modify (set_state "model")
  else modify (set_state "measure").

(** [state == 'model'] (lines 285-295).  Reading [tx], [rx], [phase_diff]
    before any capture was extracted raises [NameError]. *)
Definition model_step : Cyc unit :=
  g <- get ;;
  match extracted g with
  | None => raise (name_error "tx")
  | Some ex =>
      match tx ex, rx ex, phase_diff ex with
      | Some t, Some r, Some p =>
          call ModelTrain (model_train t r p (get_learning_rate (i g))) ;;
          d <- call ModelGetDpdData model_get_dpd_data ;;
          modify (set_dpddata d) ;;
          es <- call NewExtractStatistic new_ExtractStatistic ;;
          modify (set_extStat es) ;;
          modify (set_state "adapt")
      | _, _, _ =>
          logging ErrNoData ;;
          modify (set_state "measure")
      end
  end.

(** [state == 'adapt'] (lines 298-300). *)
Definition adapt_step : Cyc unit :=
  g <- get ;;
  call AdaptSetPredistorter (adapt_set_predistorter (dpddata g)) ;;
  modify (set_state "report").

(** The [try] block of the Report step (lines 305-343). *)
Definition report_body : Cyc unit :=
  smp <- call MeasGetSamples meas_get_samples ;;
  modify (set_frames smp) ;;
  call AdaptDump adapt_dump ;;
  off <- call SymbolAlignCalcOffset
           (symbol_align_calc_offset (txframe_aligned smp)) ;;
  tx_mer <- call MerCalcMer (mer_calc_mer (txframe_aligned smp) off "TX") ;;
  rx_mer <- call MerCalcMer (mer_calc_mer (rxframe_aligned smp) off "RX") ;;
  mse <- call NpMse (np_mse (txframe_aligned smp) (rxframe_aligned smp)) ;;
  tx_gain <- call AdaptGetTxGain adapt_get_txgain ;;
  rx_gain <- call AdaptGetRxGain adapt_get_rxgain ;;
  digital_gain <- call AdaptGetDigitalGain adapt_get_digital_gain ;;
  tx_median <- call NpAbsMedian (np_abs_median (txframe_aligned smp)) ;;
  rx_shoulder_tuple <- call AverageShoulders
                         (average_shoulders (rxframe_aligned smp)) ;;
  tx_shoulder_tuple <- call AverageShoulders
                         (average_shoulders (txframe_aligned smp)) ;;
  g <- get ;;
  let lr := get_learning_rate (i g) in
  logging (InfoMetrics
             (mk_metrics (i g) tx_mer tx_shoulder_tuple rx_mer
                rx_shoulder_tuple mse tx_gain digital_gain rx_gain
                (med_num (smp_rx_median smp)) tx_median lr (n_meas g))) ;;
  match dpddata g with
  | DpdPoly coefs_am coefs_pm =>
      logging (InfoCoefsAm (i g) coefs_am) ;;
      logging (InfoCoefsPm (i g) coefs_pm)
  | DpdLut scalefactor lut => logging (InfoLut (i g) scalefactor lut)
  | DpdOther _ => ret tt
  end.

(** [state == 'report'] (lines 303-348): the inner [try]/[except], then
    [i += 1] and [state = 'measure']. *)
Definition report_step : Cyc unit :=
  try_except report_body
    (fun e =>
       g <- get ;;
       logging (ErrReportFailed (i g)) ;;
       logging (ErrTraceback e)) ;;
  modify (fun g => set_i (i g + 1) g) ;;
  modify (set_state "measure").

(** The statements under the outer [try] (lines 269-348). *)
Definition iteration_body : Cyc unit :=
  g <- get ;;
  if (state g =? "measure")%string then measure_step
  else if (state g =? "model")%string then model_step
  else if (state g =? "adapt")%string then adapt_step
  else if (state g =? "report")%string then report_step
  else ret tt.

(** One pass through the body of [while i < num_iter] (lines 268-354). *)
Definition iteration : Cyc unit :=
  try_except iteration_body
    (fun e =>
       g <- get ;;
       logging (ErrIterationFailed (i g)) ;;
       logging (ErrTraceback e) ;;
       modify (fun g => set_i (i g + 1) g) ;;
       modify (set_state "measure")).

(** [while i < num_iter], for at most [fuel] passes: [true] when the loop
    condition failed, [false] when the passes ran out first. *)
Fixpoint cycle (fuel : nat) : Cyc bool :=
  g <- get ;;
  if i g <? num_iter then
    match fuel with
    | O => ret false
    | S fuel' => iteration ;; cycle fuel'
    end
  else ret true.

(** The variables as lines 263-265 (and 104, 113) leave them. *)
Definition initial_vars (d : dpddata_t Num Coefs) (es : ES) (w : W) : vars_t :=
  mk_vars "report" 0 None None None d es w.

(** *** Reading a run of the cycle *)


Definition is_train (e : ev) : bool :=
  match e with
  | Called ModelTrain _ _ => true
  | _ => false
  end.


(** A step that leaves the iteration counter, the state and the accumulator
    alone and does not call the fitter. *)
Definition frame (g g' : vars_t) : Prop :=
  i g' = i g /\ state g' = state g /\ extStat g' = extStat g.

Definition framed {A} (m : Cyc A) : Prop :=
  forall g,
    frame g (snd (fst (m g))) /\
    Forall (fun e => is_train e = false) (snd (m g)).

(** A step that leaves the iteration counter alone. *)
Definition keeps_counter {A} (m : Cyc A) : Prop :=
  forall g, i (snd (fst (m g))) = i g.

(** The iteration indices of the calls of the fitter, in order. *)
Fixpoint train_indices (tr : list ev) : list Z :=
  match tr with
  | [] => []
  | Called ModelTrain idx _ :: tr' => idx :: train_indices tr'
  | _ :: tr' => train_indices tr'
  end.

(** The least iteration index the fitter can still be called with: past
    the Model state of an iteration, it is the next one. *)
Definition next_train (g : vars_t) : Z :=
  if ((state g =? "adapt") || (state g =? "report"))%string
  then i g + 1 else i g.


End AdaptationCycle.

End Cycle.

(** ** The command queue (line 145) and the two threads around it

    [command_queue = Queue(maxsize=1)] is the standard library's FIFO queue:
    [put] waits while the queue holds [maxsize] items, [get] waits while it is
    empty.  A waiting call is a step that is not enabled. *)

Module CommandQueue.

Definition maxsize : nat := 1.

Definition queue : Type := list string.

(** [command_queue.put(x)]: [None] while the caller has to wait. *)
Definition put (x : string) (q : queue) : option queue :=
  if (List.length q <? maxsize)%nat then Some (q ++ [x]) else None.

(** [command_queue.get()]: [None] while the caller has to wait. *)
Definition get (q : queue) : option (string * queue) :=
  match q with
  | [] => None
  | x :: q' => Some (x, q')
  end.

(** Where the worker thread stands: waiting in [command_queue.get()]
    (line 153), executing the command it took, or past its loop. *)
Inductive phase : Type :=
| Waiting
| Executing (cmd : string)
| Ended.

(** The queue, the commands the control thread has still to submit (the
    first one is the [put] it is in), and the worker. *)
Record config : Type := mk_config {
  pending : queue;
  to_submit : list string;
  worker : phase
}.

(** The control thread completes its [put]. *)
Definition submit_step (c : config) : option config :=
  match to_submit c with
  | [] => None
  | x :: rest =>
      match put x (pending c) with
      | Some q' => Some (mk_config q' rest (worker c))
      | None => None
      end
  end.

(** The worker completes its [get] (line 153) and goes on to the command,
    or leaves the loop on ["quit"] (line 155). *)
Definition dequeue_step (c : config) : option config :=
  match worker c with
  | Waiting =>
      match get (pending c) with
      | Some (cmd, q') =>
          Some (mk_config q' (to_submit c)
                  (if (cmd =? "quit")%string then Ended else Executing cmd))
      | None => None
      end
  | _ => None
  end.

(** The worker finishes the command and is back at [get]; [faulted] when an
    exception left the loop instead. *)
Definition finish_step (faulted : bool) (c : config) : option config :=
  match worker c with
  | Executing _ =>
      Some (mk_config (pending c) (to_submit c)
              (if faulted then Ended else Waiting))
  | _ => None
  end.

(** One step of either thread. *)
Inductive step (c c' : config) : Prop :=
| StepSubmit : submit_step c = Some c' -> step c c'
| StepDequeue : dequeue_step c = Some c' -> step c c'
| StepFinish : forall faulted, finish_step faulted c = Some c' -> step c c'.

Inductive reachable (c0 : config) : config -> Prop :=
| ReachStart : reachable c0 c0
| ReachStep : forall c c', reachable c0 c -> step c c' -> reachable c0 c'.

(** Both threads at their start: the queue empty, the worker in [get]. *)
Definition start (cmds : list string) : config := mk_config [] cmds Waiting.

End CommandQueue.

(** ** Startup and the one-shot modes (lines 110-148)

    From the first read of the hardware to the creation of the AGC: the
    [--status] and [--reset] modes leave through [sys.exit(0)], otherwise
    the control socket is opened and the shared dictionaries are set up.
    The objects built at lines 99-107 exist already. *)

Module Bootstrap.

Import Engine.

(** What the startup does to the outside, in order. *)
Inductive event (Num Dpd : Type) : Type :=
| GetTxGain
| GetRxGain
| GetDigitalGain
| GetPredistorter
| LogRunning (tx_gain rx_gain digital_gain : Num) (dpddata : Dpd) (* line 115 *)
| SetDigitalGain (v : Num)
| SetRxGain (v : Num)
| ModelGetDpdData
| SetPredistorter (d : Dpd)
| LogReset                                                     (* line 125 *)
| OpenSocket                                                   (* line 128 *)
| NewAgc.                                                      (* line 148 *)
Arguments GetTxGain {Num Dpd}.
Arguments GetRxGain {Num Dpd}.
Arguments GetDigitalGain {Num Dpd}.
Arguments GetPredistorter {Num Dpd}.
Arguments LogRunning {Num Dpd}.
Arguments SetDigitalGain {Num Dpd}.
Arguments SetRxGain {Num Dpd}.
Arguments ModelGetDpdData {Num Dpd}.
Arguments SetPredistorter {Num Dpd}.
Arguments LogReset {Num Dpd}.
Arguments OpenSocket {Num Dpd}.
Arguments NewAgc {Num Dpd}.

(** How the startup ends when nothing raises: the process exits, or the
    engine goes on with the shared dictionaries. *)
Inductive result (Num Dpd : Type) : Type :=
| Exit (code : Z)
| Serve (sh : shared_t Num Dpd).
Arguments Exit {Num Dpd}.
Arguments Serve {Num Dpd}.

(** What the startup calls and does not define. *)
Class Collaborators (W Exn Num Dpd : Type) : Type := {
  adapt_get_txgain : W -> outcome Exn Num * W;
  adapt_get_rxgain : W -> outcome Exn Num * W;
  adapt_get_digital_gain : W -> outcome Exn Num * W;
  adapt_get_predistorter : W -> outcome Exn Dpd * W;
  adapt_set_digital_gain : Num -> W -> outcome Exn unit * W;
  adapt_set_rxgain : Num -> W -> outcome Exn unit * W;
  adapt_set_predistorter : Dpd -> W -> outcome Exn unit * W;
  (** [model.get_dpd_data()] *)
  model_get_dpd_data : W -> outcome Exn Dpd * W;
  (** [yamlrpc.Socket(bind_port=control_port)] and [Agc(meas, adapt, c)] *)
  new_socket : W -> outcome Exn unit * W;
  new_agc : W -> outcome Exn unit * W;
  (** the literals [0.01] and [0] *)
  float_0_01 : Num;
  int_0 : Num
}.

Section Startup.

Context {W Exn Num Dpd : Type}.
Context {co : Collaborators W Exn Num Dpd}.

Abbreviation ev := (event Num Dpd).
Abbreviation Boot := (M W ev Exn).

Definition call {A} (e : ev) (f : W -> outcome Exn A * W) : Boot A :=
  fun w => let '(r, w') := f w in (r, w', [e]).

(** Lines 110-148; [status] and [reset] are [cli_args.status] and
    [cli_args.reset]. *)
Definition bootstrap (status reset : bool) : Boot (result Num Dpd) :=
  tx_gain <- call GetTxGain adapt_get_txgain ;;
  rx_gain <- call GetRxGain adapt_get_rxgain ;;
  digital_gain <- call GetDigitalGain adapt_get_digital_gain ;;
  dpddata <- call GetPredistorter adapt_get_predistorter ;;
  emit (LogRunning tx_gain rx_gain digital_gain dpddata) ;;
  if status then ret (Exit 0)
  else if reset then
    call (SetDigitalGain float_0_01) (adapt_set_digital_gain float_0_01) ;;
    call (SetRxGain int_0) (adapt_set_rxgain int_0) ;;
    d <- call ModelGetDpdData model_get_dpd_data ;;
    call (SetPredistorter d) (adapt_set_predistorter d) ;;
    emit LogReset ;;
    ret (Exit 0)
  else
    call OpenSocket new_socket ;;
    let settings := mk_settings rx_gain tx_gain digital_gain dpddata in
    let results :=
      mk_results int_0 int_0 "Idle" 0 ["DPD has not been calibrated yet"] in
    call NewAgc new_agc ;;
    ret (Serve (mk_shared settings results)).

(** The events that change the transmitter. *)
Definition is_write (e : ev) : bool :=
  match e with
  | SetDigitalGain _ | SetRxGain _ | SetPredistorter _ => true
  | _ => false
  end.

Definition is_open_socket (e : ev) : bool :=
  match e with OpenSocket => true | _ => false end.

(** The four reads of lines 110-113, from world [w] to world [w']. *)
Definition reads_return (w : W) (tx rx dg : Num) (d : Dpd) (w' : W) : Prop :=
  exists w1 w2 w3,
    adapt_get_txgain w = (Ok tx, w1) /\
    adapt_get_rxgain w1 = (Ok rx, w2) /\
    adapt_get_digital_gain w2 = (Ok dg, w3) /\
    adapt_get_predistorter w3 = (Ok d, w').

(** The three writes of lines 122-124, from world [w] to world [w']; [d] is
    what [model.get_dpd_data()] returns between the second write and the
    third. *)
Definition writes_return (w : W) (d : Dpd) (w' : W) : Prop :=
  exists w1 w2 w3,
    adapt_set_digital_gain float_0_01 w = (Ok tt, w1) /\
    adapt_set_rxgain int_0 w1 = (Ok tt, w2) /\
    model_get_dpd_data w2 = (Ok d, w3) /\
    adapt_set_predistorter d w3 = (Ok tt, w').

End Startup.

End Bootstrap.

(** ** Test doubles

    Collaborators that follow a script, as a test of the engine would set
    them up: the world is the list of results the coming [agc.run()] calls
    will give; the capture and the hardware adapter answer with constants. *)

Module Stub.

Import Engine.

Definition world : Type := list (outcome string (bool * string)).

Definition stub_samples : samples_t unit unit Z :=
  mk_samples tt tt tt tt 1200 1500.

#[local] Instance stub : Collaborators world string Z unit unit Z := {|
  agc_run := fun w =>
    match w with
    | [] => (Ok (true, "RX gain ok"), [])
    | r :: w' => (r, w')
    end;
  meas_get_samples := fun w => (Ok stub_samples, w);
  adapt_get_rxgain := fun w => (Ok 30, w);
  adapt_get_digital_gain := fun w => (Ok 1, w);
  py_float := fun x => x
|}.

(** [settings] and [results] as lines 131-143 create them, with the gains a
    transmitter reported at startup. *)
Definition initial_shared : shared_t Z unit :=
  mk_shared (mk_settings 10 60 1 tt)
    (mk_results 0 0 "Idle" 0 ["DPD has not been calibrated yet"]).

(** A script in which rounds [0 .. k-1] succeed and round [k] fails. *)
Definition fails_at (k : nat) : world :=
  repeat (Ok (true, "RX gain ok")) k ++ [Ok (false, "RX gain too low")].

(** A script in which round [k] raises. *)
Definition raises_at (k : nat) : world :=
  repeat (Ok (true, "RX gain ok")) k ++ [Raised "USRP not responding"].

(** Collaborators that always answer: the world counts the AGC rounds that
    will still succeed before one fails. *)
#[local] Instance countdown : Collaborators nat string Z unit unit Z := {|
  agc_run := fun n =>
    match n with
    | O => (Ok (false, "RX gain too low"), O)
    | S n' => (Ok (true, "RX gain ok"), n')
    end;
  meas_get_samples := fun n => (Ok stub_samples, n);
  adapt_get_rxgain := fun n => (Ok 30, n);
  adapt_get_digital_gain := fun n => (Ok 1, n);
  py_float := fun x => x
|}.

(** As [stub], with a remote control that fails on the digital gain. *)
#[local] Instance gain_fault : Collaborators world string Z unit unit Z := {|
  agc_run := agc_run (Collaborators := stub);
  meas_get_samples := fun w => (Ok stub_samples, w);
  adapt_get_rxgain := fun w => (Ok 30, w);
  adapt_get_digital_gain := fun w => (Raised "RC timeout", w);
  py_float := fun x => x
|}.

End Stub.


(** Test doubles for the cycle: the accumulator is its count of captures and
    has data from the first capture on, the heuristic asks for two captures,
    and [adapt.dump()] fails when the world says the disk is full. *)

Module CycleStub.

Import Engine Cycle.

#[local] Instance stub
  : Cycle.Collaborators bool Z string Z (list Z) unit Z unit unit Z := {|
  Cycle.meas_get_samples := fun w => (Ok (mk_samples tt tt tt tt 1200 1500), w);
  extStat_extract := fun _ _ (s : Z * bool) =>
    (Ok (mk_extracted (Some tt) (Some tt) (Some tt) tt), (fst s + 1, snd s));
  extStat_n_meas := fun es => es;
  new_ExtractStatistic := fun w => (Ok 0, w);
  get_n_meas := fun _ => 2;
  get_learning_rate := fun _ => 1;
  model_train := fun _ _ _ _ w => (Ok tt, w);
  model_get_dpd_data := fun w => (Ok (DpdPoly [1; 0] [0; 0]), w);
  adapt_set_predistorter := fun _ w => (Ok tt, w);
  adapt_dump := fun w =>
    if w then (Raised "No space left on device", w) else (Ok tt, w);
  adapt_get_txgain := fun w => (Ok 60, w);
  Cycle.adapt_get_rxgain := fun w => (Ok 30, w);
  Cycle.adapt_get_digital_gain := fun w => (Ok 1, w);
  symbol_align_calc_offset := fun _ w => (Ok 17, w);
  mer_calc_mer := fun _ _ _ w => (Ok 25, w);
  np_mse := fun _ _ w => (Ok 3, w);
  np_abs_median := fun _ w => (Ok 1500, w);
  average_shoulders := fun _ w => (Ok (-40), w);
  med_num := fun m => m;
  name_error := fun name => ("NameError: " ++ name)%string
|}.

(** The variables at line 263, with a polynomial predistorter and an empty
    accumulator. *)
Definition start (disk_full : bool)
  : vars bool Z Z (list Z) unit unit unit Z :=
  initial_vars (DpdPoly [1; 0] [0; 0]) 0 disk_full.

(** As [stub], with a capture that fails. *)
#[local] Instance capture_fault
  : Cycle.Collaborators bool Z string Z (list Z) unit Z unit unit Z := {|
  Cycle.meas_get_samples := fun w => (Raised "capture timed out", w);
  extStat_extract := extStat_extract (Collaborators := stub);
  extStat_n_meas := fun es => es;
  new_ExtractStatistic := fun w => (Ok 0, w);
  get_n_meas := fun _ => 2;
  get_learning_rate := fun _ => 1;
  model_train := fun _ _ _ _ w => (Ok tt, w);
  model_get_dpd_data := fun w => (Ok (DpdPoly [1; 0] [0; 0]), w);
  adapt_set_predistorter := fun _ w => (Ok tt, w);
  adapt_dump := fun w => (Ok tt, w);
  adapt_get_txgain := fun w => (Ok 60, w);
  Cycle.adapt_get_rxgain := fun w => (Ok 30, w);
  Cycle.adapt_get_digital_gain := fun w => (Ok 1, w);
  symbol_align_calc_offset := fun _ w => (Ok 17, w);
  mer_calc_mer := fun _ _ _ w => (Ok 25, w);
  np_mse := fun _ _ w => (Ok 3, w);
  np_abs_median := fun _ w => (Ok 1500, w);
  average_shoulders := fun _ w => (Ok (-40), w);
  med_num := fun m => m;
  name_error := fun name => ("NameError: " ++ name)%string
|}.

(** As [stub], with an accumulator that drops every capture. *)
#[local] Instance no_growth
  : Cycle.Collaborators bool Z string Z (list Z) unit Z unit unit Z := {|
  Cycle.meas_get_samples := Cycle.meas_get_samples (Collaborators := stub);
  extStat_extract := fun _ _ (s : Z * bool) =>
    (Ok (mk_extracted None None None tt), (0, snd s));
  extStat_n_meas := fun es => es;
  new_ExtractStatistic := fun w => (Ok 0, w);
  get_n_meas := fun _ => 2;
  get_learning_rate := fun _ => 1;
  model_train := fun _ _ _ _ w => (Ok tt, w);
  model_get_dpd_data := fun w => (Ok (DpdPoly [1; 0] [0; 0]), w);
  adapt_set_predistorter := fun _ w => (Ok tt, w);
  adapt_dump := fun w => (Ok tt, w);
  adapt_get_txgain := fun w => (Ok 60, w);
  Cycle.adapt_get_rxgain := fun w => (Ok 30, w);
  Cycle.adapt_get_digital_gain := fun w => (Ok 1, w);
  symbol_align_calc_offset := fun _ w => (Ok 17, w);
  mer_calc_mer := fun _ _ _ w => (Ok 25, w);
  np_mse := fun _ _ w => (Ok 3, w);
  np_abs_median := fun _ w => (Ok 1500, w);
  average_shoulders := fun _ w => (Ok (-40), w);
  med_num := fun m => m;
  name_error := fun name => ("NameError: " ++ name)%string
|}.

End CycleStub.

(** A transmitter that answers every call of the startup: gains as
    rationals, the predistorter by its name. *)

Module BootStub.

Import Bootstrap.

#[local] Instance stub
  : Bootstrap.Collaborators unit string QArith_base.Q string := {|
  adapt_get_txgain := fun w => (Ok (QArith_base.Qmake 60 1), w);
  adapt_get_rxgain := fun w => (Ok (QArith_base.Qmake 30 1), w);
  adapt_get_digital_gain := fun w => (Ok (QArith_base.Qmake 1 2), w);
  adapt_get_predistorter := fun w => (Ok "lut in use", w);
  adapt_set_digital_gain := fun _ w => (Ok tt, w);
  adapt_set_rxgain := fun _ w => (Ok tt, w);
  adapt_set_predistorter := fun _ w => (Ok tt, w);
  model_get_dpd_data := fun w => (Ok "poly default", w);
  new_socket := fun w => (Ok tt, w);
  new_agc := fun w => (Ok tt, w);
  float_0_01 := QArith_base.Qmake 1 100;
  int_0 := QArith_base.Qmake 0 1
|}.

End BootStub.

(** * Properties *)

(** ** The worker and the calibration run *)

Module WorkerProps.

Import Engine.

Section Facts.

Context {W Exn Num Dpd Frame Ts Med : Type}.
Context {co : Collaborators W Exn Num Frame Ts Med}.

Abbreviation shared := (shared_t Num Dpd).
Abbreviation ev := (event Num Dpd).

Lemma calibrate_rounds_cons (i : Z) rest summ (w : W) (sh : shared) :
  calibrate_rounds (i :: rest) summ (w, sh) =
  match agc_run w with
  | (Ok (agc_success, agc_summary), w1) =>
      let sh1 := set_stateprogress (round_progress i) sh in
      let summ1 := round_title i :: split_newline agc_summary in
      if agc_success then
        let '(r, s2, t2) := calibrate_rounds rest summ1 (w1, sh1) in
        (r, s2, EvCall AgcRun :: EvLocked (AtRound i) sh1 :: t2)
      else (Ok summ1, (w1, sh1), [EvCall AgcRun; EvLocked (AtRound i) sh1])
  | (Raised e, w1) => (Raised e, (w1, sh), [EvCall AgcRun])
  | (Never, w1) => (Never, (w1, sh), [EvCall AgcRun])
  end.
Proof.
  cbn [calibrate_rounds]. unfold bind at 1. unfold call at 1. cbn [fst snd].
  destruct (agc_run w) as [[[ok text]|e|] w1]; try reflexivity.
  unfold bind, with_lock, assign, modify. cbn [fst snd].
  destruct ok; cbn [negb].
  - fold (round_progress i). fold (round_title i).
    destruct (calibrate_rounds rest _ _) as [[r s2] t2]. reflexivity.
  - reflexivity.
Qed.

Lemma calibrate_unfold (w : W) (sh : shared) :
  calibrate (w, sh) =
  let '(r, (w1, sh1), t1) :=
    calibrate_rounds (range N_ITER) [] (w, run_start sh) in
  let t1 := EvLocked AtRunStart (run_start sh) :: t1 in
  match r with
  | Ok summ =>
      match meas_get_samples w1 with
      | (Ok smp, w2) =>
          let t2 := t1 ++ [EvCall MeasGetSamples] in
          match adapt_get_rxgain w2 with
          | (Ok g, w3) =>
              match adapt_get_digital_gain w3 with
              | (Ok d, w4) =>
                  (Ok tt, (w4, run_done sh1 g d smp summ),
                   t2 ++ [EvCall AdaptGetRxGain; EvCall AdaptGetDigitalGain;
                          EvLocked AtRunDone (run_done sh1 g d smp summ)])
              | (Raised e, w4) =>
                  (Raised e, (w4, set_rx_gain g sh1),
                   t2 ++ [EvCall AdaptGetRxGain; EvCall AdaptGetDigitalGain;
                          EvLocked AtRunDone (set_rx_gain g sh1)])
              | (Never, w4) =>
                  (Never, (w4, set_rx_gain g sh1),
                   t2 ++ [EvCall AdaptGetRxGain; EvCall AdaptGetDigitalGain])
              end
          | (Raised e, w3) =>
              (Raised e, (w3, sh1),
               t2 ++ [EvCall AdaptGetRxGain; EvLocked AtRunDone sh1])
          | (Never, w3) => (Never, (w3, sh1), t2 ++ [EvCall AdaptGetRxGain])
          end
      | (Raised e, w2) => (Raised e, (w2, sh1), t1 ++ [EvCall MeasGetSamples])
      | (Never, w2) => (Never, (w2, sh1), t1 ++ [EvCall MeasGetSamples])
      end
  | Raised e => (Raised e, (w1, sh1), t1)
  | Never => (Never, (w1, sh1), t1)
  end.
Proof.
  unfold calibrate. unfold bind at 1. unfold with_lock at 1.
  unfold bind at 1, assign at 1 2, modify. cbn [fst snd].
  fold (run_start sh). unfold bind at 1.
  destruct (calibrate_rounds _ _ _) as [[r [w1 sh1]] t1].
  destruct r as [summ|e|]; try reflexivity.
  unfold bind at 1. unfold call at 1. cbn [fst snd].
  destruct (meas_get_samples w1) as [[smp|e|] w2]; try reflexivity.
  unfold with_lock, bind, call, assign, modify. cbn [fst snd].
  destruct (adapt_get_rxgain w2) as [[g|e|] w3]; cbn [fst snd];
    [ | cbn [app]; rewrite <- ?app_assoc; reflexivity .. ].
  destruct (adapt_get_digital_gain w3) as [[d|e|] w4];
    cbn [app fst snd]; rewrite <- ?app_assoc; reflexivity.
Qed.

Lemma locked_app (t1 t2 : list ev) : locked (t1 ++ t2) = locked t1 ++ locked t2.
Proof.
  induction t1 as [|[c|at_site sh] t1 IH]; cbn; [reflexivity|assumption|].
  now rewrite IH.
Qed.

Lemma agc_rounds_run_app (t1 t2 : list ev) :
  agc_rounds_run (t1 ++ t2) = (agc_rounds_run t1 + agc_rounds_run t2)%nat.
Proof.
  induction t1 as [|[[]|at_site sh] t1 IH]; cbn; try assumption; try reflexivity.
  now rewrite IH.
Qed.

Lemma set_stateprogress_twice (a b : Z) (sh : shared) :
  set_stateprogress a (set_stateprogress b sh) = set_stateprogress a sh.
Proof. reflexivity. Qed.

(** Rounds that succeed: the loop goes through them and carries on with the
    rest of the rounds. *)
Lemma rounds_succeed (pre : list Z) :
  forall post summ (w w1 : W) (sh : shared),
    agc_succeeds (List.length pre) w = Some w1 ->
    exists sh1 summ1 t1,
      agc_rounds_run t1 = List.length pre /\
      calibrate_rounds (pre ++ post) summ (w, sh) =
        (let '(r, s2, t2) := calibrate_rounds post summ1 (w1, sh1) in
         (r, s2, t1 ++ t2)).
Proof.
  induction pre as [|i pre IH]; intros post summ w w1 sh H.
  - cbn in H. injection H as <-. exists sh, summ, []. split; [reflexivity|].
    cbn [app]. now destruct (calibrate_rounds post summ (w, sh)) as [[r s2] t2].
  - cbn [List.length agc_succeeds] in H.
    cbn [app]. rewrite calibrate_rounds_cons.
    destruct (agc_run w) as [[[[|] text]|e|] w0]; try discriminate.
    destruct (IH post (round_title i :: split_newline text) w0 w1
                (set_stateprogress (round_progress i) sh) H)
      as (sh1 & summ1 & t1 & Hn & Heq).
    exists sh1, summ1,
      (EvCall AgcRun :: EvLocked (AtRound i)
         (set_stateprogress (round_progress i) sh) :: t1).
    split; [cbn; now rewrite Hn|].
    cbv zeta. rewrite Heq.
    now destruct (calibrate_rounds post summ1 (w1, sh1)) as [[r s2] t2].
Qed.

Lemma last_cons_any {A} (x : A) (l : list A) (d d' : A) :
  last (x :: l) d = last (x :: l) d'.
Proof.
  revert x. induction l as [|y l IH]; intros x; [reflexivity|].
  change (last (y :: l) d = last (y :: l) d'). apply IH.
Qed.

(** Whatever the collaborators do, the lock releases of the loop are those
    of a prefix of the rounds, each showing its own percentage. *)
Lemma rounds_locked (rounds : list Z) :
  forall summ (w : W) (sh : shared) r w' sh' tr,
    calibrate_rounds rounds summ (w, sh) = (r, (w', sh'), tr) ->
    exists pre post,
      rounds = pre ++ post /\
      locked tr = map (round_snap sh) pre /\
      sh' = last (map (fun j => snd (round_snap sh j)) pre) sh.
Proof.
  induction rounds as [|i rest IH]; intros summ w sh r w' sh' tr H.
  - cbn in H. injection H as <- <- <- <-. now exists [], [].
  - rewrite calibrate_rounds_cons in H.
    destruct (agc_run w) as [[[[|] text]|e|] w0].
    + cbv zeta in H.
      destruct (calibrate_rounds rest _ _) as [[r2 [w2 sh2]] t2] eqn:E.
      injection H as <- <- <- <-.
      destruct (IH _ _ _ _ _ _ _ E) as (pre & post & -> & Hl & Hs).
      exists (i :: pre), post. split; [reflexivity|].
      split.
      * cbn. rewrite Hl. f_equal.
      * rewrite Hs. destruct pre as [|z pre]; [reflexivity|].
        cbn [map].
        change (last (snd (round_snap sh i)
                        :: snd (round_snap sh z)
                        :: map (fun j => snd (round_snap sh j)) pre) sh)
          with (last (snd (round_snap sh z)
                        :: map (fun j => snd (round_snap sh j)) pre) sh).
        apply last_cons_any.
    + injection H as <- <- <- <-. exists [i], rest. now repeat split.
    + injection H as <- <- <- <-. exists [], (i :: rest). now repeat split.
    + injection H as <- <- <- <-. exists [], (i :: rest). now repeat split.
Qed.

(** Whatever the collaborators do, a calibration run releases the lock once
    at its start, once after each round of a prefix of the rounds, and at
    most once more: on the way out of the last critical section, either left
    half-way by an exception ([results] untouched) or gone through. *)
Lemma calibrate_locked (w : W) (sh : shared) r w' sh' tr :
  calibrate (w, sh) = (r, (w', sh'), tr) ->
  exists pre post tail,
    range N_ITER = pre ++ post /\
    locked tr =
      (AtRunStart, run_start sh)
        :: map (round_snap (run_start sh)) pre ++ tail /\
    let shl :=
      last (map (fun j => snd (round_snap (run_start sh) j)) pre)
        (run_start sh) in
    (tail = [] /\ r <> Ok tt) \/
    (exists shp,
        tail = [(AtRunDone, shp)] /\ results shp = results shl /\
        r <> Ok tt) \/
    (exists g d smp summ,
        tail = [(AtRunDone, run_done shl g d smp summ)] /\ r = Ok tt /\
        sh' = run_done shl g d smp summ).
Proof.
  rewrite calibrate_unfold.
  destruct (calibrate_rounds _ _ _) as [[r1 [w1 sh1]] t1] eqn:E.
  destruct (rounds_locked _ _ _ _ _ _ _ _ E) as (pre & post & Hr & Hl & Hs).
  intros H. exists pre, post. cbv zeta.
  destruct r1 as [summ|e|].
  - destruct (meas_get_samples w1) as [[smp|e|] w2].
    + destruct (adapt_get_rxgain w2) as [[g|e|] w3].
      * destruct (adapt_get_digital_gain w3) as [[d|e|] w4];
          injection H as <- <- <- <-.
        -- exists [(AtRunDone, run_done sh1 g d smp summ)].
           split; [assumption|]. split.
           ++ cbn [locked]. rewrite !locked_app, Hl. cbn. now rewrite app_nil_r.
           ++ right; right. exists g, d, smp, summ. now rewrite <- Hs.
        -- exists [(AtRunDone, set_rx_gain g sh1)].
           split; [assumption|]. split.
           ++ cbn [locked]. rewrite !locked_app, Hl. cbn. now rewrite app_nil_r.
           ++ right; left. exists (set_rx_gain g sh1).
              rewrite <- Hs. repeat split. discriminate.
        -- exists []. split; [assumption|]. split.
           ++ cbn [locked]. rewrite !locked_app, Hl. cbn. now rewrite !app_nil_r.
           ++ left. split; [reflexivity|discriminate].
      * injection H as <- <- <- <-. exists [(AtRunDone, sh1)].
        split; [assumption|]. split.
        -- cbn [locked]. rewrite !locked_app, Hl. cbn. now rewrite app_nil_r.
        -- right; left. exists sh1. rewrite <- Hs. repeat split. discriminate.
      * injection H as <- <- <- <-. exists [].
        split; [assumption|]. split.
        -- cbn [locked]. rewrite !locked_app, Hl. cbn. now rewrite !app_nil_r.
        -- left. split; [reflexivity|discriminate].
    + injection H as <- <- <- <-. exists [].
      split; [assumption|]. split.
      * cbn [locked]. rewrite !locked_app, Hl. cbn. now rewrite !app_nil_r.
      * left. split; [reflexivity|discriminate].
    + injection H as <- <- <- <-. exists [].
      split; [assumption|]. split.
      * cbn [locked]. rewrite !locked_app, Hl. cbn. now rewrite !app_nil_r.
      * left. split; [reflexivity|discriminate].
  - injection H as <- <- <- <-. exists [].
    split; [assumption|]. split.
    + cbn [locked]. rewrite Hl. now rewrite !app_nil_r.
    + left. split; [reflexivity|discriminate].
  - injection H as <- <- <- <-. exists [].
    split; [assumption|]. split.
    + cbn [locked]. rewrite Hl. now rewrite !app_nil_r.
    + left. split; [reflexivity|discriminate].
Qed.

(** The prefixes of [range(5)]. *)
Lemma range_prefix (pre post : list Z) :
  range N_ITER = pre ++ post ->
  In pre [[]; [0]; [0; 1]; [0; 1; 2]; [0; 1; 2; 3]; [0; 1; 2; 3; 4]].
Proof.
  change (range N_ITER) with [0; 1; 2; 3; 4]. intros H.
  do 5 (destruct pre as [|? pre]; [cbn; tauto | injection H as <- H]).
  destruct pre; [cbn; tauto | discriminate].
Qed.

Lemma Sorted_app_bridge {A} (R : A -> A -> Prop) (l1 l2 : list A) :
  Sorted R l1 -> Sorted R l2 ->
  (forall d b, l1 <> [] -> hd_error l2 = Some b -> R (last l1 d) b) ->
  Sorted R (l1 ++ l2).
Proof.
  induction l1 as [|x l1 IH]; intros H1 H2 Hb; [assumption|].
  apply Sorted_inv in H1 as [H1 Hx]. cbn [app]. constructor.
  - apply IH; try assumption. intros d b Hne Hhd.
    destruct l1 as [|y l1]; [congruence|].
    change (R (last (x :: y :: l1) d) b). apply Hb; [discriminate|assumption].
  - destruct l1 as [|y l1]; cbn [app].
    + destruct l2 as [|b l2]; constructor.
      apply (Hb x b); [discriminate|reflexivity].
    + apply HdRel_inv in Hx. now constructor.
Qed.

Ltac discipline_case :=
  unfold progress_discipline; cbn [map app last];
  repeat match goal with
         | |- _ /\ _ => split
         | |- Forall _ _ => constructor
         | |- Sorted _ _ => constructor
         | |- HdRel _ _ _ => constructor
         end;
  unfold progress_in_range, within_run_le, reset_at_start, reset_at_idle,
    progress_of, state_of, round_snap;
  cbn [fst snd]; intros;
  repeat match goal with
         | H : results ?a = results _ |- context [results ?a] => rewrite H
         | H : results ?a = results _, H' : context [results ?a] |- _ =>
             rewrite H in H'
         end;
  try (cbn in *; first [lia | discriminate | congruence | reflexivity]).

(** One calibration run keeps the discipline, and a run that returns has
    published ['Idle'] last. *)
Lemma run_discipline (w : W) (sh : shared) r w' sh' tr :
  calibrate (w, sh) = (r, (w', sh'), tr) ->
  progress_discipline (locked tr) /\
  (r = Ok tt -> forall d, state_of (last (locked tr) d) = "Idle").
Proof.
  intros H.
  destruct (calibrate_locked _ _ _ _ _ _ H)
    as (pre & post & tail & Hr & -> & Ht).
  apply range_prefix in Hr. cbn [In] in Hr. cbv zeta in Ht.
  destruct Ht as [[-> Hf] | [(shp & -> & Hres & Hf) | (g & d & smp & summ & -> & -> & _)]];
    decompose [or] Hr; try contradiction; subst pre;
    (split; [discipline_case | intros; try congruence; reflexivity]).
Qed.

Lemma discipline_app (l1 l2 : list (site * shared)) :
  progress_discipline l1 -> progress_discipline l2 ->
  (forall d b, l1 <> [] -> hd_error l2 = Some b ->
               within_run_le (last l1 d) b) ->
  progress_discipline (l1 ++ l2).
Proof.
  intros (A1 & B1 & C1 & D1) (A2 & B2 & C2 & D2) Hb.
  repeat split; try (apply Forall_app; now split).
  now apply Sorted_app_bridge.
Qed.

Lemma worker_loop_discipline (cmds : list string) :
  forall (w : W) (sh : shared) r s' tr,
    worker_loop cmds (w, sh) = (r, s', tr) ->
    progress_discipline (locked tr).
Proof.
  induction cmds as [|cmd rest IH]; intros w sh r s' tr H.
  - injection H as <- <- <-. repeat split; constructor.
  - cbn [worker_loop] in H. destruct (cmd =? "quit")%string.
    + injection H as <- <- <-. repeat split; constructor.
    + destruct (cmd =? "calibrate")%string; [|now apply IH in H].
      unfold bind in H.
      destruct (calibrate (w, sh)) as [[r1 [w1 sh1]] t1] eqn:E.
      apply run_discipline in E as [Hd Hlast].
      destruct r1 as [[]|e|]; [|now injection H as <- <- <- ..].
      destruct (worker_loop rest (w1, sh1)) as [[r2 s2] t2] eqn:E2.
      injection H as <- <- <-. rewrite locked_app.
      apply discipline_app; [assumption|now apply IH in E2|].
      intros d b _ _ Hrun. rewrite (Hlast eq_refl d) in Hrun. discriminate.
Qed.

(** A run begins by releasing the lock on the dictionaries of its start. *)
Lemma run_opens (w : W) (sh : shared) :
  exists rest,
    snd (calibrate (w, sh)) = EvLocked AtRunStart (run_start sh) :: rest.
Proof.
  rewrite calibrate_unfold.
  destruct (calibrate_rounds _ _ _) as [[r1 [w1 sh1]] t1].
  destruct r1 as [summ|e|]; [|cbn; eexists; reflexivity ..].
  destruct (meas_get_samples w1) as [[smp|e|] w2];
    [|cbn; eexists; reflexivity ..].
  destruct (adapt_get_rxgain w2) as [[g|e|] w3];
    [|cbn; eexists; reflexivity ..].
  destruct (adapt_get_digital_gain w3) as [[d|e|] w4];
    cbn; eexists; reflexivity.
Qed.

(** A run that returns ends by releasing the lock on what it leaves. *)
Lemma run_closes (w w' : W) (sh sh' : shared) tr :
  calibrate (w, sh) = (Ok tt, (w', sh'), tr) ->
  (exists tr0, tr = tr0 ++ [EvLocked AtRunDone sh']) /\
  state (results sh') = "Idle" /\
  stateprogress (results sh') = 0.
Proof.
  rewrite calibrate_unfold.
  destruct (calibrate_rounds _ _ _) as [[r1 [w1 sh1]] t1].
  destruct r1 as [summ|e|]; try discriminate.
  destruct (meas_get_samples w1) as [[smp|e|] w2]; try discriminate.
  destruct (adapt_get_rxgain w2) as [[g|e|] w3]; try discriminate.
  destruct (adapt_get_digital_gain w3) as [[d|e|] w4]; try discriminate.
  intros H. injection H as <- <- <-.
  split; [|split; reflexivity].
  exists ((EvLocked AtRunStart (run_start sh) :: t1 ++ [EvCall MeasGetSamples])
            ++ [EvCall AdaptGetRxGain; EvCall AdaptGetDigitalGain]).
  cbn [app]. rewrite <- !app_assoc. reflexivity.
Qed.

Lemma engine_worker_unfold (cmds : list string) (s : W * shared) :
  engine_worker cmds s =
  let '(r, (w1, sh1), t1) := worker_loop cmds s in
  match r with
  | Never => (Never, (w1, sh1), t1)
  | _ => (r, (w1, terminated sh1),
          t1 ++ [EvLocked AtFinally (terminated sh1)])
  end.
Proof.
  unfold engine_worker, try_finally.
  destruct (worker_loop cmds s) as [[r [w1 sh1]] t1].
  destruct r; reflexivity.
Qed.

(** C3: for every sequence of commands the worker processes, and whatever
    the collaborators do, each [stateprogress] the worker publishes lies in
    [0, 100]; two successive publications that both show a run in progress
    do not go down; and the publication that opens a run, and every one that
    shows ['Idle'], has [stateprogress = 0].  These publications do occur:
    whatever the dictionaries hold when the worker takes a ["calibrate"],
    the first thing it does is to release the lock on them with [state]
    replaced by ['RX Gain Calibration'] and [stateprogress] by 0; and a run
    that returns has released the lock last on the dictionaries it leaves,
    which show ['Idle'] and [stateprogress = 0], before the worker goes on
    to the next command. *)
Theorem C3_progress_discipline (cmds : list string) (w : W) (sh : shared) :
  progress_discipline (locked (snd (engine_worker cmds (w, sh)))) /\
  (exists rest,
      snd (engine_worker ("calibrate" :: cmds) (w, sh)) =
        EvLocked AtRunStart (run_start sh) :: rest) /\
  state (results (run_start sh)) = "RX Gain Calibration" /\
  stateprogress (results (run_start sh)) = 0 /\
  (forall w' sh' tr,
      calibrate (w, sh) = (Ok tt, (w', sh'), tr) ->
      (exists tr0, tr = tr0 ++ [EvLocked AtRunDone sh']) /\
      state (results sh') = "Idle" /\
      stateprogress (results sh') = 0 /\
      snd (engine_worker ("calibrate" :: cmds) (w, sh)) =
        tr ++ snd (engine_worker cmds (w', sh'))).
Proof.
  split; [|split; [|split; [reflexivity|split; [reflexivity|]]]].
  - rewrite engine_worker_unfold.
    destruct (worker_loop cmds (w, sh)) as [[r [w1 sh1]] t1] eqn:E.
    apply worker_loop_discipline in E.
    assert (Hfin : progress_discipline
                     (locked (t1 ++ [EvLocked AtFinally (terminated sh1)]))).
    { rewrite locked_app. apply discipline_app; [assumption| |].
      - cbn [locked]. discipline_case.
      - intros d b _ Hb _ Hrun. injection Hb as <-. discriminate Hrun. }
    destruct r; cbn [snd]; assumption.
  - rewrite engine_worker_unfold. cbn [worker_loop String.eqb Ascii.eqb Bool.eqb].
    unfold bind at 1.
    destruct (run_opens w sh) as (rest & E). 
    destruct (calibrate (w, sh)) as [[r1 [w1 sh1]] t1]. cbn [snd] in E. subst t1.
    destruct r1 as [[]|e|].
    + destruct (worker_loop cmds (w1, sh1)) as [[r2 [w2 sh2]] t2].
      destruct r2; cbn [snd app]; eexists; reflexivity.
    + cbn [snd app]. eexists; reflexivity.
    + cbn [snd app]. eexists; reflexivity.
  - intros w' sh' tr H. 
    destruct (run_closes _ _ _ _ _ H) as (Hlast & Hst & Hp).
    repeat split; try assumption.
    rewrite !engine_worker_unfold.
    cbn [worker_loop String.eqb Ascii.eqb Bool.eqb].
    unfold bind at 1. rewrite H.
    destruct (worker_loop cmds (w', sh')) as [[r2 [w2 sh2]] t2].
    destruct r2; cbn [snd]; rewrite <- ?app_assoc; reflexivity.
Qed.

(** C5: whenever the worker's loop is left, by ["quit"] (the worker returns)
    or by an exception (the worker raises), the [finally] block has run last
    and [results] show ['Terminated'] with [stateprogress = 0]. *)
Theorem C5_finalizer_runs
  (cmds : list string) (w w' : W) (sh sh' : shared) r tr :
  engine_worker cmds (w, sh) = (r, (w', sh'), tr) ->
  r <> Never ->
  state (results sh') = "Terminated" /\
  stateprogress (results sh') = 0 /\
  exists tr0, tr = tr0 ++ [EvLocked AtFinally sh'].
Proof.
  rewrite engine_worker_unfold.
  destruct (worker_loop cmds (w, sh)) as [[r1 [w1 sh1]] t1].
  intros H Hr.
  destruct r1; injection H as <- <- <- <-; try congruence;
    (repeat split; now exists t1).
Qed.

Lemma round_progress_spec (j : Z) : round_progress j = spec_round_progress j.
Proof.
  unfold round_progress, spec_round_progress, int_truediv, round_half_even,
    N_ITER.
  replace ((j + 1) * 100) with (20 * (j + 1) * 5) by lia.
  replace (100 * (j + 1)) with (20 * (j + 1) * 5) by lia.
  rewrite Z.quot_mul, Z.div_mul, Z.mod_mul by lia. reflexivity.
Qed.

(** The loop against what its rounds get from [agc.run()]: every round
    played shows its call and then its lock release, and nothing else is
    seen but, last, a call that did not return.  The summary handed on is
    that of the last round played. *)
Lemma rounds_exact (n : nat) :
  forall (a : nat) summ (w : W) (sh : shared),
    let played := rounds_played n w in
    let out := calibrate_rounds (map Z.of_nat (seq a n)) summ (w, sh) in
    exists pending,
      snd out =
        flat_map (round_events sh)
          (map Z.of_nat (seq a (List.length played))) ++ pending /\
      (pending = [] \/ pending = [EvCall AgcRun]) /\
      (forall summ', fst (fst out) = Ok summ' ->
         (n = O \/ played <> []) /\
         summ' =
           match played with
           | [] => summ
           | _ => round_title (Z.of_nat (a + List.length played) - 1)
                    :: split_newline (snd (last played (true, EmptyString)))
           end).
Proof.
  induction n as [|n IH]; intros a summ w sh; cbv zeta.
  - exists []. split; [reflexivity|]. split; [now left|].
    intros summ' H. cbn in H. injection H as <-.
    split; [now left|reflexivity].
  - cbn [seq map rounds_played]. rewrite calibrate_rounds_cons.
    destruct (agc_run w) as [[[[|] text]|e|] w0].
    + cbv zeta.
      destruct (IH (S a) (round_title (Z.of_nat a) :: split_newline text) w0
                  (set_stateprogress (round_progress (Z.of_nat a)) sh))
        as (pending & Ht & Hp & Hs).
      destruct (calibrate_rounds _ _ _) as [[r2 s2] t2].
      cbn [fst snd] in *. exists pending.
      split; [|split; [assumption|]].
      * cbn [List.length seq map flat_map round_events app].
        rewrite <- round_progress_spec. do 2 f_equal. exact Ht.
      * intros summ' H. destruct (Hs summ' H) as [Hn ->].
        split; [right; discriminate|].
        destruct (rounds_played n w0) as [|p l] eqn:E.
        -- cbn [List.length last snd].
           replace (Z.of_nat (a + 1) - 1) with (Z.of_nat a) by lia.
           reflexivity.
        -- replace (a + List.length ((true, text) :: p :: l))%nat
             with (S a + List.length (p :: l))%nat by (cbn; lia).
           reflexivity.
    + exists []. cbn [fst snd List.length seq map flat_map round_events app].
      rewrite <- round_progress_spec.
      split; [reflexivity|]. split; [now left|].
      intros summ' H. injection H as <-. split; [right; discriminate|].
      cbn [last snd]. replace (Z.of_nat (a + 1) - 1) with (Z.of_nat a) by lia.
      reflexivity.
    + exists [EvCall AgcRun]. cbn. split; [reflexivity|].
      split; [now right|discriminate].
    + exists [EvCall AgcRun]. cbn. split; [reflexivity|].
      split; [now right|discriminate].
Qed.

Lemma no_round_release_app (t1 t2 : list ev) :
  existsb is_round_release (t1 ++ t2) =
    existsb is_round_release t1 || existsb is_round_release t2.
Proof. apply existsb_app. Qed.

(** One calibration run against what its rounds get from [agc.run()]. *)
Lemma calibrate_exact (w : W) (sh : shared) :
  let played := rounds_played (Z.to_nat N_ITER) w in
  (exists tail,
      snd (calibrate (w, sh)) =
        EvLocked AtRunStart (run_start sh)
          :: flat_map (round_events (run_start sh))
               (range (Z.of_nat (List.length played)))
          ++ tail /\
      existsb is_round_release tail = false) /\
  (forall w' sh',
      fst (calibrate (w, sh)) = (Ok tt, (w', sh')) ->
      played <> [] /\
      summary (results sh') =
        "Calibration was done:"
          :: round_title (Z.of_nat (List.length played) - 1)
          :: split_newline (snd (last played (true, EmptyString)))).
Proof.
  cbv zeta.
  assert (Hr : forall k, map Z.of_nat (seq 0 k) = range (Z.of_nat k))
    by (intros k; unfold range; now rewrite Nat2Z.id).
  pose proof (rounds_exact (Z.to_nat N_ITER) 0 [] w (run_start sh)) as Hx.
  cbv zeta in Hx.
  change (map Z.of_nat (seq 0 (Z.to_nat N_ITER))) with (range N_ITER) in Hx.
  remember (rounds_played (Z.to_nat N_ITER) w) as played eqn:Ep. clear Ep.
  rewrite Hr in Hx. cbn [Nat.add] in Hx.
  destruct Hx as (pending & Ht & Hp & Hs).
  rewrite calibrate_unfold.
  destruct (calibrate_rounds (range N_ITER) [] (w, run_start sh))
    as [[r1 [w1 sh1]] t1].
  cbn [fst snd] in Ht, Hs. subst t1.
  assert (Hpend : existsb is_round_release pending = false)
    by (destruct Hp as [-> | ->]; reflexivity).
  destruct r1 as [summ|e|].
  - destruct (Hs summ eq_refl) as [Hne ->].
    assert (Hpl : played <> [])
      by (destruct Hne as [Hne|Hne]; [discriminate Hne|exact Hne]).
    destruct (meas_get_samples w1) as [[smp|e|] w2].
    + destruct (adapt_get_rxgain w2) as [[g|e|] w3].
      * destruct (adapt_get_digital_gain w3) as [[d|e|] w4]; cbn [fst snd];
          (split;
           [ eexists; split;
             [ cbn [app]; rewrite <- !app_assoc; reflexivity
             | rewrite !no_round_release_app, Hpend; reflexivity ]
           | intros w' sh' H; try discriminate ]).
        injection H as <- <-. split; [assumption|].
        cbn [summary results run_done set_summary].
        destruct played; [congruence|reflexivity].
      * cbn [fst snd];
          (split;
           [ eexists; split;
             [ cbn [app]; rewrite <- !app_assoc; reflexivity
             | rewrite !no_round_release_app, Hpend; reflexivity ]
           | intros w' sh' H; discriminate ]).
      * cbn [fst snd];
          (split;
           [ eexists; split;
             [ cbn [app]; rewrite <- !app_assoc; reflexivity
             | rewrite !no_round_release_app, Hpend; reflexivity ]
           | intros w' sh' H; discriminate ]).
    + cbn [fst snd];
        (split;
         [ eexists; split;
           [ cbn [app]; rewrite <- !app_assoc; reflexivity
           | rewrite !no_round_release_app, Hpend; reflexivity ]
         | intros w' sh' H; discriminate ]).
    + cbn [fst snd];
        (split;
         [ eexists; split;
           [ cbn [app]; rewrite <- !app_assoc; reflexivity
           | rewrite !no_round_release_app, Hpend; reflexivity ]
         | intros w' sh' H; discriminate ]).
  - cbn [fst snd]. split; [|intros w' sh' H; discriminate].
    exists pending. split; [reflexivity|assumption].
  - cbn [fst snd]. split; [|intros w' sh' H; discriminate].
    exists pending. split; [reflexivity|assumption].
Qed.

(** C4, as the code has it: in a calibration run every round whose
    [agc.run()] returns is followed at once by a release of the lock that
    shows [stateprogress = round(100*(i+1)/N_ITER)] and every other key of
    [results] and [settings] as the start of the run set it; the run shows
    no other release for a round.  In particular [results.summary] is not
    written after a round.  The list ["calibration run i:"] + lines replaces
    the worker's local [summary]; it reaches [results.summary] only when the
    run returns, behind "Calibration was done:", and then holds the title
    and the lines of the last round played and of no other. *)
Theorem C4_round_publishes_progress_only (w : W) (sh : shared) :
  let played := rounds_played (Z.to_nat N_ITER) w in
  (exists tail,
      snd (calibrate (w, sh)) =
        EvLocked AtRunStart (run_start sh)
          :: flat_map (round_events (run_start sh))
               (range (Z.of_nat (List.length played)))
          ++ tail /\
      existsb is_round_release tail = false) /\
  (forall w' sh',
      fst (calibrate (w, sh)) = (Ok tt, (w', sh')) ->
      played <> [] /\
      summary (results sh') =
        "Calibration was done:"
          :: round_title (Z.of_nat (List.length played) - 1)
          :: split_newline (snd (last played (true, EmptyString)))).
Proof. exact (calibrate_exact w sh). Qed.

Lemma range_split (k : nat) :
  (k < 5)%nat ->
  range N_ITER =
    map Z.of_nat (seq 0 k) ++ Z.of_nat k :: map Z.of_nat (seq (S k) (4 - k)).
Proof.
  intros H. do 5 (destruct k as [|k]; [reflexivity|]). lia.
Qed.

(** C1, as the code has it: when the AGC succeeds on rounds [0 .. k-1] and
    fails on round [k < 5], and the capture and the two adapter reads return,
    the calibration run returns after exactly [k+1] calls of [agc.run()], and
    [results.summary] is then the line "Calibration was done:" followed by
    "calibration run k:" and the lines of the failing round's text: the round
    title is the second element, not the first. *)
Theorem C1_failing_round_ends_run
  (k : nat) (w w1 w2 w3 w4 w5 : W) (text : string)
  (smp : samples_t Frame Ts Med) (g d : Num) (sh : shared) :
  (k < 5)%nat ->
  agc_succeeds k w = Some w1 ->
  agc_run w1 = (Ok (false, text), w2) ->
  meas_get_samples w2 = (Ok smp, w3) ->
  adapt_get_rxgain w3 = (Ok g, w4) ->
  adapt_get_digital_gain w4 = (Ok d, w5) ->
  exists sh' tr,
    calibrate (w, sh) = (Ok tt, (w5, sh'), tr) /\
    agc_rounds_run tr = S k /\
    summary (results sh') =
      "Calibration was done:" :: round_title (Z.of_nat k)
        :: split_newline text.
Proof.
  intros Hk Hs Hf Hm Hg Hd.
  rewrite calibrate_unfold, (range_split k Hk).
  assert (Hlen : List.length (map Z.of_nat (seq 0 k)) = k)
    by now rewrite length_map, length_seq.
  rewrite <- Hlen in Hs.
  destruct (rounds_succeed _ (Z.of_nat k :: map Z.of_nat (seq (S k) (4 - k)))
              [] w w1 (run_start sh) Hs) as (sh1 & summ1 & t1 & Hn & ->).
  rewrite calibrate_rounds_cons, Hf. cbv beta iota zeta. rewrite Hm, Hg, Hd.
  eexists _, _. split; [reflexivity|]. split; [|reflexivity].
  rewrite !agc_rounds_run_app. cbn. rewrite agc_rounds_run_app, Hn, Hlen.
  cbn. lia.
Qed.

(** C2: when the AGC succeeds on all five rounds, and the capture and the two
    adapter reads return, the calibration run returns after five calls of
    [agc.run()] with [state = 'Idle'], [stateprogress = 0], [rx_gain] and
    [digital_gain] as the adapter has just returned them, the medians of the
    final capture, and a summary that begins with "Calibration was done:". *)
Theorem C2_all_rounds_succeed
  (w w1 w2 w3 w4 : W) (smp : samples_t Frame Ts Med) (g d : Num)
  (sh : shared) :
  agc_succeeds 5 w = Some w1 ->
  meas_get_samples w1 = (Ok smp, w2) ->
  adapt_get_rxgain w2 = (Ok g, w3) ->
  adapt_get_digital_gain w3 = (Ok d, w4) ->
  exists sh' tr,
    calibrate (w, sh) = (Ok tt, (w4, sh'), tr) /\
    agc_rounds_run tr = 5%nat /\
    state (results sh') = "Idle" /\
    stateprogress (results sh') = 0 /\
    rx_gain (settings sh') = g /\
    digital_gain (settings sh') = d /\
    tx_median (results sh') = py_float (smp_tx_median smp) /\
    rx_median (results sh') = py_float (smp_rx_median smp) /\
    hd_error (summary (results sh')) = Some "Calibration was done:".
Proof.
  intros Hs Hm Hg Hd.
  rewrite calibrate_unfold.
  destruct (rounds_succeed (range N_ITER) [] [] w w1 (run_start sh) Hs)
    as (sh1 & summ1 & t1 & Hn & Heq).
  rewrite app_nil_r in Heq. rewrite Heq. cbn [calibrate_rounds]. unfold ret.
  cbv beta iota zeta. rewrite Hm, Hg, Hd.
  eexists _, _. split; [reflexivity|].
  split; [|now repeat split].
  rewrite !agc_rounds_run_app. cbn [agc_rounds_run].
  rewrite agc_rounds_run_app, Hn. reflexivity.
Qed.

End Facts.

Section ChannelFacts.

Context {W Exn Num Dpd Frame Ts Med : Type}.
Context {co : Collaborators W Exn Num Frame Ts Med}.
Context {Addr MsgId Params : Type}.
Variable str_params : Params -> string.

Ltac by_method method :=
  unfold dispatch;
  destruct (String.eqb_spec method "trigger_run");
  [ | destruct (String.eqb_spec method "reset");
      [ | destruct (String.eqb_spec method "set_setting");
          [ | destruct (String.eqb_spec method "get_settings");
              [ | destruct (String.eqb_spec method "get_results");
                  [ | destruct (String.eqb_spec method "calibrate") ]]]]].

(** An error response of the dispatcher is the one of the final [else]. *)
Lemma dispatch_error_response
  (addr : Addr) (msg_id : MsgId) (method : string) (params : Params)
  (sh : shared_t Num Dpd) addr' msg_id' message :
  In (SendErrorResponse addr' msg_id' message)
     (dispatch str_params addr msg_id method params sh) ->
  addr' = addr /\ msg_id' = msg_id /\
  message = "request not understood" /\ ~ In method known_methods.
Proof.
  unfold known_methods.
  by_method method; cbn [In]; intros H;
    repeat match goal with
           | H : _ \/ _ |- _ => destruct H
           end;
    try discriminate; try contradiction.
  injection H as <- <- <-. repeat split. intuition congruence.
Qed.

(** What happens before a [put] that waits is part of what happens when it
    returns. *)
Lemma before_put_incl (acts : list (action Addr MsgId Num Dpd)) a :
  In a (before_put acts) -> In a acts.
Proof.
  induction acts as [|x acts IH]; [tauto|].
  destruct x; cbn [before_put In]; intuition.
Qed.

(** Along the receive loop, an error response answers a received request
    whose method is not a known one. *)
Lemma control_loop_error_response
  (inbox : list (received Addr MsgId Params * shared_t Num Dpd * bool))
  addr msg_id message :
  In (SendErrorResponse addr msg_id message) (control_loop str_params inbox) ->
  exists method params sh put_returns,
    In (Request addr msg_id method params, sh, put_returns) inbox /\
    ~ In method known_methods.
Proof.
  induction inbox as [|[[[a m method params|e| | |] sh] pr] rest IH];
    cbn [control_loop]; intros H.
  - contradiction.
  - cbv zeta in H.
    assert (Hd : In (SendErrorResponse addr msg_id message)
                    (dispatch str_params a m method params sh) \/
                 In (SendErrorResponse addr msg_id message)
                    (control_loop str_params rest)).
    { destruct (existsb is_put _ && negb pr).
      - left. now apply before_put_incl.
      - now apply in_app_or. }
    destruct Hd as [Hd|Hd].
    + apply dispatch_error_response in Hd as (-> & -> & _ & Hm).
      exists method, params, sh, pr. split; [now left|assumption].
    + destruct (IH Hd) as (method' & params' & sh' & pr' & Hin & Hm).
      exists method', params', sh', pr'. split; [now right|assumption].
  - destruct H as [H|H]; [discriminate|].
    destruct (IH H) as (method' & params' & sh' & pr' & Hin & Hm).
    exists method', params', sh', pr'. split; [now right|assumption].
  - destruct (IH H) as (method' & params' & sh' & pr' & Hin & Hm).
    exists method', params', sh', pr'. split; [now right|assumption].
  - destruct pr; cbn in H; decompose [or] H; discriminate || contradiction.
  - destruct pr; cbn in H; decompose [or] H; discriminate || contradiction.
Qed.

(** C6: the dispatcher sends an error response exactly when the method is
    none of the six it knows; the response goes to the requester, and its
    text is "request not understood", which is not empty. *)
Theorem C6_error_iff_unknown_method
  (addr : Addr) (msg_id : MsgId) (method : string) (params : Params)
  (sh : shared_t Num Dpd) :
  (existsb is_error_response (dispatch str_params addr msg_id method params sh)
     = true <-> ~ In method known_methods) /\
  (forall addr' msg_id' message,
     In (SendErrorResponse addr' msg_id' message)
        (dispatch str_params addr msg_id method params sh) ->
     addr' = addr /\ msg_id' = msg_id /\
     message = "request not understood" /\ message <> EmptyString).
Proof.
  split.
  - unfold known_methods. cbn [In].
    by_method method; cbn; split; intros H;
      try discriminate; try reflexivity;
      try (exfalso; apply H; subst method; tauto).
    intuition congruence.
  - intros addr' msg_id' message H.
    apply dispatch_error_response in H as (-> & -> & -> & _).
    repeat split. discriminate.
Qed.

(** C10: a request for [trigger_run], [reset], [set_setting] or [calibrate]
    gets no response of either kind, and every other request gets one; a
    worker that takes ["trigger_run"] or ["reset"] off the queue goes straight
    back to the queue: no call, no lock taken, nothing written. *)
Theorem C10_silent_methods_and_ignored_commands
  (addr : Addr) (msg_id : MsgId) (method : string) (params : Params)
  (sh : shared_t Num Dpd) :
  (existsb is_response (dispatch str_params addr msg_id method params sh)
     = false <-> In method silent_methods) /\
  (forall (cmd : string) (rest : list string) (s : W * shared_t Num Dpd),
     In cmd ["trigger_run"; "reset"] ->
     worker_loop (cmd :: rest) s = worker_loop rest s /\
     worker_loop [cmd] s = (Never, s, [])).
Proof.
  split.
  - unfold silent_methods. cbn [In].
    by_method method; cbn; split; intros H;
      try discriminate; try reflexivity; try tauto;
      try (subst method; tauto);
      try (exfalso; intuition congruence).
  - intros cmd rest s [<-|[<-|[]]]; split; reflexivity.
Qed.

End ChannelFacts.

(** C1 at the scripted collaborators, the AGC failing on round 2. *)
Lemma C1_failing_round_ends_run_witness :
  exists sh' tr,
    calibrate (co := Stub.stub) (Stub.fails_at 2, Stub.initial_shared)
      = (Ok tt, ([], sh'), tr) /\
    agc_rounds_run tr = 3%nat /\
    summary (results sh') =
      ["Calibration was done:"; "calibration run 2:"; "RX gain too low"].
Proof.
  apply (C1_failing_round_ends_run (co := Stub.stub) 2
           (Stub.fails_at 2) [Ok (false, "RX gain too low")] [] [] [] []
           "RX gain too low" Stub.stub_samples 30 1 Stub.initial_shared);
    [lia | reflexivity ..].
Defined.

(** C1 as the specification words it does not hold: after a run in which
    round 2 fails (three rounds run), the first element of [results.summary]
    is not "calibration run 2:". *)
Lemma C1_counterexample :
  let '(r, (_, sh'), tr) :=
    calibrate (co := Stub.stub) (Stub.fails_at 2, Stub.initial_shared) in
  r = Ok tt /\ agc_rounds_run tr = 3%nat /\
  nth_error (summary (results sh')) 0 <> Some "calibration run 2:".
Proof.
  vm_compute. repeat split; discriminate.
Qed.

(** C2 at the scripted collaborators, the AGC succeeding throughout. *)
Lemma C2_all_rounds_succeed_witness :
  exists sh' tr,
    calibrate (co := Stub.stub) ([], Stub.initial_shared)
      = (Ok tt, ([], sh'), tr) /\
    agc_rounds_run tr = 5%nat /\
    state (results sh') = "Idle" /\
    stateprogress (results sh') = 0 /\
    rx_gain (settings sh') = 30 /\
    digital_gain (settings sh') = 1 /\
    tx_median (results sh') = 1500 /\
    rx_median (results sh') = 1200 /\
    hd_error (summary (results sh')) = Some "Calibration was done:".
Proof.
  apply (C2_all_rounds_succeed (co := Stub.stub) [] [] [] [] []
           Stub.stub_samples 30 1 Stub.initial_shared); reflexivity.
Defined.

(** What two runs publish as [stateprogress]: the first run stops after a
    failing round 1, the second goes through, then ["quit"]. *)
Example progress_of_two_runs :
  map progress_of
    (locked (snd (engine_worker (co := Stub.stub)
                    ["calibrate"; "calibrate"; "quit"]
                    (Stub.fails_at 1, Stub.initial_shared))))
  = [0; 20; 40; 0; 0; 20; 40; 60; 80; 100; 0; 0].
Proof. reflexivity. Qed.

(** C4 at the scripted collaborators, the AGC failing on round 1: two
    rounds are played, each shows its percentage and nothing else, and the
    summary that comes out is that of round 1 alone. *)
Lemma C4_round_publishes_progress_only_witness :
  let w := Stub.fails_at 1 in
  let sh0 := run_start Stub.initial_shared in
  let run := calibrate (co := Stub.stub) (w, Stub.initial_shared) in
  rounds_played (co := Stub.stub) 5 w
    = [(true, "RX gain ok"); (false, "RX gain too low")] /\
  (exists tail,
      snd run =
        EvLocked AtRunStart sh0
          :: EvCall AgcRun :: EvLocked (AtRound 0) (set_stateprogress 20 sh0)
          :: EvCall AgcRun :: EvLocked (AtRound 1) (set_stateprogress 40 sh0)
          :: tail /\
      existsb is_round_release tail = false) /\
  (forall w' sh',
      fst run = (Ok tt, (w', sh')) ->
      summary (results sh') =
        ["Calibration was done:"; "calibration run 1:"; "RX gain too low"]).
Proof.
  intros w sh0 run. split; [reflexivity|].
  pose proof (C4_round_publishes_progress_only (co := Stub.stub)
                w Stub.initial_shared) as [Ht Hs].
  split; [exact Ht|].
  intros w' sh' H. exact (proj2 (Hs w' sh' H)).
Defined.

(** C4 as the specification words it does not hold: between round 0 and
    round 1 a reader of [results] sees the progress of round 0 but not its
    summary; [results.summary] is still the one from before the run. *)
Lemma C4_counterexample :
  exists sh0,
    nth_error
      (locked (snd (calibrate (co := Stub.stub) ([], Stub.initial_shared))))
      1 = Some (AtRound 0, sh0) /\
    stateprogress (results sh0) = 20 /\
    summary (results sh0) = ["DPD has not been calibrated yet"] /\
    summary (results sh0) <> "calibration run 0:" :: split_newline "RX gain ok".
Proof.
  eexists. split; [vm_compute; reflexivity|].
  repeat split. vm_compute. discriminate.
Qed.

(** C5 on both ways out of the loop: ["quit"] after a run, and an exception
    raised by the AGC in round 2. *)
Lemma C5_finalizer_runs_witness :
  let quit_run :=
    engine_worker (co := Stub.stub) ["calibrate"; "quit"]
      ([], Stub.initial_shared) in
  let fault_run :=
    engine_worker (co := Stub.stub) ["calibrate"; "quit"]
      (Stub.raises_at 2, Stub.initial_shared) in
  (fst (fst quit_run) = Ok tt /\
   state (results (snd (snd (fst quit_run)))) = "Terminated" /\
   stateprogress (results (snd (snd (fst quit_run)))) = 0 /\
   exists tr0,
     snd quit_run = tr0 ++ [EvLocked AtFinally (snd (snd (fst quit_run)))]) /\
  (fst (fst fault_run) = Raised "USRP not responding" /\
   state (results (snd (snd (fst fault_run)))) = "Terminated" /\
   stateprogress (results (snd (snd (fst fault_run)))) = 0 /\
   exists tr0,
     snd fault_run = tr0 ++ [EvLocked AtFinally (snd (snd (fst fault_run)))]).
Proof.
  intros quit_run fault_run. split; (split; [reflexivity|]).
  - apply (C5_finalizer_runs (co := Stub.stub) ["calibrate"; "quit"]
             [] (fst (snd (fst quit_run))) Stub.initial_shared
             (snd (snd (fst quit_run))) (fst (fst quit_run)) (snd quit_run));
      [reflexivity | vm_compute; discriminate].
  - apply (C5_finalizer_runs (co := Stub.stub) ["calibrate"; "quit"]
             (Stub.raises_at 2) (fst (snd (fst fault_run))) Stub.initial_shared
             (snd (snd (fst fault_run))) (fst (fst fault_run)) (snd fault_run));
      [reflexivity | vm_compute; discriminate].
Defined.

End WorkerProps.

(** ** The adaptation cycle *)

Module CycleProps.

Import Engine Cycle.

Section CycleFacts.

Context {W ES Exn Num Coefs Arr Sh Frame Ts Med : Type}.
Context {co : Cycle.Collaborators W ES Exn Num Coefs Arr Sh Frame Ts Med}.

Abbreviation vars_t := (vars W ES Num Coefs Arr Frame Ts Med).
Abbreviation ev := (Cycle.event Exn Num Coefs Sh).
Abbreviation Cyc := (M vars_t ev Exn).

Lemma frame_refl (g : vars_t) : frame g g.
Proof. now repeat split. Qed.

Lemma frame_trans (g1 g2 g3 : vars_t) :
  frame g1 g2 -> frame g2 g3 -> frame g1 g3.
Proof. unfold frame. intuition congruence. Qed.

Lemma framed_ret {A} (a : A) : framed (ret a : Cyc A).
Proof. intros g. split; [apply frame_refl|constructor]. Qed.

Lemma framed_get : framed (get : Cyc vars_t).
Proof. intros g. split; [apply frame_refl|constructor]. Qed.

Lemma framed_logging r : framed (logging r : Cyc unit).
Proof. intros g. split; [apply frame_refl|now repeat constructor]. Qed.

Lemma framed_set_frames smp : framed (modify (set_frames smp) : Cyc unit).
Proof. intros g. split; [now repeat split|constructor]. Qed.

Lemma framed_call {A} (c : Cycle.callee) (f : W -> outcome Exn A * W) :
  c <> ModelTrain -> framed (Cycle.call c f).
Proof.
  intros Hc g. unfold Cycle.call. destruct (f (world g)) as [r w'].
  split; [now repeat split|]. repeat constructor. now destruct c.
Qed.

Lemma framed_bind {A B} (m : Cyc A) (f : A -> Cyc B) :
  framed m -> (forall a, framed (f a)) -> framed (bind m f).
Proof.
  intros Hm Hf g. unfold bind. specialize (Hm g).
  destruct (m g) as [[r g1] t1]. cbn [fst snd] in Hm. destruct Hm as [F1 T1].
  destruct r as [a|e|]; [|now split ..].
  specialize (Hf a g1). destruct (f a g1) as [[r2 g2] t2].
  cbn [fst snd] in *. destruct Hf as [F2 T2].
  split; [eapply frame_trans; eassumption|].
  apply Forall_app. now split.
Qed.

Ltac framed_tac :=
  repeat first
    [ apply framed_ret | apply framed_get | apply framed_logging
    | apply framed_set_frames
    | apply framed_call; discriminate
    | apply framed_bind; [|intros]
    | match goal with
      | |- framed (match ?d with _ => _ end) => destruct d
      end ].

Lemma framed_report_body : framed report_body.
Proof. unfold report_body. cbv zeta. framed_tac. Qed.

Lemma bind_get {A} (f : vars_t -> Cyc A) (g : vars_t) :
  bind get f g = f g g.
Proof.
  unfold bind, get. now destruct (f g g) as [[r g'] t].
Qed.

Lemma iteration_body_report (g : vars_t) :
  state g = "report" -> iteration_body g = report_step g.
Proof. intros H. unfold iteration_body. now rewrite bind_get, H. Qed.

Lemma iteration_body_measure (g : vars_t) :
  state g = "measure" -> iteration_body g = measure_step g.
Proof. intros H. unfold iteration_body. now rewrite bind_get, H. Qed.

Lemma iteration_body_model (g : vars_t) :
  state g = "model" -> iteration_body g = model_step g.
Proof. intros H. unfold iteration_body. now rewrite bind_get, H. Qed.

Lemma iteration_body_adapt (g : vars_t) :
  state g = "adapt" -> iteration_body g = adapt_step g.
Proof. intros H. unfold iteration_body. now rewrite bind_get, H. Qed.

(** The handler of the outer [except] (lines 350-354). *)
Lemma iteration_raised (g g1 : vars_t) e t1 :
  iteration_body g = (Raised e, g1, t1) ->
  iteration g =
    (Ok tt, set_state "measure" (set_i (i g1 + 1) g1),
     t1 ++ [Logged (ErrIterationFailed (i g1)); Logged (ErrTraceback e)]).
Proof.
  intros H. unfold iteration, try_except. rewrite H. reflexivity.
Qed.

Lemma iteration_not_raised (g g1 : vars_t) r t1 :
  iteration_body g = (r, g1, t1) -> (forall e, r <> Raised e) ->
  iteration g = (r, g1, t1).
Proof.
  intros H Hr. unfold iteration, try_except. rewrite H.
  destruct r; try reflexivity. now destruct (Hr e).
Qed.

(** C7: when anything in the [try] block of the Report step raises, the
    exception is caught there and logged (the failure message, then the
    traceback), the pass through the loop body returns normally with [i]
    advanced by exactly one and [state = 'measure'], and the loop goes on
    from there as long as [i < num_iter]. *)
Theorem C7_report_exception_is_contained
  (g g1 : vars_t) (e : Exn) (t1 : list ev) :
  state g = "report" ->
  report_body g = (Raised e, g1, t1) ->
  exists g',
    iteration g =
      (Ok tt, g',
       t1 ++ [Logged (ErrReportFailed (i g)); Logged (ErrTraceback e)]) /\
    i g' = i g + 1 /\
    state g' = "measure" /\
    (forall fuel,
        i g < num_iter ->
        cycle (S fuel) g =
          let '(r2, g2, t2) := cycle fuel g' in
          (r2, g2,
           (t1 ++ [Logged (ErrReportFailed (i g)); Logged (ErrTraceback e)])
             ++ t2)).
Proof.
  intros Hst Hbody.
  destruct (framed_report_body g) as [(Hi & _ & _) _].
  rewrite Hbody in Hi. cbn [fst snd] in Hi.
  assert (Hit : iteration g =
                (Ok tt, set_state "measure" (set_i (i g + 1) g1),
                 t1 ++ [Logged (ErrReportFailed (i g));
                        Logged (ErrTraceback e)])).
  { apply iteration_not_raised; [|discriminate].
    rewrite (iteration_body_report g Hst).
    unfold report_step, bind at 1, try_except. rewrite Hbody.
    unfold bind, get, logging, emit, modify. cbn [app].
    rewrite Hi, !app_nil_r. reflexivity. }
  exists (set_state "measure" (set_i (i g + 1) g1)).
  split; [exact Hit|]. split; [reflexivity|]. split; [reflexivity|].
  intros fuel Hlt. cbn [cycle]. rewrite bind_get.
  apply Z.ltb_lt in Hlt. rewrite Hlt. unfold bind at 1. rewrite Hit.
  reflexivity.
Qed.


(** What one pass in the Measure state does when the capture and the
    extraction return. *)
Lemma measure_step_returns (g : vars_t) smp w1 ex es1 w2 :
  meas_get_samples (world g) = (Ok smp, w1) ->
  extStat_extract (txframe_aligned smp) (rxframe_aligned smp) (extStat g, w1)
    = (Ok ex, (es1, w2)) ->
  exists g',
    measure_step g =
      (Ok tt, g',
       [Called MeasGetSamples (i g) (extStat_n_meas (extStat g));
        Called ExtStatExtract (i g) (extStat_n_meas (extStat g))]) /\
    i g' = i g /\ extStat g' = es1 /\
    state g' =
      (if extStat_n_meas es1 >=? get_n_meas (i g) then "model" else "measure").
Proof.
  intros Hm He.
  unfold measure_step, bind, Cycle.call, call_extStat, modify, get.
  rewrite Hm.
  cbn [i extStat world state set_frames set_world set_extStat set_extracted
         set_n_meas].
  rewrite He.
  cbn [i extStat world state set_frames set_world set_extStat set_extracted
         set_n_meas].
  destruct (extStat_n_meas es1 >=? get_n_meas (i g));
    (eexists; split; [reflexivity|]; now repeat split).
Qed.

(** One pass in the Measure state never calls the fitter, ends in Measure
    or Model, and ends in Model only with enough accumulated captures. *)
Lemma measure_pass (g : vars_t) :
  state g = "measure" ->
  let '(r, g', t) := iteration g in
  Forall (fun e => is_train e = false) t /\
  (state g' = "measure" \/
   state g' = "model" /\ r = Ok tt /\ i g' = i g /\
   get_n_meas (i g') <= extStat_n_meas (extStat g')).
Proof.
  intros Hst.
  destruct (meas_get_samples (world g)) as [[smp|e|] w1] eqn:Hm.
  - destruct (extStat_extract (txframe_aligned smp) (rxframe_aligned smp)
                (extStat g, w1)) as [[ex|e|] [es1 w2]] eqn:He.
    + destruct (measure_step_returns g _ _ _ _ _ Hm He)
        as (g' & Hrun & Hi & Hes & Hs).
      rewrite (iteration_not_raised g _ _ _
                 (eq_trans (iteration_body_measure g Hst) Hrun))
        by discriminate.
      split; [now repeat constructor|].
      destruct (Z.geb_spec (extStat_n_meas es1) (get_n_meas (i g))).
      * right. rewrite Hi, Hes. now repeat split.
      * now left.
    + erewrite iteration_raised; cycle 1.
      { rewrite iteration_body_measure by assumption. unfold measure_step.
        unfold bind at 1. unfold Cycle.call at 1. rewrite Hm.
        unfold bind at 1. unfold modify at 1.
        unfold bind at 1. unfold call_extStat at 1.
        cbn [extStat world set_frames set_world]. rewrite He. reflexivity. }
      split; [now repeat constructor|now left].
    + erewrite iteration_not_raised; cycle 1.
      { rewrite iteration_body_measure by assumption. unfold measure_step.
        unfold bind at 1. unfold Cycle.call at 1. rewrite Hm.
        unfold bind at 1. unfold modify at 1.
        unfold bind at 1. unfold call_extStat at 1.
        cbn [extStat world set_frames set_world]. rewrite He. reflexivity. }
      { discriminate. }
      split; [now repeat constructor|now left].
  - erewrite iteration_raised; cycle 1.
    { rewrite iteration_body_measure by assumption. unfold measure_step.
      unfold bind at 1. unfold Cycle.call at 1. rewrite Hm. reflexivity. }
    split; [now repeat constructor|now left].
  - erewrite iteration_not_raised; cycle 1.
    { rewrite iteration_body_measure by assumption. unfold measure_step.
      unfold bind at 1. unfold Cycle.call at 1. rewrite Hm. reflexivity. }
    { discriminate. }
    split; [now repeat constructor|now left].
Qed.

Ltac next_call :=
  match goal with
  | |- context [match ?x with (_, _) => _ end] =>
      lazymatch x with
      | context [match _ with _ => _ end] => fail
      | (_, _) => fail
      | _ => destruct x as [[?|?|] ?]
      end
  end.









End CycleFacts.

(** C7 at the test doubles: the disk is full, [adapt.dump()] raises in the
    first Report step. *)
Lemma C7_report_exception_is_contained_witness :
  let g := CycleStub.start true in
  let t1 := [Called MeasGetSamples 0 0; Called AdaptDump 0 0] in
  let t := t1 ++ [Logged (ErrReportFailed 0);
                  Logged (ErrTraceback "No space left on device")] in
  exists g',
    iteration (co := CycleStub.stub) g = (Ok tt, g', t) /\
    i g' = 0 + 1 /\
    state g' = "measure" /\
    (forall fuel,
        0 < num_iter ->
        cycle (co := CycleStub.stub) (S fuel) g =
          let '(r2, g2, t2) := cycle (co := CycleStub.stub) fuel g' in
          (r2, g2, t ++ t2)).
Proof.
  intros g t1 t.
  apply (C7_report_exception_is_contained (co := CycleStub.stub) g
           (set_frames (mk_samples tt tt tt tt 1200 1500) g)
           "No space left on device" t1); reflexivity.
Defined.

(** The cycle at the test doubles: the heuristic asks for two captures, and
    the fitter is called once, in iteration 1, with two accumulated. *)
Example cycle_trains_after_two_captures :
  filter is_train
    (snd (cycle (co := CycleStub.stub) 6 (CycleStub.start false)))
  = [Called ModelTrain 1 2].
Proof. reflexivity. Qed.

End CycleProps.

(** ** The command queue *)

Module QueueProps.

Import CommandQueue.

Lemma put_some (x : string) (q q' : queue) :
  put x q = Some q' -> q = [] /\ q' = [x].
Proof.
  unfold put, maxsize. destruct q as [|y q]; cbn.
  - intros H. injection H as <-. now split.
  - discriminate.
Qed.

Lemma step_pending (c c' : config) :
  step c c' ->
  (List.length (pending c) <= 1)%nat -> (List.length (pending c') <= 1)%nat.
Proof.
  intros [H|H|faulted H] Hlen.
  - unfold submit_step in H. destruct (to_submit c) as [|x rest]; [discriminate|].
    destruct (put x (pending c)) as [q'|] eqn:E; [|discriminate].
    injection H as <-. apply put_some in E as [_ ->]. cbn. lia.
  - unfold dequeue_step in H. destruct (worker c); try discriminate.
    destruct (pending c) as [|cmd q']; [discriminate|].
    cbn in H. injection H as <-. cbn in *. lia.
  - unfold finish_step in H. destruct (worker c); try discriminate.
    injection H as <-. exact Hlen.
Qed.

(** C9: the queue never holds more than one command; while it holds one,
    the control thread's [put] cannot complete, whatever the worker is
    doing, and the only step that empties the queue is the worker's [get];
    right after that [get] the worker has the command still to execute, and
    the waiting [put] completes; finishing the command does not touch the
    queue. *)
Theorem C9_single_slot_queue :
  (forall cmds c,
      reachable (start cmds) c -> (List.length (pending c) <= 1)%nat) /\
  (forall c, List.length (pending c) = 1%nat -> submit_step c = None) /\
  (forall c c',
      step c c' -> List.length (pending c) = 1%nat -> pending c' = [] ->
      dequeue_step c = Some c') /\
  (forall prior next rest,
      prior <> "quit" ->
      let c := mk_config [prior] (next :: rest) Waiting in
      let c' := mk_config [] (next :: rest) (Executing prior) in
      dequeue_step c = Some c' /\
      submit_step c' = Some (mk_config [next] rest (Executing prior))) /\
  (forall faulted c c',
      finish_step faulted c = Some c' ->
      pending c' = pending c /\ to_submit c' = to_submit c).
Proof.
  repeat split.
  - intros cmds c H. induction H as [|c c' _ IH Hstep]; [cbn; lia|].
    now apply (step_pending c c').
  - intros c H. unfold submit_step, put, maxsize.
    destruct (to_submit c); [reflexivity|]. now rewrite H.
  - intros c c' [H|H|faulted H] Hlen Hnil; [| assumption |].
    + unfold submit_step in H.
      destruct (to_submit c) as [|x rest]; [discriminate|].
      destruct (put x (pending c)) as [q'|] eqn:E; [|discriminate].
      apply put_some in E as [E _]. rewrite E in Hlen. discriminate.
    + unfold finish_step in H. destruct (worker c); try discriminate.
      injection H as <-. cbn in Hnil. rewrite Hnil in Hlen. discriminate.
  - unfold dequeue_step. cbn.
    destruct (String.eqb_spec prior "quit"); [contradiction|reflexivity].
  - unfold finish_step in H. destruct (worker c); try discriminate.
    now injection H as <-.
  - unfold finish_step in H. destruct (worker c); try discriminate.
    now injection H as <-.
Qed.

(** The two threads on three submissions: the second [put] has to wait for
    the worker's [get], not for the end of the calibration. *)
Example second_put_waits_for_get :
  let c0 := start ["calibrate"; "calibrate"; "quit"] in
  exists c1 c2 c3,
    submit_step c0 = Some c1 /\
    submit_step c1 = None /\
    dequeue_step c1 = Some c2 /\ worker c2 = Executing "calibrate" /\
    submit_step c2 = Some c3 /\ worker c3 = Executing "calibrate" /\
    pending c3 = ["calibrate"] /\ submit_step c3 = None.
Proof. cbn. repeat eexists. Qed.

End QueueProps.

(** * Further properties *)

(** ** The worker *)

Module WorkerExtra.

Import Engine.

Section Facts.

Context {W Exn Num Dpd Frame Ts Med : Type}.
Context {co : Collaborators W Exn Num Frame Ts Med}.

Abbreviation shared := (shared_t Num Dpd).
Abbreviation ev := (event Num Dpd).
Abbreviation Worker := (M (W * shared) ev Exn).

Lemma same_tx_side_refl (sh : shared) : same_tx_side sh sh.
Proof. now split. Qed.

Lemma same_tx_side_trans (a b c : shared) :
  same_tx_side a b -> same_tx_side b c -> same_tx_side a c.
Proof. unfold same_tx_side. intuition congruence. Qed.

Lemma keeps_ret {A} (a : A) : keeps_tx_side (ret a : Worker A).
Proof. intros w sh. split; [apply same_tx_side_refl|constructor]. Qed.

Lemma keeps_call {A} c (f : W -> outcome Exn A * W) :
  keeps_tx_side (call c f : Worker A).
Proof.
  intros w sh. unfold call. cbn [fst]. destruct (f w) as [r w'].
  split; [apply same_tx_side_refl|constructor].
Qed.

Lemma keeps_assign (f : shared -> shared) :
  (forall sh, same_tx_side sh (f sh)) ->
  keeps_tx_side (assign f : Worker unit).
Proof. intros Hf w sh. split; [apply Hf|constructor]. Qed.

Lemma keeps_bind {A B} (m : Worker A) (f : A -> Worker B) :
  keeps_tx_side m -> (forall a, keeps_tx_side (f a)) ->
  keeps_tx_side (bind m f).
Proof.
  intros Hm Hf w sh. unfold bind. specialize (Hm w sh).
  destruct (m (w, sh)) as [[r [w1 sh1]] t1]. cbn [fst snd] in Hm.
  destruct Hm as [S1 L1]. destruct r as [a|e|]; [|now split ..].
  specialize (Hf a w1 sh1). destruct (f a (w1, sh1)) as [[r2 [w2 sh2]] t2].
  cbn [fst snd] in *. destruct Hf as [S2 L2].
  split; [eapply same_tx_side_trans; eassumption|].
  rewrite WorkerProps.locked_app. apply Forall_app. split; [assumption|].
  eapply Forall_impl; [|exact L2]. intros x Hx.
  eapply same_tx_side_trans; eassumption.
Qed.

Lemma keeps_with_lock {A} at_site (body : Worker A) :
  keeps_tx_side body -> keeps_tx_side (with_lock at_site body).
Proof.
  intros Hb w sh. unfold with_lock. specialize (Hb w sh).
  destruct (body (w, sh)) as [[r [w1 sh1]] t1]. cbn [fst snd] in Hb.
  destruct Hb as [S1 L1].
  destruct r; cbn [fst snd]; (split; [assumption|]);
    rewrite ?WorkerProps.locked_app; try assumption;
    (apply Forall_app; split; [assumption|]);
    cbn [locked]; (constructor; [exact S1|constructor]).
Qed.

Ltac keeps_tac :=
  repeat first
    [ apply keeps_ret
    | apply keeps_call
    | apply keeps_assign; intros ?; now split
    | apply keeps_with_lock
    | apply keeps_bind; [|intros] ].

Lemma keeps_calibrate_rounds (rounds : list Z) :
  forall summ,
    keeps_tx_side (calibrate_rounds rounds summ : Worker (list string)).
Proof.
  induction rounds as [|i rest IH]; intros summ; cbn [calibrate_rounds].
  - apply keeps_ret.
  - apply keeps_bind; [apply keeps_call|]. intros [ok text].
    apply keeps_bind; [keeps_tac|]. intros _.
    destruct ok; cbn [negb]; [apply IH|apply keeps_ret].
Qed.

Lemma keeps_calibrate : keeps_tx_side (calibrate : Worker unit).
Proof.
  unfold calibrate. apply keeps_bind; [keeps_tac|]. intros _.
  apply keeps_bind; [apply keeps_calibrate_rounds|]. intros summ.
  keeps_tac.
Qed.

Lemma keeps_worker_loop (cmds : list string) :
  keeps_tx_side (worker_loop cmds : Worker unit).
Proof.
  induction cmds as [|cmd rest IH]; cbn [worker_loop].
  - intros w sh. split; [apply same_tx_side_refl|constructor].
  - destruct (cmd =? "quit")%string; [apply keeps_ret|].
    destruct (cmd =? "calibrate")%string; [|exact IH].
    apply keeps_bind; [apply keeps_calibrate|]. intros _. exact IH.
Qed.

(** X1: whatever commands arrive and whatever the collaborators do, the
    worker never changes [settings['tx_gain']] nor [settings['dpddata']]:
    they are as before in everything it publishes and when it ends. *)
Theorem X1_worker_leaves_tx_side
  (cmds : list string) (w : W) (sh : shared) :
  same_tx_side sh (snd (snd (fst (engine_worker cmds (w, sh))))) /\
  Forall (fun x => same_tx_side sh (snd x))
    (locked (snd (engine_worker cmds (w, sh)))).
Proof.
  rewrite WorkerProps.engine_worker_unfold.
  destruct (keeps_worker_loop cmds w sh) as [Hs Hl].
  destruct (worker_loop cmds (w, sh)) as [[r [w1 sh1]] t1].
  cbn [fst snd] in *.
  destruct r; cbn [fst snd]; try (split; assumption);
    (split; [exact Hs|]);
    rewrite WorkerProps.locked_app;
    (apply Forall_app; split; [assumption|]);
    cbn [locked]; (constructor; [exact Hs|constructor]).
Qed.

Lemma worker_loop_after_quit (pre post : list string) (s : W * shared) :
  worker_loop (pre ++ "quit" :: post) s = worker_loop (pre ++ ["quit"]) s.
Proof.
  revert s. induction pre as [|cmd pre IH]; intros s; [reflexivity|].
  cbn [app worker_loop].
  destruct (cmd =? "quit")%string; [reflexivity|].
  destruct (cmd =? "calibrate")%string; [|apply IH].
  unfold bind. destruct (calibrate s) as [[[[]|e|] s1] t1]; try reflexivity.
  now rewrite IH.
Qed.

(** X2: what is on the queue behind ["quit"] is never looked at, and a
    calibration run that raises ends the worker: the commands behind it are
    never executed. *)
Theorem X2_nothing_runs_after_the_end
  (pre post rest rest' : list string) (s : W * shared) :
  engine_worker (pre ++ "quit" :: post) s = engine_worker (pre ++ ["quit"]) s /\
  ((exists e, fst (fst (calibrate s)) = Raised e) ->
   engine_worker ("calibrate" :: rest) s
     = engine_worker ("calibrate" :: rest') s).
Proof.
  split.
  - unfold engine_worker, try_finally. now rewrite worker_loop_after_quit.
  - intros [e He]. unfold engine_worker, try_finally.
    cbn [worker_loop String.eqb Ascii.eqb Bool.eqb]. unfold bind.
    destruct (calibrate s) as [[r s1] t1]. cbn [fst] in He. now subst r.
Qed.

(** X3: the worker only ever acts on ["quit"] and ["calibrate"]: dropping
    every other command from what the queue delivers changes nothing of what
    it does. *)
Theorem X3_only_handled_commands_matter
  (cmds : list string) (s : W * shared) :
  engine_worker cmds s = engine_worker (filter handled cmds) s.
Proof.
  unfold engine_worker, try_finally.
  assert (H : forall s : W * shared,
             worker_loop cmds s = worker_loop (filter handled cmds) s).
  { clear s. induction cmds as [|cmd rest IH]; intros s; [reflexivity|].
    cbn [filter]. unfold handled at 1.
    destruct (cmd =? "quit")%string eqn:Eq; cbn [orb].
    - cbn [worker_loop]. now rewrite Eq.
    - destruct (cmd =? "calibrate")%string eqn:Ec.
      + cbn [worker_loop]. rewrite Eq, Ec. unfold bind.
        destruct (calibrate s) as [[[[]|e|] s1] t1]; try reflexivity.
        now rewrite IH.
      + cbn [worker_loop]. rewrite Eq, Ec. apply IH. }
  now rewrite H.
Qed.

Lemma worker_loop_ok_quit (cmds : list string) :
  forall (s s' : W * shared) tr,
    worker_loop cmds s = (Ok tt, s', tr) -> In "quit" cmds.
Proof.
  induction cmds as [|cmd rest IH]; intros s s' tr H; [discriminate|].
  cbn [worker_loop] in H.
  destruct (String.eqb_spec cmd "quit") as [->|_]; [now left|]. right.
  destruct (cmd =? "calibrate")%string; [|now apply IH in H].
  unfold bind in H.
  destruct (calibrate s) as [[[[]|e|] s1] t1]; try discriminate.
  destruct (worker_loop rest s1) as [[r2 s2] t2] eqn:E.
  injection H as -> <- <-. now apply IH in E.
Qed.

(** X4: the worker returns normally only after it has taken ["quit"] off the
    queue; without a ["quit"] among the commands it ends by an exception or
    stays waiting. *)
Theorem X4_returns_only_on_quit
  (cmds : list string) (s s' : W * shared) tr :
  engine_worker cmds s = (Ok tt, s', tr) -> In "quit" cmds.
Proof.
  rewrite WorkerProps.engine_worker_unfold.
  destruct (worker_loop cmds s) as [[r [w1 sh1]] t1] eqn:E.
  destruct r as [[]|e|]; try discriminate. intros _.
  now apply worker_loop_ok_quit in E.
Qed.

Lemma rounds_no_hang (rounds : list Z) :
  (forall w : W, fst (agc_run w) <> Never) ->
  forall summ (s : W * shared),
    fst (fst (calibrate_rounds rounds summ s)) <> Never.
Proof.
  intros Ha. induction rounds as [|i rest IH]; intros summ [w sh];
    [discriminate|].
  rewrite WorkerProps.calibrate_rounds_cons. specialize (Ha w).
  destruct (agc_run w) as [[[[|] text]|e|] w0]; cbn [fst] in *;
    try discriminate; try contradiction.
  cbv zeta.
  specialize (IH (round_title i :: split_newline text)
                (w0, set_stateprogress (round_progress i) sh)).
  now destruct (calibrate_rounds rest _ _) as [[r2 s2] t2].
Qed.

Lemma calibrate_no_hang (s : W * shared) :
  never_hangs -> fst (fst (calibrate s)) <> Never.
Proof.
  intros (Ha & Hm & Hg & Hd). destruct s as [w sh].
  rewrite WorkerProps.calibrate_unfold.
  pose proof (rounds_no_hang (range N_ITER) Ha [] (w, run_start sh)) as Hr.
  destruct (calibrate_rounds _ _ _) as [[r1 [w1 sh1]] t1]. cbn [fst] in Hr.
  destruct r1 as [summ|e|]; [|discriminate|contradiction].
  specialize (Hm w1).
  destruct (meas_get_samples w1) as [[smp|e|] w2]; cbn [fst] in *;
    [|discriminate|contradiction].
  specialize (Hg w2).
  destruct (adapt_get_rxgain w2) as [[g|e|] w3]; cbn [fst] in *;
    [|discriminate|contradiction].
  specialize (Hd w3).
  destruct (adapt_get_digital_gain w3) as [[d|e|] w4]; cbn [fst] in *;
    [discriminate|discriminate|contradiction].
Qed.

Lemma worker_loop_no_hang (cmds : list string) :
  never_hangs -> In "quit" cmds ->
  forall s : W * shared, fst (fst (worker_loop cmds s)) <> Never.
Proof.
  intros Hn. induction cmds as [|cmd rest IH]; intros Hq s; [contradiction|].
  cbn [worker_loop].
  destruct (String.eqb_spec cmd "quit") as [->|Hne]; [discriminate|].
  destruct Hq as [->|Hq]; [contradiction|].
  destruct (cmd =? "calibrate")%string; [|now apply IH].
  unfold bind. pose proof (calibrate_no_hang s Hn) as Hc.
  destruct (calibrate s) as [[[[]|e|] s1] t1]; cbn [fst] in *;
    [|discriminate|contradiction].
  specialize (IH Hq s1). now destruct (worker_loop rest s1) as [[r2 s2] t2].
Qed.

(** X5: when no collaborator call waits for ever and a ["quit"] is among the
    commands, the worker thread ends, with [results['state']] set to
    ['Terminated']. *)
Theorem X5_worker_ends_on_quit
  (cmds : list string) (w : W) (sh : shared) :
  never_hangs -> In "quit" cmds ->
  fst (fst (engine_worker cmds (w, sh))) <> Never /\
  state (results (snd (snd (fst (engine_worker cmds (w, sh))))))
    = "Terminated".
Proof.
  intros Hn Hq. rewrite WorkerProps.engine_worker_unfold.
  pose proof (worker_loop_no_hang cmds Hn Hq (w, sh)) as H.
  destruct (worker_loop cmds (w, sh)) as [[r [w1 sh1]] t1]. cbn [fst] in H.
  destruct r; [| |contradiction]; now split.
Qed.

Lemma calls_of_app (c : callee) (t1 t2 : list ev) :
  calls_of c (t1 ++ t2) = (calls_of c t1 + calls_of c t2)%nat.
Proof.
  induction t1 as [|[c'|at_site sh] t1 IH]; cbn [app calls_of];
    [reflexivity| |assumption].
  destruct (callee_eqb c c'); now rewrite IH.
Qed.

Lemma rounds_calls (rounds : list Z) :
  forall summ (s : W * shared),
    let tr := snd (calibrate_rounds rounds summ s) in
    (calls_of AgcRun tr <= List.length rounds)%nat /\
    (rounds <> [] -> 1 <= calls_of AgcRun tr)%nat /\
    calls_of MeasGetSamples tr = O /\
    calls_of AdaptGetRxGain tr = O /\
    calls_of AdaptGetDigitalGain tr = O.
Proof.
  induction rounds as [|i rest IH]; intros summ [w sh]; cbv zeta.
  - cbn. repeat split; try lia. congruence.
  - rewrite WorkerProps.calibrate_rounds_cons.
    destruct (agc_run w) as [[[[|] text]|e|] w0];
      try (cbn; repeat split; lia).
    cbv zeta.
    specialize (IH (round_title i :: split_newline text)
                  (w0, set_stateprogress (round_progress i) sh)).
    destruct (calibrate_rounds rest _ _) as [[r2 s2] t2].
    cbn [snd] in *. destruct IH as (A & _ & B & C & D).
    cbn [calls_of callee_eqb List.length]. repeat split; try lia; assumption.
Qed.

(** X6: whatever the collaborators do, one calibration run calls
    [agc.run()] at least once and at most five times, captures at most
    once, and reads the RX gain only after the capture and the digital gain
    only after the RX gain, each at most once. *)
Theorem X6_calls_of_a_run (w : W) (sh : shared) :
  let tr := snd (calibrate (w, sh)) in
  (1 <= calls_of AgcRun tr <= 5)%nat /\
  (calls_of MeasGetSamples tr <= 1)%nat /\
  (calls_of AdaptGetRxGain tr <= calls_of MeasGetSamples tr)%nat /\
  (calls_of AdaptGetDigitalGain tr <= calls_of AdaptGetRxGain tr)%nat.
Proof.
  cbv zeta. rewrite WorkerProps.calibrate_unfold.
  pose proof (rounds_calls (range N_ITER) [] (w, run_start sh)) as H.
  destruct (calibrate_rounds _ _ _) as [[r1 [w1 sh1]] t1].
  cbv zeta in H. cbn [snd] in H. destruct H as (A & B & C & D & E).
  assert (B' : (1 <= calls_of AgcRun t1)%nat) by (apply B; discriminate).
  change (List.length (range N_ITER)) with 5%nat in A.
  destruct r1 as [summ|e|];
    [destruct (meas_get_samples w1) as [[smp|e|] w2];
     [destruct (adapt_get_rxgain w2) as [[g|e|] w3];
      [destruct (adapt_get_digital_gain w3) as [[d|e|] w4]| |]| |]| |];
    cbn [snd]; rewrite ?calls_of_app; cbn [calls_of callee_eqb];
    rewrite ?calls_of_app; cbn [calls_of callee_eqb]; lia.
Qed.

Lemma rounds_indep (rounds : list Z) :
  forall summ (w : W) (sh sh2 : shared),
    fst (fst (calibrate_rounds rounds summ (w, sh)))
      = fst (fst (calibrate_rounds rounds summ (w, sh2))) /\
    fst (snd (fst (calibrate_rounds rounds summ (w, sh))))
      = fst (snd (fst (calibrate_rounds rounds summ (w, sh2)))).
Proof.
  induction rounds as [|i rest IH]; intros summ w sh sh2; [now split|].
  rewrite !WorkerProps.calibrate_rounds_cons.
  destruct (agc_run w) as [[[[|] text]|e|] w0]; try (now split).
  cbv zeta.
  specialize (IH (round_title i :: split_newline text) w0
                (set_stateprogress (round_progress i) sh)
                (set_stateprogress (round_progress i) sh2)).
  destruct (calibrate_rounds rest _ (w0, set_stateprogress _ sh))
    as [[r2 s2] t2].
  destruct (calibrate_rounds rest _ (w0, set_stateprogress _ sh2))
    as [[r3 s3] t3].
  exact IH.
Qed.

(** X7: what a calibration run that returns leaves in [results], and in
    [rx_gain] and [digital_gain], does not depend on what the dictionaries
    held before the run; [tx_gain] and [dpddata] stay as they were. *)
Theorem X7_run_overwrites_results
  (w w' : W) (sh sh' sh2 : shared) (tr : list ev) :
  calibrate (w, sh) = (Ok tt, (w', sh'), tr) ->
  exists sh2' tr2,
    calibrate (w, sh2) = (Ok tt, (w', sh2'), tr2) /\
    results sh2' = results sh' /\
    rx_gain (settings sh2') = rx_gain (settings sh') /\
    digital_gain (settings sh2') = digital_gain (settings sh') /\
    same_tx_side sh2 sh2'.
Proof.
  intros H.
  pose proof (keeps_calibrate w sh2) as [Hk _].
  rewrite WorkerProps.calibrate_unfold in H, Hk |- *.
  destruct (rounds_indep (range N_ITER) [] w (run_start sh) (run_start sh2))
    as [Hr Hw].
  destruct (calibrate_rounds _ _ (w, run_start sh)) as [[r1 [w1 sh1]] t1].
  destruct (calibrate_rounds _ _ (w, run_start sh2)) as [[r2 [w2 sh3]] t2].
  cbn [fst snd] in Hr, Hw. subst r2 w2.
  destruct r1 as [summ|e|]; try discriminate.
  destruct (meas_get_samples w1) as [[smp|e|] w3]; try discriminate.
  destruct (adapt_get_rxgain w3) as [[g|e|] w4]; try discriminate.
  destruct (adapt_get_digital_gain w4) as [[d|e|] w5]; try discriminate.
  injection H as <- <- <-. cbv beta iota zeta in Hk. cbn [fst snd] in Hk.
  eexists _, _. split; [reflexivity|].
  split; [reflexivity|]. split; [reflexivity|]. split; [reflexivity|].
  exact Hk.
Qed.

Lemma after_rounds_results (pre : list Z) (sh : shared) :
  let s := last (map (fun j => snd (round_snap sh j)) pre) sh in
  settings s = settings sh /\
  tx_median (results s) = tx_median (results sh) /\
  rx_median (results s) = rx_median (results sh) /\
  state (results s) = state (results sh) /\
  summary (results s) = summary (results sh).
Proof.
  cbv zeta. induction pre as [|j pre IH]; [cbn; tauto|].
  destruct pre as [|z pre]; [cbn; tauto|].
  cbn [map] in *.
  change (last (snd (round_snap sh j) :: snd (round_snap sh z)
                  :: map (fun j => snd (round_snap sh j)) pre) sh)
    with (last (snd (round_snap sh z)
                  :: map (fun j => snd (round_snap sh j)) pre) sh).
  exact IH.
Qed.

(** X8: when the rounds and the capture have gone through and
    [adapt.get_rxgain()] has answered but [adapt.get_digital_gain()] raises
    inside the last critical section, the lock is released on a half-done
    update: [settings['rx_gain']] is already the new value, while
    [digital_gain], the medians and the summary are the old ones and the
    state shown is still ['RX Gain Calibration']; the worker then ends with
    that exception, the state forced to ['Terminated'], and the commands
    behind are not executed. *)
Theorem X8_fault_in_last_critical_section
  (w w1 w2 w3 w4 : W) (sh sh1 : shared) (summ : list string) (t1 : list ev)
  (smp : samples_t Frame Ts Med) (g : Num) (e : Exn) (rest : list string) :
  calibrate_rounds (range N_ITER) [] (w, run_start sh)
    = (Ok summ, (w1, sh1), t1) ->
  meas_get_samples w1 = (Ok smp, w2) ->
  adapt_get_rxgain w2 = (Ok g, w3) ->
  adapt_get_digital_gain w3 = (Raised e, w4) ->
  exists shp sh' tr0,
    engine_worker ("calibrate" :: rest) (w, sh)
      = (Raised e, (w4, sh'),
         tr0 ++ [EvLocked AtRunDone shp; EvLocked AtFinally sh']) /\
    rx_gain (settings shp) = g /\
    digital_gain (settings shp) = digital_gain (settings sh) /\
    state (results shp) = "RX Gain Calibration" /\
    tx_median (results shp) = tx_median (results sh) /\
    rx_median (results shp) = rx_median (results sh) /\
    summary (results shp) = summary (results sh) /\
    settings sh' = settings shp /\
    summary (results sh') = summary (results sh) /\
    state (results sh') = "Terminated".
Proof.
  intros Hr Hm Hg Hd.
  destruct (WorkerProps.rounds_locked _ _ _ _ _ _ _ _ Hr)
    as (pre & post & _ & _ & Hs).
  destruct (after_rounds_results pre (run_start sh)) as (A & B & C & D & E).
  rewrite <- Hs in A, B, C, D, E.
  rewrite WorkerProps.engine_worker_unfold.
  cbn [worker_loop String.eqb Ascii.eqb Bool.eqb]. unfold bind.
  rewrite WorkerProps.calibrate_unfold, Hr, Hm, Hg, Hd.
  cbv beta iota zeta.
  exists (set_rx_gain g sh1), (terminated (set_rx_gain g sh1)),
    (EvLocked AtRunStart (run_start sh)
       :: t1 ++ [EvCall MeasGetSamples; EvCall AdaptGetRxGain;
                 EvCall AdaptGetDigitalGain]).
  split.
  { cbn [app]. rewrite <- !app_assoc. reflexivity. }
  cbn [set_rx_gain terminated set_stateprogress set_state settings results
         rx_gain digital_gain state tx_median rx_median summary].
  rewrite A. repeat split; assumption.
Qed.

(** When the loop hands on a summary, every call of [agc.run()] it made
    has returned: there are as many calls as rounds played. *)
Lemma rounds_calls_played (n : nat) :
  forall (a : nat) summ (w : W) (sh : shared) summ' s' tr,
    calibrate_rounds (map Z.of_nat (seq a n)) summ (w, sh)
      = (Ok summ', s', tr) ->
    calls_of AgcRun tr = List.length (rounds_played n w).
Proof.
  induction n as [|n IH]; intros a summ w sh summ' s' tr H.
  - injection H as _ _ <-. reflexivity.
  - cbn [seq map] in H. rewrite WorkerProps.calibrate_rounds_cons in H.
    cbn [rounds_played].
    destruct (agc_run w) as [[[[|] text]|e|] w0]; try discriminate.
    + cbv zeta in H.
      destruct (calibrate_rounds (map Z.of_nat (seq (S a) n)) _ _)
        as [[r2 s2] t2] eqn:E.
      injection H as -> <- <-. cbn [calls_of callee_eqb List.length].
      f_equal. exact (IH _ _ _ _ _ _ _ E).
    + injection H as _ _ <-. reflexivity.
Qed.

(** X24: after a calibration run that returns, every call of [agc.run()]
    the run made has returned, and [results['summary']] is the line
    "Calibration was done:", then "calibration run n-1:" where [n] is the
    number of those calls, then the lines of the text that the last of them
    returned. *)
Theorem X24_summary_names_last_round
  (w w' : W) (sh sh' : shared) (tr : list ev) :
  calibrate (w, sh) = (Ok tt, (w', sh'), tr) ->
  let played := rounds_played (Z.to_nat N_ITER) w in
  calls_of AgcRun tr = List.length played /\
  played <> [] /\
  summary (results sh') =
    "Calibration was done:"
      :: round_title (Z.of_nat (calls_of AgcRun tr) - 1)
      :: split_newline (snd (last played (true, EmptyString))).
Proof.
  intros H. cbv zeta.
  destruct (WorkerProps.calibrate_exact w sh) as [_ Hs].
  cbv zeta in Hs. rewrite H in Hs.
  destruct (Hs w' sh' eq_refl) as [Hne Hsum].
  assert (Hc : calls_of AgcRun tr
               = List.length (rounds_played (Z.to_nat N_ITER) w)).
  { clear Hs Hne Hsum. rewrite WorkerProps.calibrate_unfold in H.
    destruct (calibrate_rounds _ _ _) as [[r1 [w1 sh1]] t1] eqn:E.
    destruct r1 as [summ|e|]; try discriminate.
    destruct (meas_get_samples w1) as [[smp|e|] w2]; try discriminate.
    destruct (adapt_get_rxgain w2) as [[g|e|] w3]; try discriminate.
    destruct (adapt_get_digital_gain w3) as [[d|e|] w4]; try discriminate.
    injection H as _ _ <-.
    change (range N_ITER) with (map Z.of_nat (seq 0 (Z.to_nat N_ITER))) in E.
    apply rounds_calls_played in E.
    cbn [calls_of]. rewrite !calls_of_app. cbn [calls_of callee_eqb].
    rewrite E. lia. }
  split; [exact Hc|]. split; [exact Hne|].
  rewrite Hc. exact Hsum.
Qed.

End Facts.

Lemma countdown_never_hangs : never_hangs (co := Stub.countdown).
Proof. repeat split; intros [|n]; discriminate. Qed.

(** X2 at the scripted collaborators, the AGC raising in round 2. *)
Lemma X2_nothing_runs_after_the_end_witness :
  let s := (Stub.raises_at 2, Stub.initial_shared) in
  engine_worker (co := Stub.stub) (["calibrate"] ++ "quit" :: ["calibrate"]) s
    = engine_worker (co := Stub.stub) (["calibrate"] ++ ["quit"]) s /\
  engine_worker (co := Stub.stub) ["calibrate"; "calibrate"; "quit"] s
    = engine_worker (co := Stub.stub) ["calibrate"] s.
Proof.
  intros s.
  destruct (X2_nothing_runs_after_the_end (co := Stub.stub)
              ["calibrate"] ["calibrate"] ["calibrate"; "quit"] [] s)
    as [H1 H2].
  split; [exact H1|]. apply H2.
  exists "USRP not responding". reflexivity.
Defined.

(** X4 at the scripted collaborators. *)
Lemma X4_returns_only_on_quit_witness : In "quit" ["reset"; "calibrate"; "quit"].
Proof.
  apply (X4_returns_only_on_quit (co := Stub.stub) ["reset"; "calibrate"; "quit"]
           ([], Stub.initial_shared)
           (snd (fst (engine_worker (co := Stub.stub)
                        ["reset"; "calibrate"; "quit"]
                        ([], Stub.initial_shared))))
           (snd (engine_worker (co := Stub.stub)
                   ["reset"; "calibrate"; "quit"]
                   ([], Stub.initial_shared)))).
  reflexivity.
Defined.

(** X24 at collaborators that always answer, the AGC failing in round 3. *)
Lemma X24_summary_names_last_round_witness :
  let run := calibrate (co := Stub.countdown) (3%nat, Stub.initial_shared) in
  calls_of AgcRun (snd run) = 4%nat /\
  summary (results (snd (snd (fst run)))) =
    ["Calibration was done:"; "calibration run 3:"; "RX gain too low"].
Proof.
  intros run.
  destruct (X24_summary_names_last_round (co := Stub.countdown) 3%nat
              (fst (snd (fst run))) Stub.initial_shared (snd (snd (fst run)))
              (snd run) eq_refl) as (Hc & _ & Hs).
  split; [exact Hc | exact Hs].
Defined.

(** X5 at collaborators that always answer, the AGC failing in round 1. *)
Lemma X5_worker_ends_on_quit_witness :
  let run :=
    engine_worker (co := Stub.countdown) ["calibrate"; "quit"]
      (1%nat, Stub.initial_shared) in
  fst (fst run) <> Never /\
  state (results (snd (snd (fst run)))) = "Terminated".
Proof.
  apply (X5_worker_ends_on_quit (co := Stub.countdown) ["calibrate"; "quit"]
           1%nat Stub.initial_shared countdown_never_hangs).
  right; left; reflexivity.
Defined.

(** X7 at the scripted collaborators: a run from the dictionaries of
    startup and a run from dictionaries left by an earlier run. *)
Lemma X7_run_overwrites_results_witness :
  let earlier :=
    mk_shared (mk_settings 25 60 2 tt)
      (mk_results 900 800 "Idle" 0 ["Calibration was done:"; "old"]) in
  let run := calibrate (co := Stub.stub) (Stub.fails_at 1, Stub.initial_shared) in
  exists sh2' tr2,
    calibrate (co := Stub.stub) (Stub.fails_at 1, earlier)
      = (Ok tt, ([], sh2'), tr2) /\
    results sh2' = results (snd (snd (fst run))) /\
    rx_gain (settings sh2') = rx_gain (settings (snd (snd (fst run)))) /\
    digital_gain (settings sh2')
      = digital_gain (settings (snd (snd (fst run)))) /\
    same_tx_side earlier sh2'.
Proof.
  intros earlier run.
  apply (X7_run_overwrites_results (co := Stub.stub) (Stub.fails_at 1) []
           Stub.initial_shared (snd (snd (fst run))) earlier (snd run)).
  reflexivity.
Defined.

(** X8 at a remote control that fails on the digital gain. *)
Lemma X8_fault_in_last_critical_section_witness :
  exists shp sh' tr0,
    engine_worker (co := Stub.gain_fault) ["calibrate"; "calibrate"; "quit"]
      ([], Stub.initial_shared)
      = (Raised "RC timeout", ([], sh'),
         tr0 ++ [EvLocked AtRunDone shp; EvLocked AtFinally sh']) /\
    rx_gain (settings shp) = 30 /\
    digital_gain (settings shp) = 1 /\
    state (results shp) = "RX Gain Calibration" /\
    tx_median (results shp) = 0 /\
    rx_median (results shp) = 0 /\
    summary (results shp) = ["DPD has not been calibrated yet"] /\
    settings sh' = settings shp /\
    summary (results sh') = ["DPD has not been calibrated yet"] /\
    state (results sh') = "Terminated".
Proof.
  apply (X8_fault_in_last_critical_section (co := Stub.gain_fault)
           [] [] [] [] [] Stub.initial_shared
           (snd (snd (fst (calibrate_rounds (co := Stub.gain_fault)
                             (range N_ITER) []
                             ([], run_start Stub.initial_shared)))))
           ["calibration run 4:"; "RX gain ok"]
           (snd (calibrate_rounds (co := Stub.gain_fault) (range N_ITER) []
                   ([], run_start Stub.initial_shared)))
           Stub.stub_samples 30 "RC timeout" ["calibrate"; "quit"]);
    reflexivity.
Defined.

End WorkerExtra.

(** ** Python's [split] *)

Module PyExtra.

Lemma split_newline_nonempty (s : string) : split_newline s <> [].
Proof.
  destruct s as [|c s]; cbn [split_newline]; [discriminate|].
  destruct (Ascii.eqb c newline); [discriminate|].
  destruct (split_newline s); discriminate.
Qed.

(** X9: the pieces [split] hands to the summary joined again by line feeds
    are the text it was given; there is always at least one piece, and no
    piece holds a line feed. *)
Theorem X9_split_join (s : string) :
  String.concat (String newline EmptyString) (split_newline s) = s /\
  split_newline s <> [] /\
  Forall (fun piece => ~ In newline (list_ascii_of_string piece))
    (split_newline s).
Proof.
  split; [|split; [apply split_newline_nonempty|]].
  - induction s as [|c s IH]; [reflexivity|].
    cbn [split_newline]. pose proof (split_newline_nonempty s) as Hne.
    destruct (Ascii.eqb_spec c newline) as [->|Hc];
      destruct (split_newline s) as [|piece pieces]; try contradiction.
    + cbn [String.concat]. cbn [String.append]. now rewrite <- IH.
    + cbn [String.concat] in *. destruct pieces as [|p2 pieces].
      * now rewrite IH.
      * cbn [String.append]. now rewrite <- IH.
  - induction s as [|c s IH]; [repeat constructor; intros []|].
    cbn [split_newline].
    destruct (Ascii.eqb_spec c newline) as [->|Hc].
    + constructor; [intros []|assumption].
    + destruct (split_newline s) as [|piece pieces].
      * repeat constructor. cbn. intros [H|[]]. now apply Hc.
      * apply Forall_cons_iff in IH as [Hp Hps].
        constructor; [|assumption].
        cbn. intros [H|H]; [now apply Hc|now apply Hp].
Qed.

End PyExtra.

(** ** The control channel *)

Module ChannelExtra.

Import Engine.

Section Facts.

Context {W Exn Num Dpd Frame Ts Med : Type}.
Context {co : Collaborators W Exn Num Frame Ts Med}.
Context {Addr MsgId Params : Type}.
Variable str_params : Params -> string.

Abbreviation act := (action Addr MsgId Num Dpd).
Abbreviation receipt :=
  (received Addr MsgId Params * shared_t Num Dpd * bool)%type.
Abbreviation inbox_t := (list receipt).

Ltac by_method method :=
  unfold dispatch;
  destruct (String.eqb_spec method "trigger_run");
  [ | destruct (String.eqb_spec method "reset");
      [ | destruct (String.eqb_spec method "set_setting");
          [ | destruct (String.eqb_spec method "get_settings");
              [ | destruct (String.eqb_spec method "get_results");
                  [ | destruct (String.eqb_spec method "calibrate") ]]]]].

Lemma queued_app (a b : list act) : queued (a ++ b) = queued a ++ queued b.
Proof.
  induction a as [|[] a IH]; cbn [app queued]; try assumption;
    [reflexivity|now rewrite IH].
Qed.

(** Nothing is queued before a [put] that waits. *)
Lemma queued_before_put (acts : list act) : queued (before_put acts) = [].
Proof.
  induction acts as [|[] acts IH]; cbn [before_put queued];
    try assumption; reflexivity.
Qed.

(** What one request puts on the queue: its own method name, when that is
    one of the three command methods, and nothing otherwise. *)
Lemma dispatch_queued addr msg_id method params (sh : shared_t Num Dpd) :
  queued (dispatch str_params addr msg_id method params sh : list act) =
  if existsb (String.eqb method) command_methods then [method] else [].
Proof.
  unfold command_methods. cbn [existsb].
  by_method method; subst; cbn; reflexivity.
Qed.

(** The requests that lead to a [put] are those for a command method. *)
Lemma dispatch_has_put addr msg_id method params (sh : shared_t Num Dpd) :
  existsb is_put (dispatch str_params addr msg_id method params sh : list act)
  = existsb (String.eqb method) command_methods.
Proof.
  unfold command_methods. cbn [existsb].
  by_method method; subst; cbn; reflexivity.
Qed.

Lemma dispatch_queued_commands addr msg_id method params
  (sh : shared_t Num Dpd) :
  Forall (fun c => In c command_methods)
    (queued (dispatch str_params addr msg_id method params sh : list act)).
Proof.
  rewrite dispatch_queued. unfold command_methods. cbn [existsb].
  destruct (String.eqb_spec method "trigger_run") as [->|_];
    [repeat constructor|].
  destruct (String.eqb_spec method "reset") as [->|_];
    [repeat constructor; cbn; tauto|].
  destruct (String.eqb_spec method "calibrate") as [->|_];
    [repeat constructor; cbn; tauto|constructor].
Qed.

(** The loop goes on to the next pass exactly when the present one does not
    end it. *)
Lemma control_loop_cons (x : receipt) (rest : inbox_t) :
  control_loop str_params (x :: rest) =
    if ends_loop x then control_loop str_params [x]
    else control_loop str_params [x] ++ control_loop str_params rest.
Proof.
  destruct x as [[[ad m method params|e| | |] sh] pr];
    unfold ends_loop, put_waits; cbn [control_loop fst is_fatal orb];
    rewrite ?andb_false_r; cbn [app]; try reflexivity.
  cbv zeta. rewrite dispatch_has_put, andb_comm.
  destruct (negb pr && existsb (String.eqb method) command_methods);
    [reflexivity|now rewrite app_nil_r].
Qed.

(** What one pass puts on the queue. *)
Lemma pass_queued (x : receipt) :
  exists cmds,
    Forall (fun c => In c command_methods) cmds /\
    queued (control_loop str_params [x]) =
      cmds ++ (if is_fatal (fst (fst x)) && snd x then ["quit"] else []).
Proof.
  destruct x as [[[ad m method params|e| | |] sh] pr];
    cbn [control_loop fst snd is_fatal andb].
  - cbv zeta. destruct (existsb is_put _ && negb pr).
    + exists []. rewrite queued_before_put. now split.
    + exists (queued (dispatch str_params ad m method params sh : list act)).
      rewrite !app_nil_r. split; [apply dispatch_queued_commands|reflexivity].
  - exists []. now split.
  - exists []. now split.
  - exists []. destruct pr; now split.
  - exists []. destruct pr; now split.
Qed.

Lemma quit_queued_cons (x : receipt) (rest : inbox_t) :
  quit_queued (x :: rest) =
    if ends_loop x then is_fatal (fst (fst x)) && snd x else quit_queued rest.
Proof.
  unfold quit_queued. cbn [find].
  destruct (ends_loop x); [|reflexivity]. now destruct x as [[r sh] pr].
Qed.

(** What the control thread puts on the queue over its whole life. *)
Lemma loop_queued (inbox : inbox_t) :
  exists cmds,
    Forall (fun c => In c command_methods) cmds /\
    queued (control_loop str_params inbox) =
      cmds ++ (if quit_queued inbox then ["quit"] else []).
Proof.
  induction inbox as [|x rest IH].
  - exists []. now split.
  - rewrite control_loop_cons, quit_queued_cons.
    destruct (pass_queued x) as (c1 & Hc1 & Hq1).
    destruct (ends_loop x) eqn:E.
    + exists c1. now split.
    + destruct IH as (c2 & Hc2 & Hq2).
      assert (Hf : is_fatal (fst (fst x)) = false)
        by (unfold ends_loop in E; now apply orb_false_elim in E).
      rewrite Hf in Hq1. cbn [andb] in Hq1. rewrite app_nil_r in Hq1.
      exists (c1 ++ c2). split; [apply Forall_app; now split|].
      now rewrite queued_app, Hq1, Hq2, app_assoc.
Qed.



Lemma dispatch_response addr msg_id method params (sh : shared_t Num Dpd)
  (a : act) :
  In a (dispatch str_params addr msg_id method params sh) ->
  is_response a = true -> answers addr msg_id method sh a.
Proof.
  unfold answers, known_methods.
  by_method method; cbn [In]; intros H Hr;
    repeat match goal with
           | H : _ \/ _ |- _ => destruct H
           end;
    subst; try discriminate; try contradiction.
  - left. now split.
  - right; left. now split.
  - right; right. split; [|reflexivity]. cbn [In]. intuition congruence.
Qed.

(** X12: every response the control thread sends answers a request it has
    received: it goes to that request's address under its id, and it is
    [settings] or [results] as they stood when the request was served, or
    the error text for a method that is not known.  A request that failed to
    decode, a timeout and the shutdown send nothing. *)
Theorem X12_responses_answer_requests (inbox : inbox_t) (a : act) :
  In a (control_loop str_params inbox) ->
  is_response a = true ->
  exists addr msg_id method params sh put_returns,
    In (Request addr msg_id method params, sh, put_returns) inbox /\
    answers addr msg_id method sh a.
Proof.
  induction inbox as [|[[[ad m method params|e| | |] sh] pr] rest IH];
    cbn [control_loop]; intros H Hr.
  - contradiction.
  - cbv zeta in H.
    assert (Hd : In a (dispatch str_params ad m method params sh) \/
                 In a (control_loop str_params rest)).
    { destruct (existsb is_put _ && negb pr).
      - left. now apply WorkerProps.before_put_incl.
      - now apply in_app_or. }
    destruct Hd as [Hd|Hd].
    + exists ad, m, method, params, sh, pr. split; [now left|].
      now apply dispatch_response with (params := params).
    + destruct (IH Hd Hr) as (ad' & m' & me' & pa' & sh' & pr' & Hin & Ha).
      exists ad', m', me', pa', sh', pr'. split; [now right|assumption].
  - destruct H as [<-|H]; [discriminate|].
    destruct (IH H Hr) as (ad' & m' & me' & pa' & sh' & pr' & Hin & Ha).
    exists ad', m', me', pa', sh', pr'. split; [now right|assumption].
  - destruct (IH H Hr) as (ad' & m' & me' & pa' & sh' & pr' & Hin & Ha).
    exists ad', m', me', pa', sh', pr'. split; [now right|assumption].
  - destruct pr; cbn in H; decompose [or] H; subst;
      try discriminate; contradiction.
  - destruct pr; cbn in H; decompose [or] H; subst;
      try discriminate; contradiction.
Qed.

(** When ["quit"] went on the queue, the control thread has gone through
    its shutdown and is at [engine.join()]. *)
Lemma quit_queued_shutdown (inbox : inbox_t) :
  quit_queued inbox = true ->
  exists acts, control_loop str_params inbox = acts ++ shutdown.
Proof.
  induction inbox as [|x rest IH]; [discriminate|].
  rewrite control_loop_cons, quit_queued_cons.
  destruct (ends_loop x).
  - destruct x as [[[ad m method params|e| | |] sh] pr];
      cbn [fst snd is_fatal andb]; try discriminate; intros ->;
      cbn [control_loop]; eexists [_]; reflexivity.
  - intros H. destruct (IH H) as [acts ->].
    exists (control_loop str_params [x] ++ acts). apply app_assoc.
Qed.

(** X13: once the receive loop has been left through an exception and the
    [put] of the shutdown has returned, the control thread is at
    [engine.join()], and a worker fed with what the control thread has put
    on the queue, in that order, and whose collaborators always answer,
    ends with ['Terminated']: the [join] returns. *)
Theorem X13_shutdown_ends_the_worker
  (inbox : inbox_t) (w : W) (sh : shared_t Num Dpd) :
  never_hangs ->
  quit_queued inbox = true ->
  let cmds := queued (control_loop str_params inbox) in
  (exists acts,
      control_loop str_params inbox
        = acts ++ [QueuePut "quit"; LoggingInfo "Waiting for DPDCE to stop";
                   EngineJoin]) /\
  fst (fst (engine_worker cmds (w, sh))) <> Never /\
  state (results (snd (snd (fst (engine_worker cmds (w, sh))))))
    = "Terminated".
Proof.
  intros Hn Hf cmds.
  split; [exact (quit_queued_shutdown inbox Hf)|].
  assert (Hq : In "quit" cmds).
  { unfold cmds. destruct (loop_queued inbox) as (c & _ & ->).
    rewrite Hf. apply in_or_app. right. now left. }
  rewrite WorkerProps.engine_worker_unfold.
  pose proof (WorkerExtra.worker_loop_no_hang cmds Hn Hq (w, sh)) as H.
  destruct (worker_loop cmds (w, sh)) as [[r [w1 sh1]] t1]. cbn [fst] in H.
  destruct r; [| |contradiction]; now split.
Qed.

End Facts.


(** X12 on a [get_results] request received after a malformed one. *)
Lemma X12_responses_answer_requests_witness :
  let inbox : list (received string Z unit * shared_t Z unit * bool) :=
    [(RaisedValueError "bad YAML", Stub.initial_shared, true);
     (Request "10.0.0.5" 7 "get_results" tt, Stub.initial_shared, true)] in
  let a : action string Z Z unit :=
    SendSuccessResponse "10.0.0.5" 7
      (PayloadResults (results Stub.initial_shared)) in
  exists addr msg_id method params sh put_returns,
    In (Request addr msg_id method params, sh, put_returns) inbox /\
    answers addr msg_id method sh a.
Proof.
  intros inbox a.
  apply (X12_responses_answer_requests (fun _ : unit => "{}") inbox a);
    [right; left; reflexivity | reflexivity].
Defined.

(** X13 on a [calibrate] request followed by a keyboard interrupt, both
    [put]s returning, with collaborators that always answer. *)
Lemma X13_shutdown_ends_the_worker_witness :
  let inbox : list (received string Z unit * shared_t Z unit * bool) :=
    [(Request "10.0.0.5" 7 "calibrate" tt, Stub.initial_shared, true);
     (RaisedKeyboardInterrupt, Stub.initial_shared, true)] in
  let cmds := queued (control_loop (fun _ : unit => "{}") inbox) in
  (exists acts,
      control_loop (Num := Z) (Dpd := unit) (fun _ : unit => "{}") inbox
        = acts ++ [QueuePut "quit"; LoggingInfo "Waiting for DPDCE to stop";
                   EngineJoin]) /\
  fst (fst (engine_worker (co := Stub.countdown) cmds
              (2%nat, Stub.initial_shared))) <> Never /\
  state (results (snd (snd (fst (engine_worker (co := Stub.countdown) cmds
                                   (2%nat, Stub.initial_shared))))))
    = "Terminated".
Proof.
  intros inbox.
  apply (X13_shutdown_ends_the_worker (co := Stub.countdown)
           (fun _ : unit => "{}") inbox 2%nat Stub.initial_shared
           WorkerExtra.countdown_never_hangs).
  reflexivity.
Defined.

(** What the control thread does on that inbox. *)
Example shutdown_after_calibrate :
  control_loop (Num := Z) (Dpd := unit) (fun _ : unit => "{}")
    [(Request "10.0.0.5" 7 "calibrate" tt, Stub.initial_shared, true);
     (RaisedKeyboardInterrupt, Stub.initial_shared, true)]
  = [LoggingInfo "YAML-RPC request : calibrate"; QueuePut "calibrate";
     LoggingInfo "Caught KeyboardInterrupt"; QueuePut "quit";
     LoggingInfo "Waiting for DPDCE to stop"; EngineJoin].
Proof. reflexivity. Qed.

(** The same inbox when the queue still holds a command that a dead worker
    will never take: the [put] of the shutdown does not return, nothing is
    logged after it and [engine.join()] is not reached. *)
Example shutdown_that_waits :
  control_loop (Num := Z) (Dpd := unit) (fun _ : unit => "{}")
    [(Request "10.0.0.5" 7 "calibrate" tt, Stub.initial_shared, true);
     (RaisedKeyboardInterrupt, Stub.initial_shared, false)]
  = [LoggingInfo "YAML-RPC request : calibrate"; QueuePut "calibrate";
     LoggingInfo "Caught KeyboardInterrupt"].
Proof. reflexivity. Qed.

End ChannelExtra.

(** ** The adaptation cycle *)

Module CycleExtra.

Import Engine Cycle.

Section Facts.

Context {W ES Exn Num Coefs Arr Sh Frame Ts Med : Type}.
Context {co : Cycle.Collaborators W ES Exn Num Coefs Arr Sh Frame Ts Med}.

Abbreviation vars_t := (vars W ES Num Coefs Arr Frame Ts Med).
Abbreviation ev := (Cycle.event Exn Num Coefs Sh).
Abbreviation Cyc := (M vars_t ev Exn).

Lemma kc_ret {A} (a : A) : keeps_counter (ret a : Cyc A).
Proof. intros g. reflexivity. Qed.

Lemma kc_get : keeps_counter (get : Cyc vars_t).
Proof. intros g. reflexivity. Qed.

Lemma kc_raise {A} e : keeps_counter (raise e : Cyc A).
Proof. intros g. reflexivity. Qed.

Lemma kc_logging r : keeps_counter (logging r : Cyc unit).
Proof. intros g. reflexivity. Qed.

Lemma kc_modify (f : vars_t -> vars_t) :
  (forall g, i (f g) = i g) -> keeps_counter (modify f : Cyc unit).
Proof. intros Hf g. apply Hf. Qed.

Lemma kc_call {A} c (f : W -> outcome Exn A * W) :
  keeps_counter (Cycle.call c f).
Proof. intros g. unfold Cycle.call. now destruct (f (world g)). Qed.

Lemma kc_call_extStat {A} c (f : ES * W -> outcome Exn A * (ES * W)) :
  keeps_counter (call_extStat c f).
Proof.
  intros g. unfold call_extStat.
  now destruct (f (extStat g, world g)) as [r [es' w']].
Qed.

Lemma kc_bind {A B} (m : Cyc A) (f : A -> Cyc B) :
  keeps_counter m -> (forall a, keeps_counter (f a)) ->
  keeps_counter (bind m f).
Proof.
  intros Hm Hf g. unfold bind. specialize (Hm g).
  destruct (m g) as [[r g1] t1]. cbn [fst snd] in Hm.
  destruct r as [a|e|]; try assumption.
  specialize (Hf a g1). destruct (f a g1) as [[r2 g2] t2].
  cbn [fst snd] in *. congruence.
Qed.

Ltac kc_tac :=
  repeat first
    [ apply kc_ret | apply kc_get | apply kc_raise | apply kc_logging
    | apply kc_call | apply kc_call_extStat
    | apply kc_modify; intros ?; reflexivity
    | apply kc_bind; [|intros]
    | match goal with
      | |- keeps_counter (if ?b then _ else _) => destruct b
      | |- keeps_counter (match ?d with _ => _ end) => destruct d
      end ].

Lemma kc_measure_step : keeps_counter measure_step.
Proof. unfold measure_step. cbv zeta. kc_tac. Qed.

Lemma kc_model_step : keeps_counter model_step.
Proof. unfold model_step. kc_tac. Qed.

Lemma kc_adapt_step : keeps_counter adapt_step.
Proof. unfold adapt_step. kc_tac. Qed.

(** The Report step returns with the counter advanced, or never returns;
    no exception leaves it. *)
Lemma report_step_counter (g : vars_t) :
  (fst (fst (report_step g)) = Ok tt /\
   i (snd (fst (report_step g))) = i g + 1 /\
   state (snd (fst (report_step g))) = "measure") \/
  (fst (fst (report_step g)) = Never /\
   i (snd (fst (report_step g))) = i g /\
   state (snd (fst (report_step g))) = state g).
Proof.
  unfold report_step, bind, try_except.
  destruct (CycleProps.framed_report_body g) as [(Hi & Hs & _) _].
  destruct (report_body g) as [[[[]|e|] g1] t1]; cbn [fst snd] in *.
  - left. cbn. now rewrite Hi.
  - left. cbn. now rewrite Hi.
  - right. now repeat split.
Qed.

(** An exception that leaves the statements under the outer [try] has not
    moved the counter. *)
Lemma body_raised_counter (g g1 : vars_t) e t1 :
  iteration_body g = (Raised e, g1, t1) -> i g1 = i g.
Proof.
  intros H. unfold iteration_body in H. rewrite CycleProps.bind_get in H.
  destruct (state g =? "measure")%string.
  { pose proof (kc_measure_step g) as K. now rewrite H in K. }
  destruct (state g =? "model")%string.
  { pose proof (kc_model_step g) as K. now rewrite H in K. }
  destruct (state g =? "adapt")%string.
  { pose proof (kc_adapt_step g) as K. now rewrite H in K. }
  destruct (state g =? "report")%string.
  { destruct (report_step_counter g) as [(K & _)|(K & _)];
      rewrite H in K; discriminate. }
  discriminate.
Qed.

(** X14: an exception that escapes the Measure, Model or Adapt step is
    caught by the outer handler: the pass returns normally, having logged
    the failure of iteration [i] and the traceback, with [i] advanced by
    exactly one and [state = 'measure']; whatever the step had already done
    stays done, and the accumulator is not renewed. *)
Theorem X14_failed_iteration_is_skipped
  (g g1 : vars_t) (e : Exn) (t1 : list ev) :
  iteration_body g = (Raised e, g1, t1) ->
  exists g',
    iteration g =
      (Ok tt, g',
       t1 ++ [Logged (ErrIterationFailed (i g)); Logged (ErrTraceback e)]) /\
    i g' = i g + 1 /\
    state g' = "measure" /\
    extStat g' = extStat g1 /\
    world g' = world g1 /\
    state g <> "report".
Proof.
  intros H. pose proof (body_raised_counter _ _ _ _ H) as Hi.
  exists (set_state "measure" (set_i (i g1 + 1) g1)).
  split; [rewrite (CycleProps.iteration_raised _ _ _ _ H), Hi; reflexivity|].
  cbn. rewrite Hi. repeat split.
  intros Hr. rewrite (CycleProps.iteration_body_report g Hr) in H.
  destruct (report_step_counter g) as [(K & _)|(K & _)];
    rewrite H in K; discriminate.
Qed.

(** One pass moves the counter by nothing or by one. *)
Lemma iteration_counter (g : vars_t) :
  i (snd (fst (iteration g))) = i g \/
  i (snd (fst (iteration g))) = i g + 1.
Proof.
  destruct (iteration_body g) as [[[[]|e|] g1] t1] eqn:E.
  - rewrite (CycleProps.iteration_not_raised _ _ _ _ E) by discriminate.
    cbn [fst snd]. unfold iteration_body in E.
    rewrite CycleProps.bind_get in E.
    destruct (state g =? "measure")%string.
    { pose proof (kc_measure_step g) as K. rewrite E in K. now left. }
    destruct (state g =? "model")%string.
    { pose proof (kc_model_step g) as K. rewrite E in K. now left. }
    destruct (state g =? "adapt")%string.
    { pose proof (kc_adapt_step g) as K. rewrite E in K. now left. }
    destruct (state g =? "report")%string.
    { destruct (report_step_counter g) as [(_ & K & _)|(_ & K & _)];
        rewrite E in K; cbn [fst snd] in K; tauto. }
    injection E as <-. now left.
  - rewrite (CycleProps.iteration_raised _ _ _ _ E). cbn.
    rewrite (body_raised_counter _ _ _ _ E). now right.
  - rewrite (CycleProps.iteration_not_raised _ _ _ _ E) by discriminate.
    cbn [fst snd]. unfold iteration_body in E.
    rewrite CycleProps.bind_get in E.
    destruct (state g =? "measure")%string.
    { pose proof (kc_measure_step g) as K. rewrite E in K. now left. }
    destruct (state g =? "model")%string.
    { pose proof (kc_model_step g) as K. rewrite E in K. now left. }
    destruct (state g =? "adapt")%string.
    { pose proof (kc_adapt_step g) as K. rewrite E in K. now left. }
    destruct (state g =? "report")%string.
    { destruct (report_step_counter g) as [(_ & K & _)|(_ & K & _)];
        rewrite E in K; cbn [fst snd] in K; tauto. }
    discriminate.
Qed.

(** X15: along the loop the iteration counter never goes down and moves by
    at most one per pass; started at or below [num_iter], it never goes past
    it, and when the loop condition fails the counter is exactly
    [num_iter]. *)
Theorem X15_counter_stops_at_num_iter (fuel : nat) (g : vars_t) :
  i g <= i (snd (fst (cycle fuel g))) /\
  (i g <= num_iter -> i (snd (fst (cycle fuel g))) <= num_iter) /\
  (i g <= num_iter -> fst (fst (cycle fuel g)) = Ok true ->
   i (snd (fst (cycle fuel g))) = num_iter).
Proof.
  revert g. induction fuel as [|fuel IH]; intros g; cbn [cycle];
    rewrite CycleProps.bind_get;
    destruct (Z.ltb_spec (i g) num_iter) as [Hlt|Hge]; unfold ret;
    cbn [fst snd].
  - repeat split; intros; try lia; discriminate.
  - repeat split; intros; lia.
  - unfold bind. pose proof (iteration_counter g) as Hc.
    destruct (iteration g) as [[[[]|e|] g1] t1]; cbn [fst snd] in *.
    + specialize (IH g1). destruct (cycle fuel g1) as [[r2 g2] t2].
      cbn [fst snd] in *. destruct IH as (A & B & C).
      repeat split; intros; try lia. apply C; [lia|assumption].
    + repeat split; intros; try lia; discriminate.
    + repeat split; intros; try lia; discriminate.
  - repeat split; intros; lia.
Qed.

Lemma train_indices_app (t1 t2 : list ev) :
  train_indices (t1 ++ t2) = train_indices t1 ++ train_indices t2.
Proof.
  induction t1 as [|[[] idx acc|r] t1 IH]; cbn [app train_indices];
    try assumption; [reflexivity|now rewrite IH].
Qed.

Lemma no_train_indices (t : list ev) :
  Forall (fun e => is_train e = false) t -> train_indices t = [].
Proof.
  induction 1 as [|[[] idx acc|r] t H _ IH]; cbn [train_indices];
    try assumption; try reflexivity. discriminate.
Qed.

Lemma next_train_measure (g : vars_t) : state g = "measure" -> next_train g = i g.
Proof. intros H. unfold next_train. now rewrite H. Qed.

Lemma next_train_model (g : vars_t) : state g = "model" -> next_train g = i g.
Proof. intros H. unfold next_train. now rewrite H. Qed.

(** What one pass adds to the calls of the fitter: at most one call, made
    in the Model state with the current index, after which only later
    indices remain. *)
Lemma pass_trains (g : vars_t) :
  (train_indices (snd (iteration g)) = [] \/
   train_indices (snd (iteration g)) = [i g] /\ state g = "model" /\
   (fst (fst (iteration g)) = Ok tt ->
    i g < next_train (snd (fst (iteration g))))) /\
  (fst (fst (iteration g)) = Ok tt ->
   next_train g <= next_train (snd (fst (iteration g)))).
Proof.
  destruct (String.eqb_spec (state g) "measure") as [Hm|Hm].
  { pose proof (CycleProps.measure_pass g Hm) as H.
    pose proof (iteration_counter g) as Hc.
    destruct (iteration g) as [[r g'] t]. destruct H as [Ht H].
    cbn [fst snd] in *. split; [left; now apply no_train_indices|].
    intros _. rewrite (next_train_measure g Hm).
    destruct H as [H|(H & _)];
      [rewrite (next_train_measure g' H)|rewrite (next_train_model g' H)];
      lia. }
  destruct (String.eqb_spec (state g) "model") as [Hmo|Hmo].
  { rewrite (next_train_model g Hmo).
    unfold iteration, try_except.
    rewrite CycleProps.iteration_body_model by assumption.
    unfold model_step. rewrite CycleProps.bind_get.
    destruct (extracted g) as [ex|];
      [destruct (tx ex), (rx ex), (phase_diff ex)|];
      unfold bind, Cycle.call, call_extStat, modify, logging, emit, raise,
        get;
      cbn [fst snd app];
      repeat (match goal with
              | |- context [match ?x with (_, _) => _ end] =>
                  lazymatch x with
                  | context [match _ with _ => _ end] => fail
                  | (_, _) => fail
                  | _ => destruct x as [[?|?|] ?]
                  end
              end; cbn [fst snd app]);
      (split;
       [ first [ left; reflexivity
               | right; split; [reflexivity|]; split; [assumption|];
                 intros _; unfold next_train; cbn; lia
               | right; split; [reflexivity|]; split; [assumption|];
                 intros; discriminate ]
       | intros; first [discriminate | unfold next_train; cbn; lia
                       | unfold next_train; cbn; rewrite Hmo; cbn; lia] ]). }
  destruct (String.eqb_spec (state g) "adapt") as [Ha|Ha].
  { assert (Hn : next_train g = i g + 1) by (unfold next_train; now rewrite Ha).
    rewrite Hn. unfold iteration, try_except.
    rewrite CycleProps.iteration_body_adapt by assumption.
    unfold adapt_step. rewrite CycleProps.bind_get.
    unfold bind, Cycle.call, modify. cbn [fst snd app].
    destruct (adapt_set_predistorter (dpddata g) (world g)) as [[[]|e|] w1];
      cbn [fst snd app];
      (split; [left; reflexivity|]); intros; try discriminate;
      unfold next_train; cbn; lia. }
  destruct (String.eqb_spec (state g) "report") as [Hr|Hr].
  { assert (Hn : next_train g = i g + 1) by (unfold next_train; now rewrite Hr).
    rewrite Hn. unfold iteration, try_except.
    rewrite CycleProps.iteration_body_report by assumption.
    unfold report_step, bind, try_except.
    destruct (CycleProps.framed_report_body g) as [(Hi & Hs & _) Ht].
    apply no_train_indices in Ht.
    destruct (report_body g) as [[[[]|e|] g1] t1]; cbn [fst snd] in *;
      unfold modify, get, logging, emit; cbn [fst snd app].
    - split; [left; now rewrite !app_nil_r|].
      intros _. unfold next_train. cbn. lia.
    - split; [left; rewrite !app_nil_r, train_indices_app, Ht; reflexivity|].
      intros _. unfold next_train. cbn. lia.
    - split; [now left|]. intros; discriminate. }
  unfold iteration, try_except, iteration_body.
  rewrite CycleProps.bind_get.
  apply String.eqb_neq in Hm, Hmo, Ha, Hr. rewrite Hm, Hmo, Ha, Hr.
  cbn. split; [now left|intros _; lia].
Qed.

Lemma cycle_trains (fuel : nat) :
  forall g : vars_t,
    StronglySorted Z.lt (train_indices (snd (cycle fuel g))) /\
    Forall (fun k => next_train g <= k) (train_indices (snd (cycle fuel g))).
Proof.
  induction fuel as [|fuel IH]; intros g; cbn [cycle];
    rewrite CycleProps.bind_get;
    destruct (i g <? num_iter); try (split; constructor).
  unfold bind. destruct (pass_trains g) as [Ht Hn].
  destruct (iteration g) as [[r g1] t1]. cbn [fst snd] in *.
  assert (Hshort :
            StronglySorted Z.lt (train_indices t1) /\
            Forall (fun k => next_train g <= k) (train_indices t1)).
  { destruct Ht as [->|(-> & Hst & _)]; [split; constructor|].
    rewrite (next_train_model g Hst).
    split; repeat constructor. lia. }
  destruct r as [[]|e|]; try exact Hshort.
  specialize (IH g1). destruct (cycle fuel g1) as [[r2 g2] t2].
  cbn [snd] in *. destruct IH as [Hs Hf]. specialize (Hn eq_refl).
  rewrite train_indices_app.
  destruct Ht as [->|(-> & Hst & Hlt)]; cbn [app].
  - split; [assumption|]. eapply Forall_impl; [|exact Hf].
    cbn. intros k Hk. lia.
  - specialize (Hlt eq_refl). rewrite (next_train_model g Hst).
    split.
    + constructor; [assumption|]. eapply Forall_impl; [|exact Hf].
      cbn. intros k Hk. lia.
    + constructor; [lia|]. eapply Forall_impl; [|exact Hf].
      cbn. intros k Hk. lia.
Qed.

(** X16: however long the cycle runs and whatever the collaborators do, the
    fitter is called at most once for each value of the iteration counter,
    in increasing order of it, and never for a value below the one the
    cycle was started with. *)
Theorem X16_one_fit_per_iteration (fuel : nat) (g : vars_t) :
  StronglySorted Z.lt (train_indices (snd (cycle fuel g))) /\
  Forall (fun k => i g <= k) (train_indices (snd (cycle fuel g))).
Proof.
  destruct (cycle_trains fuel g) as [Hs Hf]. split; [assumption|].
  eapply Forall_impl; [|exact Hf]. cbn. intros k Hk.
  unfold next_train in Hk.
  destruct ((state g =? "adapt") || (state g =? "report"))%string; lia.
Qed.

Lemma measure_spins (k : Z) :
  k < num_iter ->
  (forall w : W, exists smp w', meas_get_samples w = (Ok smp, w')) ->
  (forall f1 f2 (es : ES) (w : W),
      exists ex es' w',
        extStat_extract f1 f2 (es, w) = (Ok ex, (es', w')) /\
        extStat_n_meas es' < get_n_meas k) ->
  forall (fuel : nat) (g : vars_t),
    state g = "measure" -> i g = k ->
    fst (fst (cycle fuel g)) = Ok false /\
    i (snd (fst (cycle fuel g))) = k /\
    state (snd (fst (cycle fuel g))) = "measure" /\
    train_indices (snd (cycle fuel g)) = [].
Proof.
  intros Hk Hcap Hext. induction fuel as [|fuel IH]; intros g Hst Hi;
    cbn [cycle]; rewrite CycleProps.bind_get;
    (destruct (Z.ltb_spec (i g) num_iter) as [_|Hge]; [|lia]).
  - now repeat split.
  - destruct (Hcap (world g)) as (smp & w1 & Hm).
    destruct (Hext (txframe_aligned smp) (rxframe_aligned smp) (extStat g) w1)
      as (ex & es1 & w2 & He & Hlow).
    destruct (CycleProps.measure_step_returns g _ _ _ _ _ Hm He)
      as (g' & Hrun & Hi' & _ & Hs).
    rewrite Hi in Hs.
    destruct (Z.geb_spec (extStat_n_meas es1) (get_n_meas k)); [lia|].
    unfold bind.
    rewrite (CycleProps.iteration_not_raised g _ _ _
               (eq_trans (CycleProps.iteration_body_measure g Hst) Hrun))
      by discriminate.
    specialize (IH g' Hs (eq_trans Hi' Hi)).
    destruct (cycle fuel g') as [[r2 g2] t2]. cbn [fst snd] in *.
    destruct IH as (A & B & C & D). repeat split; assumption.
Qed.

(** X25: the iteration budget does not bound the Measure state: when the
    captures and the extraction keep returning while the accumulated count
    stays below [get_n_meas(i)], every further pass is a Measure pass of the
    same iteration; the loop does not end, [i] does not move and the fitter
    is not called. *)
Theorem X25_measure_has_no_budget (g : vars_t) :
  state g = "measure" ->
  i g < num_iter ->
  (forall w : W, exists smp w', meas_get_samples w = (Ok smp, w')) ->
  (forall f1 f2 (es : ES) (w : W),
      exists ex es' w',
        extStat_extract f1 f2 (es, w) = (Ok ex, (es', w')) /\
        extStat_n_meas es' < get_n_meas (i g)) ->
  forall fuel : nat,
    fst (fst (cycle fuel g)) = Ok false /\
    i (snd (fst (cycle fuel g))) = i g /\
    state (snd (fst (cycle fuel g))) = "measure" /\
    train_indices (snd (cycle fuel g)) = [].
Proof.
  intros Hst Hlt Hcap Hext fuel.
  now apply (measure_spins (i g) Hlt Hcap Hext fuel g).
Qed.

End Facts.

(** X25 at an accumulator that drops every capture, over fifty passes. *)
Lemma X25_measure_has_no_budget_witness :
  let g := set_state "measure" (CycleStub.start false) in
  fst (fst (cycle (co := CycleStub.no_growth) 50 g)) = Ok false /\
  i (snd (fst (cycle (co := CycleStub.no_growth) 50 g))) = 0 /\
  state (snd (fst (cycle (co := CycleStub.no_growth) 50 g))) = "measure" /\
  train_indices (snd (cycle (co := CycleStub.no_growth) 50 g)) = [].
Proof.
  intros g.
  apply (X25_measure_has_no_budget (co := CycleStub.no_growth) g).
  - reflexivity.
  - reflexivity.
  - intros w. eexists _, _. reflexivity.
  - intros f1 f2 es w. exists (mk_extracted None None None tt), 0, w.
    split; reflexivity.
Defined.

(** X14 at a capture that fails, in the Measure state of iteration 3. *)
Lemma X14_failed_iteration_is_skipped_witness :
  let g := set_i 3 (set_state "measure" (CycleStub.start false)) in
  let t1 := [Called MeasGetSamples 3 0] in
  exists g',
    iteration (co := CycleStub.capture_fault) g =
      (Ok tt, g',
       t1 ++ [Logged (ErrIterationFailed 3);
              Logged (ErrTraceback "capture timed out")]) /\
    i g' = 3 + 1 /\
    state g' = "measure" /\
    extStat g' = 0 /\
    world g' = false /\
    "measure" <> "report".
Proof.
  intros g t1.
  apply (X14_failed_iteration_is_skipped (co := CycleStub.capture_fault)
           g g "capture timed out" t1).
  reflexivity.
Defined.

(** The calls of the fitter over twenty passes at the test doubles. *)
Example fits_over_twenty_passes :
  train_indices
    (snd (cycle (co := CycleStub.stub) 20 (CycleStub.start false)))
  = [1; 2; 3; 4].
Proof. reflexivity. Qed.

End CycleExtra.

(** ** Startup and the one-shot modes *)

Module BootExtra.

Import Engine Bootstrap.

Section Facts.

Context {W Exn Num Dpd : Type}.
Context {co : Bootstrap.Collaborators W Exn Num Dpd}.

Abbreviation ev := (Bootstrap.event Num Dpd).

Ltac next_call :=
  match goal with
  | |- context [match ?x with (_, _) => _ end] =>
      lazymatch x with
      | context [match _ with _ => _ end] => fail
      | (_, _) => fail
      | _ => destruct x as [[?|?|] ?]
      end
  end.

Ltac run_boot :=
  unfold bootstrap, bind, Bootstrap.call, emit, ret;
  cbn [fst snd app];
  repeat (next_call; cbn [fst snd app]).

Ltac next_call_eq :=
  match goal with
  | |- context [match ?x with (_, _) => _ end] =>
      lazymatch x with
      | context [match _ with _ => _ end] => fail
      | (_, _) => fail
      | _ => destruct x as [[?|?|] ?] eqn:?
      end
  end.

Ltac run_boot_eq :=
  unfold bootstrap, bind, Bootstrap.call, emit, ret;
  cbn [fst snd app];
  repeat (next_call_eq; cbn [fst snd app]).

(** X17: with [--status] the startup reads the four values one after the
    other, logs what the reads returned and leaves with exit code 0, also
    when [--reset] is given with it; it returns exactly when the four reads
    do, and the world is then as the last read left it.  Nothing is written
    to the transmitter and the control port is not opened, whether the
    reads return or not. *)
Theorem X17_status_only_reads (reset : bool) (w : W) :
  bootstrap true reset w = bootstrap true false w /\
  filter is_write (snd (bootstrap true reset w)) = [] /\
  existsb is_open_socket (snd (bootstrap true reset w)) = false /\
  (forall r, fst (fst (bootstrap true reset w)) = Ok r -> r = Exit 0) /\
  hd_error (snd (bootstrap true reset w)) = Some GetTxGain /\
  (forall tx rx dg d w',
      reads_return w tx rx dg d w' ->
      bootstrap true reset w =
        (Ok (Exit 0), w',
         [GetTxGain; GetRxGain; GetDigitalGain; GetPredistorter;
          LogRunning tx rx dg d])) /\
  (forall r w' tr,
      bootstrap true reset w = (Ok r, w', tr) ->
      exists tx rx dg d,
        reads_return w tx rx dg d w' /\
        tr = [GetTxGain; GetRxGain; GetDigitalGain; GetPredistorter;
              LogRunning tx rx dg d]).
Proof.
  split; [reflexivity|].
  split; [run_boot; reflexivity|].
  split; [run_boot; reflexivity|].
  split; [run_boot; intros; try discriminate; congruence|].
  split; [run_boot; reflexivity|].
  split.
  - intros tx rx dg d w' (w1 & w2 & w3 & H1 & H2 & H3 & H4).
    unfold bootstrap, bind, Bootstrap.call, emit, ret.
    rewrite H1. cbn [fst snd]. rewrite H2. cbn [fst snd].
    rewrite H3. cbn [fst snd]. rewrite H4. reflexivity.
  - unfold reads_return. run_boot_eq; intros r w' tr H; try discriminate.
    injection H as <- <- <-. do 4 eexists.
    split; [do 3 eexists; repeat split; eassumption|reflexivity].
Qed.

(** X18: with [--reset] alone the startup writes the digital gain [0.01],
    then the RX gain [0], then asks the model for its predistorter and
    writes what the model returned, and stops at the first of these that
    fails; the TX gain is not written and the control port is not opened.
    It returns exactly when the four reads and these calls do: it has then
    logged the values read, made the three writes in that order, logged the
    reset and left with exit code 0. *)
Theorem X18_reset_writes_defaults (w : W) :
  let tr := snd (bootstrap false true w) in
  (filter is_write tr = [] \/
   filter is_write tr = [SetDigitalGain float_0_01] \/
   filter is_write tr = [SetDigitalGain float_0_01; SetRxGain int_0] \/
   exists d,
     filter is_write tr =
       [SetDigitalGain float_0_01; SetRxGain int_0; SetPredistorter d]) /\
  existsb is_open_socket tr = false /\
  (forall r,
      fst (fst (bootstrap false true w)) = Ok r ->
      r = Exit 0 /\
      exists d,
        filter is_write tr =
          [SetDigitalGain float_0_01; SetRxGain int_0; SetPredistorter d]) /\
  (forall tx rx dg d0 d w4 w',
      reads_return w tx rx dg d0 w4 ->
      writes_return w4 d w' ->
      bootstrap false true w =
        (Ok (Exit 0), w',
         [GetTxGain; GetRxGain; GetDigitalGain; GetPredistorter;
          LogRunning tx rx dg d0;
          SetDigitalGain float_0_01; SetRxGain int_0; ModelGetDpdData;
          SetPredistorter d; LogReset])) /\
  (forall r w' tr',
      bootstrap false true w = (Ok r, w', tr') ->
      exists tx rx dg d0 d w4,
        reads_return w tx rx dg d0 w4 /\
        writes_return w4 d w' /\
        tr' = [GetTxGain; GetRxGain; GetDigitalGain; GetPredistorter;
               LogRunning tx rx dg d0;
               SetDigitalGain float_0_01; SetRxGain int_0; ModelGetDpdData;
               SetPredistorter d; LogReset]).
Proof.
  cbv zeta.
  split; [run_boot; cbn; eauto 6|].
  split; [run_boot; reflexivity|].
  split.
  { run_boot; intros r H; try discriminate.
    injection H as <-. split; [reflexivity|]. cbn. eauto. }
  split.
  - intros tx rx dg d0 d w4 w' (w1 & w2 & w3 & H1 & H2 & H3 & H4)
      (w5 & w6 & w7 & H5 & H6 & H7 & H8).
    unfold bootstrap, bind, Bootstrap.call, emit, ret.
    rewrite H1. cbn [fst snd]. rewrite H2. cbn [fst snd].
    rewrite H3. cbn [fst snd]. rewrite H4. cbn [fst snd].
    rewrite H5. cbn [fst snd]. rewrite H6. cbn [fst snd].
    rewrite H7. cbn [fst snd]. rewrite H8. reflexivity.
  - unfold reads_return, writes_return.
    run_boot_eq; intros r w' tr' H; try discriminate.
    injection H as <- <- <-.
    repeat match goal with u : unit |- _ => destruct u end.
    do 6 eexists.
    split; [do 3 eexists; repeat split; eassumption|].
    split; [do 3 eexists; repeat split; eassumption|reflexivity].
Qed.

(** X19: whatever the flags, the transmitter is not written and the control
    port is not opened before the four reads have returned and have been
    logged: a failing read ends the startup with nothing changed. *)
Theorem X19_reads_come_first (status reset : bool) (w : W) :
  filter is_write (snd (bootstrap status reset w)) <> [] \/
  existsb is_open_socket (snd (bootstrap status reset w)) = true ->
  exists tx rx dg d rest,
    snd (bootstrap status reset w) =
      GetTxGain :: GetRxGain :: GetDigitalGain :: GetPredistorter
        :: LogRunning tx rx dg d :: rest.
Proof.
  destruct status, reset; run_boot; cbn; intros [H|H];
    try congruence; try discriminate; repeat eexists.
Qed.

(** X20: a startup without flags that returns has read the four values,
    logged them, opened the control port and created the AGC, and nothing
    else: it has written nothing to the transmitter; the [settings] it
    serves are the values it has logged, and [results] show ['Idle'],
    progress 0 and the not-calibrated summary. *)
Theorem X20_engine_serves_what_it_read
  (w w' : W) (sh : shared_t Num Dpd) (tr : list ev) :
  bootstrap false false w = (Ok (Serve sh), w', tr) ->
  tr = [GetTxGain; GetRxGain; GetDigitalGain; GetPredistorter;
        LogRunning (tx_gain (settings sh)) (rx_gain (settings sh))
          (digital_gain (settings sh)) (dpddata (settings sh));
        OpenSocket; NewAgc] /\
  results sh =
    mk_results int_0 int_0 "Idle" 0 ["DPD has not been calibrated yet"].
Proof.
  run_boot; intros H; try discriminate.
  injection H as <- <- <-. now split.
Qed.

End Facts.

(** X17 on a transmitter that answers, both flags given. *)
Lemma X17_status_only_reads_witness :
  bootstrap (co := BootStub.stub) true true tt =
    (Ok (Exit 0), tt,
     [GetTxGain; GetRxGain; GetDigitalGain; GetPredistorter;
      LogRunning (QArith_base.Qmake 60 1) (QArith_base.Qmake 30 1)
        (QArith_base.Qmake 1 2) "lut in use"]).
Proof.
  apply (X17_status_only_reads (co := BootStub.stub) true tt).
  exists tt, tt, tt. repeat split; reflexivity.
Defined.

(** X18 on a transmitter that answers: the predistorter written is the
    model's, not the one read at startup. *)
Lemma X18_reset_writes_defaults_witness :
  bootstrap (co := BootStub.stub) false true tt =
    (Ok (Exit 0), tt,
     [GetTxGain; GetRxGain; GetDigitalGain; GetPredistorter;
      LogRunning (QArith_base.Qmake 60 1) (QArith_base.Qmake 30 1)
        (QArith_base.Qmake 1 2) "lut in use";
      SetDigitalGain (QArith_base.Qmake 1 100);
      SetRxGain (QArith_base.Qmake 0 1); ModelGetDpdData;
      SetPredistorter "poly default"; LogReset]).
Proof.
  apply (X18_reset_writes_defaults (co := BootStub.stub) tt) with (w4 := tt).
  - exists tt, tt, tt. repeat split; reflexivity.
  - exists tt, tt, tt. repeat split; reflexivity.
Defined.

(** X19 on the reset mode of a transmitter that answers. *)
Lemma X19_reads_come_first_witness :
  exists tx rx dg d rest,
    snd (bootstrap (co := BootStub.stub) false true tt) =
      GetTxGain :: GetRxGain :: GetDigitalGain :: GetPredistorter
        :: LogRunning tx rx dg d :: rest.
Proof.
  apply (X19_reads_come_first (co := BootStub.stub) false true tt).
  left. discriminate.
Defined.

(** X20 on a transmitter that answers. *)
Lemma X20_engine_serves_what_it_read_witness :
  let run := bootstrap (co := BootStub.stub) false false tt in
  let sh :=
    mk_shared
      (mk_settings (QArith_base.Qmake 30 1) (QArith_base.Qmake 60 1)
         (QArith_base.Qmake 1 2) "lut in use")
      (mk_results (QArith_base.Qmake 0 1) (QArith_base.Qmake 0 1) "Idle" 0
         ["DPD has not been calibrated yet"]) in
  snd run =
    [GetTxGain; GetRxGain; GetDigitalGain; GetPredistorter;
     LogRunning (tx_gain (settings sh)) (rx_gain (settings sh))
       (digital_gain (settings sh)) (dpddata (settings sh));
     OpenSocket; NewAgc] /\
  results sh =
    mk_results (QArith_base.Qmake 0 1) (QArith_base.Qmake 0 1) "Idle" 0
      ["DPD has not been calibrated yet"].
Proof.
  intros run sh.
  apply (X20_engine_serves_what_it_read (co := BootStub.stub) tt tt sh
           (snd run)).
  reflexivity.
Defined.

(** The reset mode on a transmitter that answers. *)
Example reset_on_a_live_transmitter :
  bootstrap (co := BootStub.stub) true true tt
    = bootstrap (co := BootStub.stub) true false tt /\
  filter is_write (snd (bootstrap (co := BootStub.stub) false true tt))
    = [SetDigitalGain (QArith_base.Qmake 1 100);
       SetRxGain (QArith_base.Qmake 0 1); SetPredistorter "poly default"].
Proof. split; reflexivity. Qed.

End BootExtra.

(** ** The command queue *)

Module QueueExtra.

Import CommandQueue.



(** X23: the queue neither reorders nor invents commands: at any time what
    is on the queue followed by what is still to be submitted is the tail of
    the commands the control thread set out with. *)
Theorem X23_commands_keep_their_order (cmds : list string) (c : config) :
  reachable (start cmds) c ->
  exists taken, cmds = taken ++ pending c ++ to_submit c.
Proof.
  intros H. induction H as [|c c' _ [taken IH] Hs]; [now exists []|].
  destruct c as [q todo wk]. cbn [pending to_submit] in IH.
  destruct Hs as [Hs|Hs|faulted Hs].
  - unfold submit_step in Hs. cbn in Hs.
    destruct todo as [|x todo]; [discriminate|].
    destruct (put x q) as [q'|] eqn:E; [|discriminate].
    injection Hs as <-. apply QueueProps.put_some in E as [-> ->].
    exists taken. exact IH.
  - unfold dequeue_step in Hs. cbn in Hs.
    destruct wk; try discriminate.
    destruct q as [|cmd q']; [discriminate|]. cbn in Hs.
    injection Hs as <-. exists (taken ++ [cmd]).
    cbn [pending to_submit]. rewrite IH, <- app_assoc. reflexivity.
  - unfold finish_step in Hs. cbn in Hs.
    destruct wk; try discriminate. injection Hs as <-.
    exists taken. exact IH.
Qed.


(** X23 on the configuration reached by one submission and one [get]. *)
Lemma X23_commands_keep_their_order_witness :
  exists taken,
    ["calibrate"; "quit"] =
      taken ++ pending (mk_config [] ["quit"] (Executing "calibrate"))
        ++ to_submit (mk_config [] ["quit"] (Executing "calibrate")).
Proof.
  apply (X23_commands_keep_their_order ["calibrate"; "quit"]
           (mk_config [] ["quit"] (Executing "calibrate"))).
  eapply ReachStep; [eapply ReachStep; [apply ReachStart|]|].
  - apply StepSubmit. reflexivity.
  - apply StepDequeue. reflexivity.
Defined.

End QueueExtra.
